(** * Pybytes OTA client ([esp32/frozen/Pybytes/_OTA.py])

    A shallow embedding of the classes [OTA] and [WiFiOTA] and the
    properties of the update protocol that the specification states.

    Python objects are modelled as follows.
    - [bytes] / [bytearray] : [list byte]; [str] : [string].
    - exceptions : the type [exn]; a method is a computation in the monad
      [M St], a state monad whose state survives a raised exception (as a
      Python object or local variable does) and which records the calls made
      to the platform ([os], [socket], [pycom], [uhashlib], [print]) as a
      list of events.
    - the device : the record [World] (file system, flash session, the
      attributes [self.ip] / [self.port], what the network will answer and
      which platform calls will fail). *)

From Stdlib Require Import ZArith Ascii String List Bool Lia.
From Stdlib Require Import Strings.Byte Strings.HexString.
From stdpp Require Import base option gmap strings list fin_maps pretty.
Import ListNotations.

Local Open Scope string_scope.
Local Open Scope list_scope.

Abbreviation bytes := (list byte).

(** ** Python [bytes] and [str] helpers *)

Module Py.

Section Seq.
Context {A : Type} (eqb : A -> A -> bool).

(** [p] is a prefix of [l]. *)
Fixpoint starts_with (p l : list A) : bool :=
  match p, l with
  | [], _ => true
  | _ :: _, [] => false
  | a :: p', b :: l' => eqb a b && starts_with p' l'
  end.

(** The parts of [l] before and after the first occurrence of [sep]. *)
Fixpoint partition (sep l : list A) : option (list A * list A) :=
  if starts_with sep l then Some ([], skipn (length sep) l)
  else match l with
       | [] => None
       | a :: l' =>
           match partition sep l' with
           | Some (before, after) => Some (a :: before, after)
           | None => None
           end
       end.

(** [sep in l] *)
Definition contains (sep l : list A) : bool :=
  match partition sep l with Some _ => true | None => false end.

(** [l.split(sep)[1]]: what lies between the first occurrence of [sep]
    and the next one (or the end); [None] is the [IndexError] of a list
    with a single element. *)
Definition split_item1 (sep l : list A) : option (list A) :=
  match partition sep l with
  | None => None
  | Some (_, after) =>
      match partition sep after with
      | Some (mid, _) => Some mid
      | None => Some after
      end
  end.

(** [l.split(sep)[0]] *)
Definition split_item0 (sep l : list A) : list A :=
  match partition sep l with
  | Some (before, _) => before
  | None => l
  end.

(** [l.split(sep, n)[-1]] *)
Fixpoint split_last (n : nat) (sep l : list A) : list A :=
  match n with
  | O => l
  | S n' =>
      match partition sep l with
      | Some (_, after) => split_last n' sep after
      | None => l
      end
  end.
End Seq.

Definition chars (s : string) : list ascii := list_ascii_of_string s.
Definition str (l : list ascii) : string := string_of_list_ascii l.

(** [bytes(s, 'utf8')] and [b.decode()] on ASCII text. *)
Definition encode (s : string) : bytes := list_byte_of_string s.
Definition decode (b : bytes) : string := string_of_list_byte b.

Definition CR : ascii := ascii_of_nat 13.
Definition LF : ascii := ascii_of_nat 10.
Definition CRLF : string := String CR (String LF "").

(** The separator [b'\r\n\r\n']. *)
Definition CRLF2 : bytes := encode (CRLF ++ CRLF).

Definition hexdigit (n : N) : ascii :=
  match n with
  | 0 => "0" | 1 => "1" | 2 => "2" | 3 => "3" | 4 => "4" | 5 => "5"
  | 6 => "6" | 7 => "7" | 8 => "8" | 9 => "9" | 10 => "a" | 11 => "b"
  | 12 => "c" | 13 => "d" | 14 => "e" | _ => "f"
  end%N%char.

(** [ubinascii.hexlify(b).decode()] *)
Fixpoint hexlify (b : bytes) : string :=
  match b with
  | [] => ""
  | x :: b' =>
      let n := Byte.to_N x in
      String (hexdigit (n / 16)) (String (hexdigit (n mod 16)) (hexlify b'))
  end.

Definition upper_char (c : ascii) : ascii :=
  let n := nat_of_ascii c in
  if (97 <=? n)%nat && (n <=? 122)%nat then ascii_of_nat (n - 32) else c.

(** [s.upper()] *)
Fixpoint upper (s : string) : string :=
  match s with
  | EmptyString => EmptyString
  | String c s' => String (upper_char c) (upper s')
  end.

Definition is_lower_hex (c : ascii) : bool :=
  let n := nat_of_ascii c in
  ((48 <=? n) && (n <=? 57) || (97 <=? n) && (n <=? 102))%nat.

End Py.

(** ** Data model *)

(** An entry of the manifest's [new] and [update] lists: the JSON object
    [{"URL": .., "dst_path": .., "hash": ..}]. *)
Record FileEntry := mkFile {
  URL : string;
  dst_path : string;
  hash : string
}.

(** The manifest's [firmware] object. *)
Record FirmwareEntry := mkFirmware { fw_URL : string }.

(** The manifest dictionary; a field is [None] when the key is absent. *)
Record Manifest := mkManifest {
  m_new : option (list FileEntry);
  m_update : option (list FileEntry);
  m_delete : option (list string);
  m_firmware : option FirmwareEntry
}.

(** Python exceptions (all of them subclasses of [Exception]). *)
Inductive exn :=
| OSError
| KeyError (key : string)
| IndexError
| ValueError
| TypeError
| Exception (msg : string).

Definition is_OSError (e : exn) : bool :=
  match e with OSError => true | _ => false end.

(** [str(e)], as the messages printed by [update] show it. *)
Definition exn_str (e : exn) : string :=
  match e with
  | OSError => "OSError"
  | KeyError k => k
  | IndexError => "list index out of range"
  | ValueError => "syntax error in JSON"
  | TypeError => "TypeError"
  | Exception msg => msg
  end.

(** The methods whose entry and exit are recorded. *)
Inductive Call :=
| CGetFile (f : FileEntry)
| CBackupFile (f : FileEntry)
| CDeleteFile (f : string)
| CWriteFirmware (f : FirmwareEntry).

(** What a run does to the platform, in order. *)
Inductive Event :=
| EvEnter (c : Call)
| EvExit (c : Call) (ok : bool)
| EvRemove (path : string)               (* os.remove *)
| EvRename (src dst : string)            (* os.rename *)
| EvConnect (ip : string) (port : Z)     (* socket.connect / ssl.wrap_socket *)
| EvSend (req : bytes)                   (* s.sendall *)
| EvRecv                                 (* s.recv(50) *)
| EvSockClose                            (* s.close *)
| EvOpen (path : string)                 (* open(path, 'wb') *)
| EvWrite (path : string) (d : bytes)    (* fp.write *)
| EvClose (path : string)                (* fp.close *)
| EvOtaStart                             (* pycom.ota_start *)
| EvOtaWrite (d : bytes)                 (* pycom.ota_write *)
| EvOtaFinish                            (* pycom.ota_finish *)
| EvSha1New                              (* uhashlib.sha1() *)
| EvSha1Update (d : bytes)               (* h.update *)
| EvSha1Digest                           (* h.digest *)
| EvPrint (msg : string)                 (* print / print_debug *)
| EvReset.                               (* machine.reset *)

(** JSON values, as [ujson] and [urequest] hand them to the program. *)
#[warnings="-register-all"]
Inductive json :=
| JNull
| JBool (b : bool)
| JNum (z : Z)
| JStr (s : string)
| JArr (l : list json)
| JObj (members : list (string * json)).

(** The device and its surroundings.
    - [fs] : the files, by path;
    - [flash] : what the current flash-write session has received;
    - [ip], [port] : the attributes [self.ip] and [self.port];
    - [net] : for each connection still to be opened, the values that the
      successive [s.recv(50)] will return (then [b'']);
    - [web] : the JSON documents that [urequest.get(url).json()] finds,
      by URL;
    - [faults] : for each input/output call still to be made, whether it
      raises [OSError]; when the list is used up no call fails. *)
Record World := mkWorld {
  fs : gmap string bytes;
  flash : bytes;
  ip : string;
  port : Z;
  net : list (list bytes);
  web : gmap string json;
  faults : list bool
}.

Definition set_fs (g : gmap string bytes -> gmap string bytes) (w : World) : World :=
  mkWorld (g (fs w)) (flash w) (ip w) (port w) (net w) (web w) (faults w).
Definition set_flash (g : bytes -> bytes) (w : World) : World :=
  mkWorld (fs w) (g (flash w)) (ip w) (port w) (net w) (web w) (faults w).
Definition set_target (i : string) (p : Z) (w : World) : World :=
  mkWorld (fs w) (flash w) i p (net w) (web w) (faults w).
Definition set_net (n : list (list bytes)) (w : World) : World :=
  mkWorld (fs w) (flash w) (ip w) (port w) n (web w) (faults w).
Definition set_faults (l : list bool) (w : World) : World :=
  mkWorld (fs w) (flash w) (ip w) (port w) (net w) (web w) l.

(** ** The monad of methods *)

Inductive result (A : Type) :=
| Ok (a : A)
| Raise (e : exn).
Arguments Ok {A} a.
Arguments Raise {A} e.

(** The outcome of a run: the value returned or the exception raised, the
    state reached and the events of the run. *)
Record Out (St A : Type) := mkOut {
  res : result A;
  st : St;
  evs : list Event
}.
Arguments mkOut {St A} res st evs.
Arguments res {St A} o.
Arguments st {St A} o.
Arguments evs {St A} o.

Definition M (St A : Type) : Type := St -> Out St A.

Definition ret {St A} (a : A) : M St A := fun s => mkOut (Ok a) s [].

Definition raise {St A} (e : exn) : M St A := fun s => mkOut (Raise e) s [].

Definition bind {St A B} (m : M St A) (k : A -> M St B) : M St B :=
  fun s =>
    let o := m s in
    match res o with
    | Ok a => let o' := k a (st o) in mkOut (res o') (st o') (evs o ++ evs o')
    | Raise e => mkOut (Raise e) (st o) (evs o)
    end.

(** [try: m  except <those e with sel e>: h e] *)
Definition try_except {St A} (m : M St A) (sel : exn -> bool) (h : exn -> M St A)
  : M St A :=
  fun s =>
    let o := m s in
    match res o with
    | Ok a => o
    | Raise e =>
        if sel e
        then let o' := h e (st o) in mkOut (res o') (st o') (evs o ++ evs o')
        else o
    end.

Definition emit {St} (e : Event) : M St unit := fun s => mkOut (Ok tt) s [e].
Definition get {St} : M St St := fun s => mkOut (Ok s) s [].
Definition modify {St} (g : St -> St) : M St unit := fun s => mkOut (Ok tt) (g s) [].

Declare Scope ota_scope.
Delimit Scope ota_scope with ota.
Notation "x <- m ;; k" := (bind m (fun x => k))
  (at level 100, m at next level, right associativity) : ota_scope.
Notation "m ;; k" := (bind m (fun _ => k))
  (at level 100, right associativity) : ota_scope.
Local Open Scope ota_scope.

Definition any_exception (_ : exn) : bool := true.

(** ** The platform *)

(** An input/output call: recorded, and failing when the world says so. *)
Definition io (e : Event) : M World unit :=
  emit e ;;
  w <- get ;;
  match faults w with
  | [] => ret tt
  | failing :: rest =>
      modify (set_faults rest) ;;
      if failing then raise OSError else ret tt
  end.

Definition print {St} (msg : string) : M St unit := emit (EvPrint msg).

(** [os.remove(path)]: [OSError] when there is no such file. *)
Definition os_remove (path : string) : M World unit :=
  emit (EvRemove path) ;;
  w <- get ;;
  match fs w !! path with
  | None => raise OSError
  | Some _ => modify (set_fs (delete path))
  end.

(** [os.rename(src, dst)]: [OSError] when there is no [src]; otherwise the
    file is known as [dst] from now on. *)
Definition os_rename (src dst : string) : M World unit :=
  emit (EvRename src dst) ;;
  w <- get ;;
  match fs w !! src with
  | None => raise OSError
  | Some data => modify (set_fs (fun m => <[dst := data]> (delete src m)))
  end.

(** What the platform's libraries compute: parameters of the development. *)
(** What [ujson.loads] makes of a manifest payload: [None] for the text
    [null], a dictionary for an object of the manifest's shape. *)
Abbreviation manifest_opt := (option Manifest).

Class Platform := {
  (** [uhashlib.sha1]: the 20-byte digest of what the context was fed. *)
  sha1 : bytes -> bytes;
  (** [int(s)]; [None] is [ValueError]. *)
  py_int : string -> option Z;
  (** [ujson.loads] on a manifest payload; [None] is [ValueError]. *)
  ujson_loads : string -> option manifest_opt;
  (** [ujson.dumps] on the configuration dictionary. *)
  ujson_dumps : gmap string json -> string;
  (** [str(x)], as [format] prints a value. *)
  py_str : json -> string;
  (** [os.uname().release], [os.uname().sysname], [machine.unique_id()],
      [pycom.ota_slot()], [hasattr(os.uname(), 'pymesh')] and
      [hasattr(os.uname(), 'pygate')]. *)
  release : string;
  sysname : string;
  unique_id : bytes;
  ota_slot : Z;
  has_pymesh : bool;
  has_pygate : bool;
  (** [constants.__DEFAULT_PYCONFIG_PROTOCOL] and
      [constants.__DEFAULT_PYCONFIG_DOMAIN]. *)
  pyconfig_protocol : string;
  pyconfig_domain : string
}.

(** ** [WiFiOTA.get_data] *)

(** What [get_data] returns: [None], bytes, the digest string, or a pair of
    bytes and digest. *)
Inductive retval :=
| RNone
| RBytes (b : bytes)
| RHex (d : string)
| RPair (b : bytes) (d : string).

(** The local variables of [get_data], with the world it runs in. *)
Record Frame := mkFrame {
  world : World;
  h : option bytes;        (* the digest context: what it has been fed *)
  content : bytes;
  fp : option string;      (* the open file, by path *)
  start_writing : bool
}.

Definition set_world (w : World) (fr : Frame) : Frame :=
  mkFrame w (h fr) (content fr) (fp fr) (start_writing fr).
Definition set_h (x : option bytes) (fr : Frame) : Frame :=
  mkFrame (world fr) x (content fr) (fp fr) (start_writing fr).
Definition set_content (c : bytes) (fr : Frame) : Frame :=
  mkFrame (world fr) (h fr) c (fp fr) (start_writing fr).
Definition set_fp (p : option string) (fr : Frame) : Frame :=
  mkFrame (world fr) (h fr) (content fr) p (start_writing fr).
Definition set_start_writing (b : bool) (fr : Frame) : Frame :=
  mkFrame (world fr) (h fr) (content fr) (fp fr) b.

(** A call on the world, made from inside [get_data]. *)
Definition liftW {A} (m : M World A) : M Frame A :=
  fun fr => let o := m (world fr) in mkOut (res o) (set_world (st o) fr) (evs o).

(** [WiFiOTA._http_get] *)
Definition _http_get (path host : string) : bytes :=
  Py.encode ("GET /" ++ path ++ " HTTP/1.0" ++ Py.CRLF
             ++ "Host: " ++ host ++ Py.CRLF ++ Py.CRLF).

(** [socket.socket(..)], [s.connect(..)] and, on port 443,
    [ssl.wrap_socket(s)]: the socket is the list of what it will receive. *)
Definition socket_connect : M World (list bytes) :=
  w <- get ;;
  io (EvConnect (ip w) (port w)) ;;
  w <- get ;;
  match net w with
  | [] => ret []
  | s :: others => modify (set_net others) ;; ret s
  end.

(** [fp = open(dest_path, 'wb')] *)
Definition file_open (path : string) : M Frame unit :=
  liftW (io (EvOpen path) ;; modify (set_fs (fun m => <[path := []]> m))) ;;
  modify (set_fp (Some path)).

(** [fp.write(result)] *)
Definition file_write (path : string) (d : bytes) : M World unit :=
  io (EvWrite path d) ;;
  modify (set_fs (fun m => <[path := default [] (m !! path) ++ d]> m)).

(** [pycom.ota_start()], [pycom.ota_write(result)], [pycom.ota_finish()] *)
Definition ota_start : M World unit :=
  io EvOtaStart ;; modify (set_flash (fun _ => [])).
Definition ota_write (d : bytes) : M World unit :=
  io (EvOtaWrite d) ;; modify (set_flash (fun old => old ++ d)).
Definition ota_finish : M World unit := io EvOtaFinish.

(** [h = uhashlib.sha1()], [h.update(d)], [h.digest()] *)
Definition sha1_new : M Frame unit :=
  emit EvSha1New ;; modify (set_h (Some [])).

Definition sha1_update (d : bytes) : M Frame unit :=
  fr <- get ;;
  match h fr with
  | None => raise TypeError
  | Some fed => emit (EvSha1Update d) ;; modify (set_h (Some (fed ++ d)))
  end.

Definition sha1_digest `{Platform} : M Frame bytes :=
  fr <- get ;;
  match h fr with
  | None => raise TypeError
  | Some fed => emit EvSha1Digest ;; ret (sha1 fed)
  end.

(** The body of the [while] loop, up to the next [s.recv(50)]. *)
Definition loop_body (hash firmware : bool) (result : bytes) : M Frame unit :=
  fr <- get ;;
  (* Ignore the HTTP headers *)
  result <-
    (if negb (start_writing fr) then
       if Py.contains Byte.eqb Py.CRLF2 result then
         modify (set_start_writing true) ;;
         match Py.split_item1 Byte.eqb Py.CRLF2 result with
         | Some r => ret r
         | None => raise IndexError
         end
       else ret result
     else ret result) ;;
  fr <- get ;;
  if start_writing fr then
    (if firmware then liftW (ota_write result)
     else match fp fr with
          | None => modify (set_content (content fr ++ result))
          | Some path => liftW (file_write path result)
          end) ;;
    (if hash then sha1_update result else ret tt)
  else ret tt.

(** [while (len(result) > 0): ...; result = s.recv(50)], where [s] holds
    what the socket has still to deliver. *)
Fixpoint recv_loop (hash firmware : bool) (result : bytes) (s : list bytes)
  : M Frame unit :=
  match result with
  | [] => ret tt
  | _ :: _ =>
      loop_body hash firmware result ;;
      liftW (io EvRecv) ;;
      match s with
      | [] => ret tt
      | next :: s' => recv_loop hash firmware next s'
      end
  end.

Definition get_data_frame `{Platform} (req : string) (dest_path : option string)
    (hash firmware : bool) : M Frame retval :=
  (* h = None is the initial frame *)
  w <- liftW get ;;
  (* Connect to server *)
  s <- liftW socket_connect ;;
  (* Request File *)
  liftW (io (EvSend (_http_get req (ip w ++ ":" ++ pretty (port w))))) ;;
  try_except
    (modify (set_content []) ;;
     modify (set_fp None) ;;
     match dest_path with
     | Some path =>
         if firmware then raise (Exception "Cannot write firmware to a file")
         else file_open path
     | None => ret tt
     end ;;
     (if firmware then liftW ota_start else ret tt) ;;
     sha1_new ;;
     (* Get data from server *)
     liftW (io EvRecv) ;;
     modify (set_start_writing false) ;;
     recv_loop hash firmware (hd [] s) (tl s) ;;
     liftW (io EvSockClose) ;;
     fr <- get ;;
     match fp fr with
     | Some path => liftW (io (EvClose path))
     | None => ret tt
     end ;;
     if firmware then liftW ota_finish else ret tt)
    any_exception
    (fun e =>
       (* Since only one hash operation is allowed at Once
          ensure we close it if there is an error *)
       fr <- get ;;
       match h fr with
       | Some _ => sha1_digest ;; ret tt
       | None => ret tt
       end ;;
       raise e) ;;
  d <- sha1_digest ;;
  let hash_val := Py.hexlify d in
  fr <- get ;;
  match dest_path with
  | None =>
      if hash then ret (RPair (content fr) hash_val)
      else ret (RBytes (content fr))
  | Some _ =>
      if hash then ret (RHex hash_val) else ret RNone
  end.

Definition get_data `{Platform} (req : string) (dest_path : option string)
    (hash firmware : bool) : M World retval :=
  fun w =>
    let o := get_data_frame req dest_path hash firmware (mkFrame w None [] None false) in
    mkOut (res o) (world (st o)) (evs o).

(** ** A reference platform

    The theorems below hold for every [Platform]; the examples run on this
    one: SHA-1 as FIPS 180-4 defines it, and [int] on decimal digits. *)

Module Sha1.
Local Open Scope Z_scope.

Definition mask : Z := 0xFFFFFFFF.
Definition wrap (x : Z) : Z := Z.land x mask.
Definition rotl (n x : Z) : Z :=
  wrap (Z.lor (Z.shiftl x n) (Z.shiftr x (32 - n))).

Definition byteZ (b : byte) : Z := Z.of_N (Byte.to_N b).
Definition Zbyte (z : Z) : byte :=
  match Byte.of_N (Z.to_N (Z.land z 0xFF)) with Some b => b | None => x00 end.

(** The message, the bit 1, zeros up to 56 modulo 64, the bit length. *)
Definition be_bytes (n : nat) (z : Z) : bytes :=
  map (fun i => Zbyte (Z.shiftr z (8 * Z.of_nat i))) (rev (seq 0 n)).

Definition pad (msg : bytes) : bytes :=
  let len := length msg in
  let zeros := ((64 - (len + 9) mod 64) mod 64)%nat in
  msg ++ [x80] ++ repeat x00 zeros ++ be_bytes 8 (8 * Z.of_nat len).

Fixpoint words (n : nat) (b : bytes) : list Z :=
  match n, b with
  | S n', b0 :: b1 :: b2 :: b3 :: rest =>
      (Z.shiftl (byteZ b0) 24 + Z.shiftl (byteZ b1) 16
       + Z.shiftl (byteZ b2) 8 + byteZ b3) :: words n' rest
  | _, _ => []
  end.

(** The message schedule, last word first. *)
Fixpoint schedule (k : nat) (rev_w : list Z) : list Z :=
  match k with
  | O => rev_w
  | S k' =>
      let x := Z.lxor (Z.lxor (nth 2 rev_w 0) (nth 7 rev_w 0))
                      (Z.lxor (nth 13 rev_w 0) (nth 15 rev_w 0)) in
      schedule k' (rotl 1 x :: rev_w)
  end.

Record state := mkState { ha : Z; hb : Z; hc : Z; hd : Z; he : Z }.

Definition round (t : nat) (w : Z) (s : state) : state :=
  let '(mkState a b c d e) := s in
  let '(f, k) :=
    if (t <? 20)%nat then
      (Z.lor (Z.land b c) (Z.land (Z.lxor b mask) d), 0x5A827999)
    else if (t <? 40)%nat then
      (Z.lxor (Z.lxor b c) d, 0x6ED9EBA1)
    else if (t <? 60)%nat then
      (Z.lor (Z.lor (Z.land b c) (Z.land b d)) (Z.land c d), 0x8F1BBCDC)
    else
      (Z.lxor (Z.lxor b c) d, 0xCA62C1D6) in
  mkState (wrap (rotl 5 a + f + e + k + w)) a (rotl 30 b) c d.

Fixpoint rounds (t : nat) (ws : list Z) (s : state) : state :=
  match ws with
  | [] => s
  | w :: ws' => rounds (S t) ws' (round t w s)
  end.

Definition block (s : state) (b : bytes) : state :=
  let ws := rev (schedule 64 (rev (words 16 b))) in
  let s' := rounds 0 ws s in
  mkState (wrap (ha s + ha s')) (wrap (hb s + hb s')) (wrap (hc s + hc s'))
          (wrap (hd s + hd s')) (wrap (he s + he s')).

Fixpoint blocks (n : nat) (s : state) (b : bytes) : state :=
  match n with
  | O => s
  | S n' => blocks n' (block s (firstn 64 b)) (skipn 64 b)
  end.

Definition digest (msg : bytes) : bytes :=
  let p := pad msg in
  let s := blocks (length p / 64)
             (mkState 0x67452301 0xEFCDAB89 0x98BADCFE 0x10325476 0xC3D2E1F0) p in
  be_bytes 4 (ha s) ++ be_bytes 4 (hb s) ++ be_bytes 4 (hc s)
  ++ be_bytes 4 (hd s) ++ be_bytes 4 (he s).

End Sha1.

(** [int(s)] for a string of decimal digits. *)
Fixpoint digits_value (acc : Z) (s : string) : option Z :=
  match s with
  | EmptyString => Some acc
  | String c s' =>
      let n := nat_of_ascii c in
      if ((48 <=? n) && (n <=? 57))%nat
      then digits_value (10 * acc + Z.of_nat (n - 48)) s'
      else None
  end.

Definition decimal_int (s : string) : option Z :=
  match s with
  | EmptyString => None
  | _ => digits_value 0 s
  end.

(** ** [OTA]: the methods on files *)

(** How the body of a loop ends: it goes on to the next round, it leaves
    the loop ([break]), or it leaves the method ([return v]). *)
Inductive flow (A : Type) :=
| Next
| Break
| Return (v : A).
Arguments Next {A}.
Arguments Break {A}.
Arguments Return {A} v.

(** [for _ in range(n): body  else: orelse] *)
Fixpoint for_range {St A} (n : nat) (body orelse : M St (flow A)) : M St (flow A) :=
  match n with
  | O => orelse
  | S n' =>
      c <- body ;;
      match c with
      | Next => for_range n' body orelse
      | Break => ret Next
      | Return v => ret (Return v)
      end
  end.

(** [for x in l: body x] *)
Fixpoint for_each {St A B} (l : list B) (body : B -> M St (flow A)) : M St (flow A) :=
  match l with
  | [] => ret Next
  | x :: l' =>
      c <- body x ;;
      match c with
      | Next => for_each l' body
      | Break => ret Next
      | Return v => ret (Return v)
      end
  end.

Definition is_ok {A} (r : result A) : bool :=
  match r with Ok _ => true | Raise _ => false end.

(** A method whose entry and exit are recorded. *)
Definition traced {A} (c : Call) (m : M World A) : M World A :=
  fun w =>
    let o := m w in
    mkOut (res o) (st o) (EvEnter c :: evs o ++ [EvExit c (is_ok (res o))]).

(** [url.split("/", 3)[-1]] *)
Definition url_path (url : string) : string :=
  Py.str (Py.split_last Ascii.eqb 3 (Py.chars "/") (Py.chars url)).

(** [hash != f['hash']] for the value [get_data] returned. *)
Definition differs (v : retval) (s : string) : bool :=
  match v with
  | RHex d => negb (String.eqb d s)
  | _ => true
  end.

Definition retval_str (v : retval) : string :=
  match v with
  | RHex d => d
  | RNone => "None"
  | RBytes b => Py.decode b
  | RPair b d => (Py.decode b ++ ", " ++ d)%string
  end.

Section OTA.
Context `{Platform}.

Definition get_file (f : FileEntry) : M World unit :=
  traced (CGetFile f) (
    let new_path := (dst_path f ++ ".new")%string in
    (* If a .new file exists from a previously failed update delete it *)
    try_except (os_remove new_path) is_OSError (fun _ => ret tt) ;;
    (* Download new file with a .new extension to not overwrite the existing
       file until the hash is verified. *)
    hash_val <- get_data (url_path (URL f)) (Some new_path) true false ;;
    (* Hash mismatch *)
    if differs hash_val (hash f) then
      print (retval_str hash_val ++ " " ++ hash f) ;;
      raise (Exception "Downloaded file's hash does not match expected hash")
    else ret tt).

Definition backup_file (f : FileEntry) : M World unit :=
  traced (CBackupFile f) (
    let bak_path := (dst_path f ++ ".bak")%string in
    let dest_path := dst_path f in
    (* Delete previous backup if it exists *)
    try_except (os_remove bak_path) is_OSError (fun _ => ret tt) ;;
    (* Backup current file *)
    os_rename dest_path bak_path).

Definition delete_file (f : string) : M World unit :=
  traced (CDeleteFile f) (
    let bak_path := ("/" ++ f ++ ".bak_del")%string in
    let dest_path := ("/" ++ f)%string in
    (* Delete previous delete backup if it exists *)
    try_except (os_remove bak_path) is_OSError (fun _ => ret tt) ;;
    (* Backup current file *)
    os_rename dest_path bak_path).

Definition write_firmware (f : FirmwareEntry) : M World unit :=
  traced (CWriteFirmware f) (
    (* url = f['URL'].split("//")[1].split("/")[0] *)
    url <- match Py.split_item1 Ascii.eqb (Py.chars "//") (Py.chars (fw_URL f)) with
           | Some rest => ret (Py.split_item0 Ascii.eqb (Py.chars "/") rest)
           | None => raise IndexError
           end ;;
    (if Py.contains Ascii.eqb (Py.chars ":") url then
       match Py.split_item1 Ascii.eqb (Py.chars ":") url with
       | Some p =>
           match py_int (Py.str p) with
           | Some n =>
               modify (set_target (Py.str (Py.split_item0 Ascii.eqb (Py.chars ":") url)) n)
           | None =>
               w <- get ;;
               modify (set_target (Py.str (Py.split_item0 Ascii.eqb (Py.chars ":") url)) (port w)) ;;
               raise ValueError
           end
       | None => raise IndexError
       end
     else modify (set_target (Py.str url) 443)) ;;
    get_data (url_path (fw_URL f)) None true true ;;
    (* TODO: Add verification when released in future firmware *)
    ret tt).

(** ** [OTA.get_update_manifest] and [OTA.update] *)

(** [str(x)] for an optional string: [None] prints as such. *)
Definition str_opt (x : option string) : string :=
  match x with Some s => s | None => "None" end.

Definition get_update_manifest (fwtype token : option string) : M World manifest_opt :=
  let current_version := release in
  let wmac := Py.hexlify unique_id in
  let req :=
    match fwtype with
    | Some "pymesh" =>
        let current_fwtype := if has_pymesh then "pymesh" else "pybytes" in
        ("manifest.json?current_ver=" ++ current_version ++ "&sysname=" ++ sysname
         ++ "&token=" ++ str_opt token ++ "&ota_slot=" ++ HexString.of_Z ota_slot
         ++ "&wmac=" ++ Py.upper wmac ++ "&fwtype=" ++ str_opt fwtype
         ++ "&current_fwtype=" ++ current_fwtype)%string
    | Some "pygate" =>
        let current_fwtype := if has_pygate then "pygate" else "pybytes" in
        ("manifest.json?current_ver=" ++ current_version ++ "&sysname=" ++ sysname
         ++ "&ota_slot=" ++ HexString.of_Z ota_slot
         ++ "&wmac=" ++ Py.upper wmac ++ "&fwtype=" ++ str_opt fwtype
         ++ "&current_fwtype=" ++ current_fwtype)%string
    | _ =>
        ("manifest.json?current_ver=" ++ current_version ++ "&sysname=" ++ sysname
         ++ "&wmac=" ++ wmac ++ "&ota_slot=" ++ HexString.of_Z ota_slot)%string
    end in
  data <- get_data req None false false ;;
  manifest_data <- match data with
                   | RBytes b => ret (Py.decode b)
                   | _ => raise TypeError
                   end ;;
  match ujson_loads manifest_data with
  | Some manifest => ret manifest
  | None => raise ValueError
  end.

(** [not customManifest]: [None] and the empty dictionary are false. *)
Definition falsy (m : manifest_opt) : bool :=
  match m with
  | None => true
  | Some (mkManifest None None None None) => true
  | Some _ => false
  end.

Definition update (customManifest : manifest_opt) (fwtype token : option string)
  : M World Z :=
  r <- try_except
         (manifest <- (if falsy customManifest
                       then get_update_manifest fwtype token
                       else ret customManifest) ;;
          ret (inl manifest))
         any_exception
         (fun e =>
            print ("Error reading the manifest, aborting: " ++ exn_str e) ;;
            ret (inr 0%Z)) ;;
  match r with
  | inr v => ret v
  | inl None =>
      print "Already on the latest version" ;;
      ret 1%Z
  | inl (Some manifest) =>
      (* Download new files and verify hashes *)
      c <- match m_new manifest, m_update manifest with
           | Some new, Some upd =>
               c <- for_each (new ++ upd) (fun f =>
                      (* Upto 5 retries *)
                      for_range 5
                        (try_except
                           (get_file f ;; ret Break)
                           any_exception
                           (fun e =>
                              print (exn_str e) ;;
                              print ("Error downloading `" ++ URL f ++ "` retrying...") ;;
                              ret (Return 0%Z)))
                        (raise (Exception ("Failed to download `" ++ URL f ++ "`")))) ;;
               match c with
               | Return v => ret (Return v)
               | _ =>
                   (* Backup old files
                      only once all files have been successfully downloaded *)
                   for_each upd (fun f => backup_file f ;; ret (@Next Z)) ;;
                   (* Rename new files to proper name *)
                   for_each (new ++ upd) (fun f =>
                     let new_path := (dst_path f ++ ".new")%string in
                     let dest_path := dst_path f in
                     os_rename new_path dest_path ;; ret Next)
               end
           | _, _ => ret Next
           end ;;
      match c with
      | Return v => ret v
      | _ =>
          match m_delete manifest with
          | Some l =>
              (* `Delete` files no longer required
                 This actually makes a backup of the files incase we need to roll back *)
              for_each l (fun f => delete_file f ;; ret (@Next Z))
          | None => ret Next
          end ;;
          (* Flash firmware *)
          match m_firmware manifest with
          | Some fw => write_firmware fw
          | None => ret tt
          end ;;
          ret 2%Z
      end
  end.

End OTA.

(** ** [WiFiOTA]: the network configuration *)

(** The dictionary [config], which the caller shares with the methods, and
    the world. *)
Record NetCtx := mkNetCtx {
  nc_world : World;
  config : gmap string json
}.

Definition set_config (g : gmap string json -> gmap string json) (c : NetCtx) : NetCtx :=
  mkNetCtx (nc_world c) (g (config c)).

Definition liftN {A} (m : M World A) : M NetCtx A :=
  fun c => let o := m (nc_world c) in mkOut (res o) (mkNetCtx (st o) (config c)) (evs o).

Fixpoint assoc (key : string) (members : list (string * json)) : option json :=
  match members with
  | [] => None
  | (k, v) :: rest => if String.eqb k key then Some v else assoc key rest
  end.

Definition is_str (key : string) (v : json) : bool :=
  match v with JStr s => String.eqb s key | _ => false end.

(** [key in v] *)
Definition json_in {St} (key : string) (v : json) : M St bool :=
  match v with
  | JObj members => ret (match assoc key members with Some _ => true | None => false end)
  | JArr l => ret (existsb (is_str key) l)
  | JStr s => ret (Py.contains Ascii.eqb (Py.chars key) (Py.chars s))
  | _ => raise TypeError
  end.

(** [v[key]] *)
Definition json_get {St} (v : json) (key : string) : M St json :=
  match v with
  | JObj members =>
      match assoc key members with
      | Some x => ret x
      | None => raise (KeyError key)
      end
  | _ => raise TypeError
  end.

(** [print_debug(level, msg)] *)
Definition print_debug {St} (level : nat) (msg : string) : M St unit :=
  emit (EvPrint msg).

(** [fcota.update_file_content(path, text)]: the file is written anew. *)
Definition update_file_content (path text : string) : M World unit :=
  io (EvOpen path) ;;
  modify (set_fs (fun m => <[path := Py.encode text]> m)).

(** [urequest.get(url, ..)], [.json()] and [.close()] *)
Definition urequest_get_json (url : string) : M World json :=
  w <- get ;;
  io (EvConnect url 0) ;;
  match web w !! url with
  | Some doc => ret doc
  | None => raise OSError
  end.

(** [machine.reset()]: the device restarts, nothing of the method runs
    after it. *)
Definition machine_reset {St} : M St unit := emit EvReset.

Section NetworkConfig.
Context `{Platform}.

(** [if key in netConf: config[key] = netConf[key]
     elif key in config: del config[key]] *)
Definition replace_or_remove (netConf : json) (key : string) : M NetCtx unit :=
  present <- json_in key netConf ;;
  if present then
    v <- json_get netConf key ;;
    modify (set_config (fun c => <[key := v]> c))
  else
    modify (set_config (fun c => delete key c)).

Definition update_network_config (letResp : json) : M NetCtx unit :=
  try_except
    (present <- json_in "networkConfig" letResp ;;
     if present then
       netConf <- json_get letResp "networkConfig" ;;
       prefs <- json_get netConf "networkPreferences" ;;
       modify (set_config (fun c => <["network_preferences" := prefs]> c)) ;;
       replace_or_remove netConf "wifi" ;;
       replace_or_remove netConf "lte" ;;
       has_lora <- json_in "lora" netConf ;;
       (if has_lora then
          lora <- json_get netConf "lora" ;;
          otaa <- json_get lora "otaa" ;;
          abp <- json_get lora "abp" ;;
          modify (set_config (fun c =>
                    <["lora" := JObj [("otaa", otaa); ("abp", abp)]]> c))
        else
          modify (set_config (fun c => delete "lora" c))) ;;
       ctx <- get ;;
       let json_string := ujson_dumps (config ctx) in
       print_debug 1 ("update_network_config : " ++ json_string) ;;
       liftN (update_file_content "/flash/pybytes_config.json" json_string)
     else ret tt)
    any_exception
    (fun e =>
       print_debug 1
         ("error while updating network config pybytes_config.json! " ++ exn_str e)).

Definition update_device_network_config : M NetCtx unit :=
  ctx <- get ;;
  device_id <- match config ctx !! "device_id" with
               | Some v => ret v
               | None => raise (KeyError "device_id")
               end ;;
  let targetURL := (pyconfig_protocol ++ "://" ++ pyconfig_domain
                    ++ "/device/networks/" ++ py_str device_id)%string in
  print_debug 6 ("request device update URL: " ++ targetURL) ;;
  try_except
    (responseDetails <- liftN (urequest_get_json targetURL) ;;
     update_network_config responseDetails ;;
     machine_reset)
    any_exception
    (fun ex =>
       print_debug 1 ("error while calling " ++ targetURL ++ "!: " ++ exn_str ex)).

End NetworkConfig.

(** ** The reference platform's JSON

    A reader and a printer of JSON text (integers only), and the reading of
    a JSON value as a manifest. A payload that is JSON but neither [null]
    nor an object of the manifest's shape lies outside the data model; the
    reference platform refuses it. *)

Module Json.

Definition dquote : ascii := ascii_of_nat 34.
Definition backslash : ascii := ascii_of_nat 92.

Definition is_ws (c : ascii) : bool :=
  let n := nat_of_ascii c in
  ((n =? 32) || (n =? 9) || (n =? 10) || (n =? 13))%nat.

Definition is_digit (c : ascii) : bool :=
  let n := nat_of_ascii c in ((48 <=? n) && (n <=? 57))%nat.

Fixpoint skip_ws (s : list ascii) : list ascii :=
  match s with
  | c :: r => if is_ws c then skip_ws r else s
  | [] => []
  end.

Definition unescape (c : ascii) : option ascii :=
  if Ascii.eqb c dquote then Some dquote
  else if Ascii.eqb c backslash then Some backslash
  else if Ascii.eqb c "/" then Some "/"%char
  else if Ascii.eqb c "n" then Some Py.LF
  else if Ascii.eqb c "r" then Some Py.CR
  else if Ascii.eqb c "t" then Some (ascii_of_nat 9)
  else None.

(** The characters of a string literal, after its opening quote. *)
Fixpoint string_body (s acc : list ascii) : option (string * list ascii) :=
  match s with
  | [] => None
  | c :: r =>
      if Ascii.eqb c dquote then Some (Py.str (rev acc), r)
      else if Ascii.eqb c backslash then
        match r with
        | e :: r' =>
            match unescape e with
            | Some x => string_body r' (x :: acc)
            | None => None
            end
        | [] => None
        end
      else string_body r (c :: acc)
  end.

(** The longest run of digits, its value and its length. *)
Fixpoint digits (s : list ascii) (acc : Z) (n : nat) : Z * nat * list ascii :=
  match s with
  | c :: r =>
      if is_digit c
      then digits r (10 * acc + Z.of_nat (nat_of_ascii c - 48)) (S n)
      else (acc, n, s)
  | [] => (acc, n, [])
  end.

Definition number (s : list ascii) : option (json * list ascii) :=
  match s with
  | "-"%char :: r =>
      match digits r 0 0 with
      | (_, O, _) => None
      | (z, _, rest) => Some (JNum (- z), rest)
      end
  | _ =>
      match digits s 0 0 with
      | (_, O, _) => None
      | (z, _, rest) => Some (JNum z, rest)
      end
  end.

Fixpoint value (fuel : nat) (s : list ascii) : option (json * list ascii) :=
  match fuel with
  | O => None
  | S n =>
      match skip_ws s with
      | [] => None
      | "n"%char :: "u"%char :: "l"%char :: "l"%char :: r => Some (JNull, r)
      | "t"%char :: "r"%char :: "u"%char :: "e"%char :: r => Some (JBool true, r)
      | "f"%char :: "a"%char :: "l"%char :: "s"%char :: "e"%char :: r =>
          Some (JBool false, r)
      | "["%char :: r =>
          match skip_ws r with
          | "]"%char :: r' => Some (JArr [], r')
          | _ => elements n r []
          end
      | "{"%char :: r =>
          match skip_ws r with
          | "}"%char :: r' => Some (JObj [], r')
          | _ => members n r []
          end
      | c :: r =>
          if Ascii.eqb c dquote then
            match string_body r [] with
            | Some (str, r') => Some (JStr str, r')
            | None => None
            end
          else number (c :: r)
      end
  end
with elements (fuel : nat) (s : list ascii) (acc : list json)
  : option (json * list ascii) :=
  match fuel with
  | O => None
  | S n =>
      match value n s with
      | Some (v, r) =>
          match skip_ws r with
          | ","%char :: r' => elements n r' (v :: acc)
          | "]"%char :: r' => Some (JArr (rev (v :: acc)), r')
          | _ => None
          end
      | None => None
      end
  end
with members (fuel : nat) (s : list ascii) (acc : list (string * json))
  : option (json * list ascii) :=
  match fuel with
  | O => None
  | S n =>
      match skip_ws s with
      | c :: r =>
          if Ascii.eqb c dquote then
            match string_body r [] with
            | Some (key, r1) =>
                match skip_ws r1 with
                | ":"%char :: r2 =>
                    match value n r2 with
                    | Some (v, r3) =>
                        match skip_ws r3 with
                        | ","%char :: r4 => members n r4 ((key, v) :: acc)
                        | "}"%char :: r4 => Some (JObj (rev ((key, v) :: acc)), r4)
                        | _ => None
                        end
                    | None => None
                    end
                | _ => None
                end
            | None => None
            end
          else None
      | [] => None
      end
  end.

(** The JSON value that a text denotes, if it is JSON. *)
Definition loads (text : string) : option json :=
  let s := Py.chars text in
  match value (2 * length s + 2) s with
  | Some (v, rest) =>
      match skip_ws rest with
      | [] => Some v
      | _ => None
      end
  | None => None
  end.

Fixpoint escape (s : string) : string :=
  match s with
  | EmptyString => EmptyString
  | String c s' =>
      if Ascii.eqb c dquote || Ascii.eqb c backslash
      then String backslash (String c (escape s'))
      else String c (escape s')
  end.

Definition quote (s : string) : string :=
  String dquote (escape s ++ String dquote EmptyString).

Fixpoint dumps (v : json) : string :=
  match v with
  | JNull => "null"
  | JBool true => "true"
  | JBool false => "false"
  | JNum z => pretty z
  | JStr s => quote s
  | JArr l =>
      "[" ++ (fix items (l : list json) : string :=
                match l with
                | [] => ""
                | x :: r =>
                    match r with
                    | [] => dumps x
                    | _ => dumps x ++ ", " ++ items r
                    end
                end) l ++ "]"
  | JObj ms =>
      "{" ++ (fix items (ms : list (string * json)) : string :=
                match ms with
                | [] => ""
                | (k, x) :: r =>
                    match r with
                    | [] => quote k ++ ": " ++ dumps x
                    | _ => quote k ++ ": " ++ dumps x ++ ", " ++ items r
                    end
                end) ms ++ "}"
  end%string.

Definition as_str (v : json) : option string :=
  match v with JStr s => Some s | _ => None end.

Definition as_entry (v : json) : option FileEntry :=
  match v with
  | JObj ms =>
      match assoc "URL" ms, assoc "dst_path" ms, assoc "hash" ms with
      | Some (JStr u), Some (JStr d), Some (JStr h) => Some (mkFile u d h)
      | _, _, _ => None
      end
  | _ => None
  end.

(** An optional list-valued key of an object. *)
Definition list_field {A} (item : json -> option A) (key : string)
    (ms : list (string * json)) : option (option (list A)) :=
  match assoc key ms with
  | None => Some None
  | Some (JArr l) =>
      match mapM item l with
      | Some xs => Some (Some xs)
      | None => None
      end
  | Some _ => None
  end.

Definition firmware_field (ms : list (string * json)) : option (option FirmwareEntry) :=
  match assoc "firmware" ms with
  | None => Some None
  | Some (JObj fw) =>
      match assoc "URL" fw with
      | Some (JStr u) => Some (Some (mkFirmware u))
      | _ => None
      end
  | Some _ => None
  end.

Definition as_manifest (v : json) : option manifest_opt :=
  match v with
  | JNull => Some None
  | JObj ms =>
      match list_field as_entry "new" ms, list_field as_entry "update" ms,
            list_field as_str "delete" ms, firmware_field ms with
      | Some n, Some u, Some d, Some fw => Some (Some (mkManifest n u d fw))
      | _, _, _, _ => None
      end
  | _ => None
  end.

End Json.

Definition reference_platform : Platform :=
  {| sha1 := Sha1.digest;
     py_int := decimal_int;
     ujson_loads := fun text =>
       match Json.loads text with
       | Some v => Json.as_manifest v
       | None => None
       end;
     ujson_dumps := fun config => Json.dumps (JObj (map_to_list config));
     py_str := fun v => match v with JStr s => s | _ => Json.dumps v end;
     release := "1.20.2.r4";
     sysname := "FiPy";
     unique_id := [x24; x0a; xc4; x00; x12; x34];
     ota_slot := 0x1A0000;
     has_pymesh := false;
     has_pygate := false;
     pyconfig_protocol := "https";
     pyconfig_domain := "pyconfig.eu-central-1.elasticbeanstalk.com" |}.

(** * The vocabulary of the properties *)

(** ** Runs, events and states *)

(** Every event of every run of [m] satisfies [P]. *)
Definition emits {St A} (P : Event -> Prop) (m : M St A) : Prop :=
  forall s, Forall P (evs (m s)).

(** No run of [m] changes the component [f] of the state. *)
Definition keeps {St A X} (f : St -> X) (m : M St A) : Prop :=
  forall s, f (st (m s)) = f s.

(** ** The digest context of [get_data] *)

Definition is_sha1_new (e : Event) : bool :=
  match e with EvSha1New => true | _ => false end.

Definition is_sha1_digest (e : Event) : bool :=
  match e with EvSha1Digest => true | _ => false end.

(** An event that is no call of [uhashlib]. *)
Definition no_sha1 (e : Event) : Prop :=
  match e with
  | EvSha1New | EvSha1Update _ | EvSha1Digest => False
  | _ => True
  end.

(** An event that neither creates nor finalizes a digest context. *)
Definition feeds (e : Event) : Prop :=
  is_sha1_new e = false /\ is_sha1_digest e = false.

Definition has_h (fr : Frame) : bool :=
  match h fr with Some _ => true | None => false end.

(** The runs of a computation that starts without a digest context: it
    fails before creating one, or it creates one and feeds it. *)
Definition fails_without {A} (o : Out Frame A) : Prop :=
  is_ok (res o) = false /\ h (st o) = None /\ Forall no_sha1 (evs o).

Definition context_open {A} (o : Out Frame A) : Prop :=
  has_h (st o) = true /\
  exists before during,
    evs o = before ++ EvSha1New :: during
    /\ Forall no_sha1 before /\ Forall feeds during.

Definition creates {A} (m : M Frame A) : Prop :=
  forall fr, h fr = None -> fails_without (m fr) \/ context_open (m fr).

(** The runs of a computation that starts without a digest context and
    leaves none open. *)
Definition finalizes {A} (m : M Frame A) : Prop :=
  forall fr, h fr = None ->
    let o := m fr in
    (is_ok (res o) = false /\ Forall no_sha1 (evs o))
    \/ exists before during,
         evs o = before ++ EvSha1New :: during ++ [EvSha1Digest]
         /\ Forall no_sha1 before /\ Forall feeds during.

(** ** The body that [get_data] writes *)

(** One round of the loop: whether the headers are passed after it, and
    what it writes. *)
Definition round_output (started : bool) (result : bytes) : bool * bytes :=
  if started then (true, result)
  else if Py.contains Byte.eqb Py.CRLF2 result
       then (true, default [] (Py.split_item1 Byte.eqb Py.CRLF2 result))
       else (false, []).

(** What the loop writes, from the values that [s.recv(50)] returns. *)
Fixpoint body_written (started : bool) (result : bytes) (s : list bytes) : bytes :=
  match result with
  | [] => []
  | _ :: _ =>
      let r := round_output started result in
      snd r ++ match s with
               | [] => []
               | next :: s' => body_written (fst r) next s'
               end
  end.

(** The bytes that reach the sink of [get_data] when the server's answer
    arrives as the chunks [conn]. *)
Definition received (conn : list bytes) : bytes :=
  body_written false (hd [] conn) (tl conn).

(** ** Returns and invariants *)

(** If the run of [m] from [s] returns, the value and the state reached
    satisfy [Q]. *)
Definition returns_with {St A} (m : M St A) (s : St) (Q : A -> St -> Prop) : Prop :=
  forall a, res (m s) = Ok a -> Q a (st (m s)).

(** Every run of [m] from a state in [I] ends in a state in [I], whether it
    returns or raises. *)
Definition maintains {St A} (I : St -> Prop) (m : M St A) : Prop :=
  forall s, I s -> I (st (m s)).

(** The frames whose open file is not [q] and whose file [q] holds [v]. *)
Definition file_kept (q : string) (v : option bytes) (fr : Frame) : Prop :=
  fp fr <> Some q /\ fs (world fr) !! q = v.

(** ** The calls of each phase *)

(** The calls of a transfer: socket, sink and digest. *)
Definition transfer_event (e : Event) : Prop :=
  match e with
  | EvEnter _ | EvExit _ _ | EvRemove _ | EvRename _ _ | EvPrint _ | EvReset => False
  | _ => True
  end.

(** ** The phases of [update], named *)

Section PhasesOfUpdate.
Context `{Platform}.

(** The request that [get_update_manifest] sends. *)
Definition manifest_request (fwtype token : option string) : string :=
  let current_version := release in
  let wmac := Py.hexlify unique_id in
  match fwtype with
  | Some "pymesh" =>
      let current_fwtype := if has_pymesh then "pymesh" else "pybytes" in
      ("manifest.json?current_ver=" ++ current_version ++ "&sysname=" ++ sysname
       ++ "&token=" ++ str_opt token ++ "&ota_slot=" ++ HexString.of_Z ota_slot
       ++ "&wmac=" ++ Py.upper wmac ++ "&fwtype=" ++ str_opt fwtype
       ++ "&current_fwtype=" ++ current_fwtype)%string
  | Some "pygate" =>
      let current_fwtype := if has_pygate then "pygate" else "pybytes" in
      ("manifest.json?current_ver=" ++ current_version ++ "&sysname=" ++ sysname
       ++ "&ota_slot=" ++ HexString.of_Z ota_slot
       ++ "&wmac=" ++ Py.upper wmac ++ "&fwtype=" ++ str_opt fwtype
       ++ "&current_fwtype=" ++ current_fwtype)%string
  | _ =>
      ("manifest.json?current_ver=" ++ current_version ++ "&sysname=" ++ sysname
       ++ "&wmac=" ++ wmac ++ "&ota_slot=" ++ HexString.of_Z ota_slot)%string
  end.

(** The retry loop of [update] around [get_file]. *)
Definition stage (f : FileEntry) : M World (flow Z) :=
  for_range 5
    (try_except
       (get_file f ;; ret Break)
       any_exception
       (fun e =>
          print (exn_str e) ;;
          print ("Error downloading `" ++ URL f ++ "` retrying...") ;;
          ret (Return 0%Z)))
    (raise (Exception ("Failed to download `" ++ URL f ++ "`"))).

Definition backup_all (upd : list FileEntry) : M World (flow Z) :=
  for_each upd (fun f => backup_file f ;; ret (@Next Z)).

Definition commit_all (l : list FileEntry) : M World (flow Z) :=
  for_each l (fun f =>
    os_rename (dst_path f ++ ".new")%string (dst_path f) ;; ret (@Next Z)).

(** The download, backup and rename of the files, when the manifest has
    both lists. *)
Definition files_phase (manifest : Manifest) : M World (flow Z) :=
  match m_new manifest, m_update manifest with
  | Some new, Some upd =>
      c <- for_each (new ++ upd) stage ;;
      match c with
      | Return v => ret (Return v)
      | _ => backup_all upd ;; commit_all (new ++ upd)
      end
  | _, _ => ret Next
  end.

(** What [update] does after the files. *)
Definition rest_phase (manifest : Manifest) : M World Z :=
  match m_delete manifest with
  | Some l => for_each l (fun f => delete_file f ;; ret (@Next Z))
  | None => ret Next
  end ;;
  match m_firmware manifest with
  | Some fw => write_firmware fw
  | None => ret tt
  end ;;
  ret 2%Z.

Definition apply_manifest (manifest : Manifest) : M World Z :=
  c <- files_phase manifest ;;
  match c with
  | Return v => ret v
  | _ => rest_phase manifest
  end.

(** How [update] comes by its manifest. *)
Definition obtain (customManifest : manifest_opt) (fwtype token : option string)
  : M World manifest_opt :=
  if falsy customManifest then get_update_manifest fwtype token
  else ret customManifest.

Definition update_from (ob : M World manifest_opt) : M World Z :=
  r <- try_except
         (manifest <- ob ;; ret (inl manifest))
         any_exception
         (fun e =>
            print ("Error reading the manifest, aborting: " ++ exn_str e) ;;
            ret (inr 0%Z)) ;;
  match r with
  | inr v => ret v
  | inl None =>
      print "Already on the latest version" ;;
      ret 1%Z
  | inl (Some manifest) => apply_manifest manifest
  end.

End PhasesOfUpdate.

(** The calls made inside a recorded method. *)
Definition inner_event (e : Event) : Prop :=
  match e with
  | EvEnter _ | EvExit _ _ | EvRename _ _ | EvReset => False
  | _ => True
  end.

(** The calls made while the files are downloaded: no rename, no backup. *)
Definition stage_event (e : Event) : Prop :=
  match e with
  | EvRename _ _ | EvEnter (CBackupFile _) => False
  | _ => True
  end.

(** The calls made once the files are downloaded: no [get_file]. *)
Definition swap_event (e : Event) : Prop :=
  match e with
  | EvEnter (CGetFile _) | EvExit (CGetFile _) _ => False
  | _ => True
  end.

(** The calls made after the files: those of [delete_file] and
    [write_firmware]. A rename there moves a file to its [.bak_del] name. *)
Definition rest_event (e : Event) : Prop :=
  match e with
  | EvEnter (CGetFile _) | EvExit (CGetFile _) _
  | EvEnter (CBackupFile _) | EvExit (CBackupFile _) _ => False
  | EvRename src dst =>
      exists f, src = ("/" ++ f)%string /\ dst = ("/" ++ f ++ ".bak_del")%string
  | _ => True
  end.

(** ** Runs with their events, sinks and paths *)
(** If the run of [m] from [s] returns, the value, the state reached and
    the events of the run satisfy [Q]. *)
Definition traces {St A} (m : M St A) (s : St)
    (Q : A -> St -> list Event -> Prop) : Prop :=
  forall a, res (m s) = Ok a -> Q a (st (m s)) (evs (m s)).

(** The calls of the loop of [get_data]. *)
Definition loop_event (e : Event) : Prop :=
  match e with
  | EvRecv | EvWrite _ _ | EvOtaWrite _ | EvSha1Update _ => True
  | _ => False
  end.

(** The calls that open and close the sink of [get_data]. *)
Definition sink_opened (dest_path : option string) (firmware : bool) : list Event :=
  match dest_path with Some path => [EvOpen path] | None => [] end
  ++ (if firmware then [EvOtaStart] else []).

Definition sink_closed (dest_path : option string) (firmware : bool) : list Event :=
  match dest_path with Some path => [EvClose path] | None => [] end
  ++ (if firmware then [EvOtaFinish] else []).

(** The file system after a run is what it was, or the run has returned
    and its last call has written the dump of the configuration reached to
    the configuration file. *)
Definition written_last `{Platform} (s : NetCtx) (o : Out NetCtx unit) : Prop :=
  fs (nc_world (st o)) = fs (nc_world s)
  \/ (is_ok (res o) = true
      /\ fs (nc_world (st o))
         = <["/flash/pybytes_config.json" :=
               Py.encode (ujson_dumps (config (st o)))]> (fs (nc_world s))
      /\ exists before, evs o = before ++ [EvOpen "/flash/pybytes_config.json"]).

(** The paths that a manifest names: those of its files when it has both
    lists (with their [.new] and [.bak] companions), and those of its
    deletions (with their [.bak_del] companions). *)
Definition touched (manifest : Manifest) (q : string) : Prop :=
  (exists f,
     In f (match m_new manifest, m_update manifest with
           | Some new, Some upd => new ++ upd
           | _, _ => []
           end)
     /\ (q = dst_path f \/ q = (dst_path f ++ ".new")%string
         \/ q = (dst_path f ++ ".bak")%string))
  \/ (exists f,
        In f (default [] (m_delete manifest))
        /\ (q = ("/" ++ f)%string \/ q = ("/" ++ f ++ ".bak_del")%string)).

(** ** Devices and manifests of the examples *)

(** A response: a status line, the blank line, the body. *)
Definition http_ok (body : bytes) : bytes :=
  Py.encode "HTTP/1.0 200 OK" ++ Py.CRLF2 ++ body.

(** A device with the given files, to which the server will answer the
    successive connections with the given chunks. *)
Definition device (files : list (string * bytes)) (conns : list (list bytes)) : World :=
  mkWorld (list_to_map files) [] "ota.example" 80 conns ∅ [].

(** The file that the examples replace, and its entry in a manifest: the
    declared hash is the SHA-1 of [abc]. *)
Definition a_txt : FileEntry :=
  mkFile "http://ota.example/a.txt" "/flash/a.txt"
         "a9993e364706816aba3e25717850c26c9cd0d89d".

Definition update_a_txt : Manifest := mkManifest (Some []) (Some [a_txt]) None None.

Definition old_device (conns : list (list bytes)) : World :=
  device [("/flash/a.txt", Py.encode "old")] conns.

Definition is_get_file_call (e : Event) : bool :=
  match e with EvEnter (CGetFile _) => true | _ => false end.

(** The calls of a [backup_file] that returns, and the rename that commits
    a downloaded file. *)
Definition backup_calls (f : FileEntry) : list Event :=
  [EvEnter (CBackupFile f); EvRemove (dst_path f ++ ".bak");
   EvRename (dst_path f) (dst_path f ++ ".bak"); EvExit (CBackupFile f) true].

Definition commit_call (f : FileEntry) : Event :=
  EvRename (dst_path f ++ ".new") (dst_path f).

(** A second file of the examples, with the same content as [a_txt]. *)
Definition b_txt : FileEntry :=
  mkFile "http://ota.example/b.txt" "/flash/b.txt"
         "a9993e364706816aba3e25717850c26c9cd0d89d".

Definition install_b_update_a : Manifest :=
  mkManifest (Some [b_txt]) (Some [a_txt]) None None.

(** * Properties *)

(** ** The helpers and the reference platform on examples *)

Example partition_ex :
  Py.partition Byte.eqb Py.CRLF2 (Py.encode "H" ++ Py.CRLF2 ++ Py.encode "ab")
  = Some (Py.encode "H", Py.encode "ab").
Proof. reflexivity. Qed.

Example hexlify_ex : Py.hexlify [x00; xff; x3e] = "00ff3e".
Proof. reflexivity. Qed.

Example sha1_abc :
  Py.hexlify (Sha1.digest (Py.encode "abc"))
  = "a9993e364706816aba3e25717850c26c9cd0d89d".
Proof. vm_compute. reflexivity. Qed.

Example sha1_empty :
  Py.hexlify (Sha1.digest []) = "da39a3ee5e6b4b0d3255bfef95601890afd80709".
Proof. vm_compute. reflexivity. Qed.

Example sha1_two_blocks :
  Py.hexlify (Sha1.digest
    (Py.encode "abcdbcdecdefdefgefghfghighijhijkijkljklmklmnlmnomnopnopq"))
  = "84983e441c3bd26ebaae4aa1f95129e5e54670f1".
Proof. vm_compute. reflexivity. Qed.

(** ** The monad: how a run decomposes *)

Section Monad.
Context {St : Type}.

Lemma bind_run {A B} (m : M St A) (k : A -> M St B) (s : St) :
  bind m k s =
  match res (m s) with
  | Ok a => mkOut (res (k a (st (m s)))) (st (k a (st (m s))))
                  (evs (m s) ++ evs (k a (st (m s))))
  | Raise e => mkOut (Raise e) (st (m s)) (evs (m s))
  end.
Proof. reflexivity. Qed.

Lemma bind_ok_inv {A B} (m : M St A) (k : A -> M St B) (s : St) (b : B) :
  res (bind m k s) = Ok b ->
  exists a, res (m s) = Ok a
    /\ res (k a (st (m s))) = Ok b
    /\ st (bind m k s) = st (k a (st (m s)))
    /\ evs (bind m k s) = evs (m s) ++ evs (k a (st (m s))).
Proof.
  rewrite bind_run. destruct (res (m s)) as [a|e] eqn:E; simpl; [|discriminate].
  intros Hk. exists a. auto.
Qed.

Lemma try_except_run {A} (m : M St A) sel (h : exn -> M St A) (s : St) :
  try_except m sel h s =
  match res (m s) with
  | Ok a => m s
  | Raise e =>
      if sel e
      then mkOut (res (h e (st (m s)))) (st (h e (st (m s))))
                 (evs (m s) ++ evs (h e (st (m s))))
      else m s
  end.
Proof. reflexivity. Qed.

Variable P : Event -> Prop.

Lemma emits_ret {A} (a : A) : emits P (@ret St A a).
Proof. intros s. constructor. Qed.

Lemma emits_raise {A} e : emits P (@raise St A e).
Proof. intros s. constructor. Qed.

Lemma emits_get : emits P (@get St).
Proof. intros s. constructor. Qed.

Lemma emits_modify g : emits P (@modify St g).
Proof. intros s. constructor. Qed.

Lemma emits_emit e : P e -> emits P (@emit St e).
Proof. intros He s. repeat constructor. exact He. Qed.

Lemma emits_bind {A B} (m : M St A) (k : A -> M St B) :
  emits P m -> (forall a, emits P (k a)) -> emits P (bind m k).
Proof.
  intros Hm Hk s. rewrite bind_run. specialize (Hm s).
  destruct (res (m s)); simpl; [|exact Hm].
  apply Forall_app. split; [exact Hm | apply Hk].
Qed.

Lemma emits_try {A} (m : M St A) sel (h : exn -> M St A) :
  emits P m -> (forall e, emits P (h e)) -> emits P (try_except m sel h).
Proof.
  intros Hm Hh s. rewrite try_except_run. specialize (Hm s).
  destruct (res (m s)) as [a|e]; [exact Hm|].
  destruct (sel e); [|exact Hm]. simpl.
  apply Forall_app. split; [exact Hm | apply Hh].
Qed.

Lemma emits_for_range {A} n (body orelse : M St (flow A)) :
  emits P body -> emits P orelse -> emits P (for_range n body orelse).
Proof.
  intros Hb Ho. induction n as [|n IH]; simpl; [exact Ho|].
  apply emits_bind; [exact Hb|]. intros [| |v]; auto using emits_ret.
Qed.

Lemma emits_for_each {A B} (l : list B) (body : B -> M St (flow A)) :
  (forall x, emits P (body x)) -> emits P (for_each l body).
Proof.
  intros Hb. induction l as [|x l IH]; simpl; [apply emits_ret|].
  apply emits_bind; [apply Hb|]. intros [| |v]; auto using emits_ret.
Qed.

Lemma keeps_ret {A X} (f : St -> X) (a : A) : keeps f (@ret St A a).
Proof. intros s. reflexivity. Qed.

Lemma keeps_raise {A X} (f : St -> X) e : keeps f (@raise St A e).
Proof. intros s. reflexivity. Qed.

Lemma keeps_get {X} (f : St -> X) : keeps f (@get St).
Proof. intros s. reflexivity. Qed.

Lemma keeps_emit {X} (f : St -> X) e : keeps f (@emit St e).
Proof. intros s. reflexivity. Qed.

Lemma keeps_bind {A B X} (f : St -> X) (m : M St A) (k : A -> M St B) :
  keeps f m -> (forall a, keeps f (k a)) -> keeps f (bind m k).
Proof.
  intros Hm Hk s. rewrite bind_run. specialize (Hm s).
  destruct (res (m s)); simpl; [|exact Hm].
  rewrite Hk. exact Hm.
Qed.

Lemma keeps_try {A X} (f : St -> X) (m : M St A) sel (h : exn -> M St A) :
  keeps f m -> (forall e, keeps f (h e)) -> keeps f (try_except m sel h).
Proof.
  intros Hm Hh s. rewrite try_except_run. specialize (Hm s).
  destruct (res (m s)) as [a|e]; [exact Hm|].
  destruct (sel e); [|exact Hm]. simpl. rewrite Hh. exact Hm.
Qed.

End Monad.

Lemma emits_liftW {A} P (m : M World A) : emits P m -> emits P (liftW m).
Proof. intros Hm fr. apply Hm. Qed.

Lemma emits_io P e : P e -> emits P (io e).
Proof.
  intros He. unfold io.
  apply emits_bind; [apply emits_emit, He|]. intros _.
  apply emits_bind; [apply emits_get|]. intros w.
  destruct (faults w) as [|[] rest].
  - apply emits_ret.
  - apply emits_bind; [apply emits_modify|]. intros _. apply emits_raise.
  - apply emits_bind; [apply emits_modify|]. intros _. apply emits_ret.
Qed.

Lemma emits_traced {A} (P : Event -> Prop) c (m : M World A) :
  P (EvEnter c) -> (forall ok, P (EvExit c ok)) -> emits P m -> emits P (traced c m).
Proof.
  intros H1 H2 Hm w. unfold traced. simpl.
  constructor; [exact H1|]. apply Forall_app. split; [apply Hm|].
  repeat constructor. apply H2.
Qed.

(** A tactic for goals [emits P m]: it follows the structure of [m] and
    leaves the events to be checked. *)
Ltac emits_step :=
  match goal with
  | |- emits _ (bind _ _) => apply emits_bind; [|intros ?]
  | |- emits _ (try_except _ _ _) => apply emits_try; [|intros ?]
  | |- emits _ (ret _) => apply emits_ret
  | |- emits _ (raise _) => apply emits_raise
  | |- emits _ get => apply emits_get
  | |- emits _ (modify _) => apply emits_modify
  | |- emits _ (liftW _) => apply emits_liftW
  | |- emits _ (io _) => apply emits_io
  | |- emits _ (emit _) => apply emits_emit
  | |- emits _ (print _) => apply emits_emit
  | |- emits _ (print_debug _ _) => apply emits_emit
  | |- emits _ (traced _ _) => apply emits_traced; [| intros ? |]
  | |- emits _ (for_range _ _ _) => apply emits_for_range
  | |- emits _ (for_each _ _) => apply emits_for_each; intros ?
  | |- emits _ (match ?x with _ => _ end) => destruct x
  | |- emits _ (if ?b then _ else _) => destruct b
  end.

(** ** [get_data]: the digest context *)

Lemma no_sha1_feeds e : no_sha1 e -> feeds e.
Proof. destruct e; simpl; intros []; split; reflexivity. Qed.

Ltac keeps_step :=
  match goal with
  | |- keeps _ (bind _ _) => apply keeps_bind; [|intros ?]
  | |- keeps _ (try_except _ _ _) => apply keeps_try; [|intros ?]
  | |- keeps _ (match ?x with _ => _ end) => destruct x
  | |- keeps _ (if ?b then _ else _) => destruct b
  | |- keeps _ _ => intros ?; reflexivity
  end.

Lemma socket_connect_quiet : emits no_sha1 socket_connect.
Proof. unfold socket_connect. repeat emits_step; exact I. Qed.

Lemma loop_body_feeds hash firmware result :
  emits feeds (loop_body hash firmware result).
Proof.
  unfold loop_body, sha1_update, ota_write, file_write.
  repeat emits_step; split; reflexivity.
Qed.

Lemma loop_body_has_h hash firmware result :
  keeps has_h (loop_body hash firmware result).
Proof.
  unfold loop_body. apply keeps_bind; [keeps_step|]. intros fr0.
  apply keeps_bind; [repeat keeps_step|]. intros r.
  apply keeps_bind; [keeps_step|]. intros fr1.
  destruct (start_writing fr1); [|keeps_step].
  apply keeps_bind; [repeat keeps_step|]. intros _.
  destruct hash; [|keeps_step].
  unfold sha1_update. intros fr. rewrite bind_run. simpl.
  unfold has_h. destruct (h fr) eqn:E; simpl; rewrite ?E; reflexivity.
Qed.

Lemma recv_loop_feeds hash firmware s : forall result,
  emits feeds (recv_loop hash firmware result s).
Proof.
  induction s as [|next s IH]; intros [|b result]; simpl;
    try apply emits_ret.
  - apply emits_bind; [apply loop_body_feeds|]. intros _.
    repeat emits_step; split; reflexivity.
  - apply emits_bind; [apply loop_body_feeds|]. intros _.
    apply emits_bind; [|intros _; apply IH].
    repeat emits_step; split; reflexivity.
Qed.

Lemma recv_loop_has_h hash firmware s : forall result,
  keeps has_h (recv_loop hash firmware result s).
Proof.
  induction s as [|next s IH]; intros [|b result]; simpl;
    try apply keeps_ret.
  - apply keeps_bind; [apply loop_body_has_h|]. intros _. repeat keeps_step.
  - apply keeps_bind; [apply loop_body_has_h|]. intros _.
    apply keeps_bind; [keeps_step|]. intros _. apply IH.
Qed.

Lemma creates_bind_quiet {A B} (m : M Frame A) (k : A -> M Frame B) :
  emits no_sha1 m -> keeps h m -> (forall a, creates (k a)) -> creates (bind m k).
Proof.
  intros Hm Hh Hk fr Hfr. rewrite bind_run.
  specialize (Hm fr). specialize (Hh fr).
  destruct (res (m fr)) as [a|e] eqn:E.
  - destruct (Hk a (st (m fr))) as [(Hr & Hn & Hev)|(Hs & e1 & e2 & Hev & H1 & H2)].
    + congruence.
    + left. repeat split; simpl; auto. apply Forall_app. auto.
    + right. split; [exact Hs|]. exists (evs (m fr) ++ e1), e2. simpl.
      rewrite Hev, <- app_assoc. repeat split; auto. apply Forall_app. auto.
  - left. repeat split; simpl; auto. congruence.
Qed.

Lemma creates_sha1_new {B} (k : unit -> M Frame B) :
  (forall a, emits feeds (k a)) -> (forall a, keeps has_h (k a)) ->
  creates (bind sha1_new k).
Proof.
  intros He Hk fr _. right. unfold context_open. rewrite bind_run.
  change (sha1_new fr) with (mkOut (Ok tt) (set_h (Some []) fr) [EvSha1New]).
  cbn [res st evs]. split.
  - rewrite Hk. reflexivity.
  - exists [], (evs (k tt (set_h (Some []) fr))). repeat split.
    + constructor.
    + apply He.
Qed.

Lemma finalizes_bind_quiet {A B} (m : M Frame A) (k : A -> M Frame B) :
  emits no_sha1 m -> keeps h m -> (forall a, finalizes (k a)) ->
  finalizes (bind m k).
Proof.
  intros Hm Hh Hk fr Hfr. simpl. rewrite bind_run.
  specialize (Hm fr). specialize (Hh fr).
  destruct (res (m fr)) as [a|e] eqn:E.
  - destruct (Hk a (st (m fr))) as [(Hr & Hev)|(e1 & e2 & Hev & H1 & H2)].
    + congruence.
    + left. split; simpl; auto. apply Forall_app. auto.
    + right. exists (evs (m fr) ++ e1), e2. simpl.
      rewrite Hev, <- app_assoc. repeat split; auto. apply Forall_app. auto.
  - left. split; simpl; auto.
Qed.

Section DigestContext.
Context `{Platform}.

(** The handler of [get_data]: [if h is not None: h.digest()], [raise e]. *)
Lemma handler_run (e : exn) (fr : Frame) :
  let o := (fr' <- get ;;
            match h fr' with
            | Some _ => sha1_digest ;; ret tt
            | None => ret tt
            end ;;
            raise e : M Frame unit) fr in
  res o = Raise e /\ st o = fr
  /\ evs o = if has_h fr then [EvSha1Digest] else [].
Proof.
  unfold has_h, sha1_digest. simpl. rewrite !bind_run. simpl.
  destruct (h fr) eqn:E; simpl; rewrite ?bind_run; simpl; rewrite ?E; simpl; auto.
Qed.

Lemma get_data_frame_finalizes req dest_path hash firmware :
  finalizes (get_data_frame req dest_path hash firmware).
Proof.
  unfold get_data_frame.
  apply finalizes_bind_quiet; [repeat emits_step | keeps_step |]. intros w.
  apply finalizes_bind_quiet;
    [apply emits_liftW, socket_connect_quiet | keeps_step |]. intros s.
  apply finalizes_bind_quiet; [repeat emits_step; exact I | keeps_step |].
  intros _. intros fr Hfr. simpl. rewrite bind_run, try_except_run.
  match goal with |- context [res (?body fr)] =>
    assert (Hbody : fails_without (body fr) \/ context_open (body fr));
    [| generalize dependent (body fr); intros o Hbody]
  end.
  { revert fr Hfr.
    apply creates_bind_quiet; [repeat emits_step | keeps_step |]. intros _.
    apply creates_bind_quiet; [repeat emits_step | keeps_step |]. intros _.
    apply creates_bind_quiet.
    { unfold file_open. repeat emits_step; exact I. }
    { unfold file_open. repeat keeps_step. }
    intros _.
    apply creates_bind_quiet.
    { unfold ota_start. repeat emits_step; exact I. }
    { repeat keeps_step. }
    intros _.
    apply creates_sha1_new; intros _.
    - unfold ota_finish.
      repeat (first [apply recv_loop_feeds | emits_step]); split; reflexivity.
    - apply keeps_bind; [keeps_step|]. intros _.
      apply keeps_bind; [keeps_step|]. intros _.
      apply keeps_bind; [apply recv_loop_has_h|]. intros _.
      repeat keeps_step. }
  destruct (res o) as [[]|e] eqn:Eo.
  - (* the body returned: the context is open, and finalized after it *)
    destruct Hbody as [(Hr & _)|(Hs & e1 & e2 & Hev & H1 & H2)].
    { rewrite Eo in Hr. discriminate. }
    rewrite Eo. unfold has_h in Hs.
    destruct (h (st o)) as [fed|] eqn:Eh; [|discriminate].
    right. exists e1, e2. repeat split; auto.
    unfold sha1_digest. rewrite !bind_run. simpl. rewrite Eh. simpl.
    rewrite ?bind_run. simpl.
    destruct dest_path, hash; simpl; rewrite Hev, ?app_nil_r, <- app_assoc;
      reflexivity.
  - (* the body raised: the handler finalizes the context, if there is one *)
    unfold any_exception. cbv beta iota zeta.
    pose proof (handler_run e (st o)) as Hh. cbv zeta in Hh.
    destruct Hh as (Hr & Hst & Hev).
    cbn [res st evs]. rewrite Hr, Hev. cbn [is_ok].
    destruct Hbody as [(_ & Hn & Hq)|(Hs & e1 & e2 & Hq & H1 & H2)].
    + left. split; [reflexivity|]. unfold has_h. rewrite Hn, app_nil_r. exact Hq.
    + right. exists e1, e2. rewrite Hs, Hq, <- app_assoc. auto.
Qed.

Lemma get_data_finalizes req dest_path hash firmware (w : World) :
  let o := get_data req dest_path hash firmware w in
  (is_ok (res o) = false /\ Forall no_sha1 (evs o))
  \/ exists before during,
       evs o = before ++ EvSha1New :: during ++ [EvSha1Digest]
       /\ Forall no_sha1 before /\ Forall feeds during.
Proof.
  apply (get_data_frame_finalizes req dest_path hash firmware
           (mkFrame w None [] None false)). reflexivity.
Qed.

End DigestContext.

(** ** [get_data]: what a successful run writes and returns *)

Lemma contains_split_item1 {A} (eqb : A -> A -> bool) sep l :
  Py.contains eqb sep l = true -> exists r, Py.split_item1 eqb sep l = Some r.
Proof.
  unfold Py.contains, Py.split_item1.
  destruct (Py.partition eqb sep l) as [[before after]|]; [|discriminate].
  intros _. destruct (Py.partition eqb sep after) as [[mid rest]|]; eauto.
Qed.

Lemma loop_body_ok hash firmware result fr :
  res (loop_body hash firmware result fr) = Ok tt ->
  let fr' := st (loop_body hash firmware result fr) in
  let r := round_output (start_writing fr) result in
  start_writing fr' = fst r
  /\ fp fr' = fp fr
  /\ h fr' = (fun fed => fed ++ if hash then snd r else []) <$> h fr
  /\ content fr' = content fr
       ++ (if firmware then [] else match fp fr with None => snd r | Some _ => [] end).
Proof.
  destruct fr as [w hh c p started]. destruct w as [f fl i po n wb flt].
  unfold round_output, loop_body, sha1_update, ota_write, file_write, io, liftW.
  cbn [start_writing fp h content].
  destruct (Py.contains Byte.eqb Py.CRLF2 result) eqn:Ec.
  - destruct (contains_split_item1 _ _ _ Ec) as [r Er]. rewrite Er.
    destruct started, firmware, p, hash, hh, flt as [|[] flt]; cbn;
      intros Hok; try discriminate Hok; rewrite ?app_nil_r; auto.
  - destruct started, firmware, p, hash, hh, flt as [|[] flt]; cbn;
      intros Hok; try discriminate Hok; rewrite ?app_nil_r; auto.
Qed.

Lemma fmap_feed_nil (x : option bytes) : (fun fed => fed ++ []) <$> x = x.
Proof. destruct x; simpl; rewrite ?app_nil_r; reflexivity. Qed.

Lemma recv_loop_ok hash firmware s : forall result fr,
  res (recv_loop hash firmware result s fr) = Ok tt ->
  let fr' := st (recv_loop hash firmware result s fr) in
  let out := body_written (start_writing fr) result s in
  fp fr' = fp fr
  /\ h fr' = (fun fed => fed ++ if hash then out else []) <$> h fr
  /\ content fr' = content fr
       ++ (if firmware then [] else match fp fr with None => out | Some _ => [] end).
Proof.
  induction s as [|next s IH]; intros [|b result] fr Hok; cbn [recv_loop body_written] in *.
  - cbn. destruct hash, firmware, (fp fr); rewrite ?app_nil_r, fmap_feed_nil; auto.
  - apply bind_ok_inv in Hok as ([] & Hbody & Hrest & Hst & _).
    rewrite Hst. apply loop_body_ok in Hbody as (_ & Hfp & Hh & Hc).
    apply bind_ok_inv in Hrest as ([] & _ & _ & Hst' & _). rewrite Hst'.
    cbn [ret st]. rewrite app_nil_r.
    change (fp (st (liftW (io EvRecv) ?x))) with (fp x).
    auto.
  - cbn. destruct hash, firmware, (fp fr); rewrite ?app_nil_r, fmap_feed_nil; auto.
  - apply bind_ok_inv in Hok as ([] & Hbody & Hrest & Hst & _).
    rewrite Hst. apply loop_body_ok in Hbody as (Hs & Hfp & Hh & Hc).
    apply bind_ok_inv in Hrest as ([] & _ & Hloop & Hst' & _). rewrite Hst'.
    apply IH in Hloop as (Hfp' & Hh' & Hc').
    set (fr1 := st (loop_body hash firmware (b :: result) fr)) in *.
    change (start_writing (st (liftW (io EvRecv) fr1))) with (start_writing fr1) in *.
    change (fp (st (liftW (io EvRecv) fr1))) with (fp fr1) in *.
    change (h (st (liftW (io EvRecv) fr1))) with (h fr1) in *.
    change (content (st (liftW (io EvRecv) fr1))) with (content fr1) in *.
    rewrite Hfp', Hh', Hc', Hfp, Hh, Hc, Hs. clear.
    set (r := round_output (start_writing fr) (b :: result)).
    repeat split.
    + destruct (h fr), hash; simpl; rewrite <- ?app_assoc, ?app_nil_r; reflexivity.
    + destruct firmware, (fp fr); rewrite <- ?app_assoc, ?app_nil_r; reflexivity.
Qed.

Lemma socket_connect_ok (w : World) (s : list bytes) :
  res (socket_connect w) = Ok s -> s = hd [] (net w).
Proof.
  destruct w as [f fl i po n wb flt]. unfold socket_connect, io.
  destruct n, flt as [|[] flt]; cbn; congruence.
Qed.

(** ** Runs that return *)

Lemma returns_bind {St A B} (m : M St A) (k : A -> M St B) s Q :
  returns_with m s (fun a s' => returns_with (k a) s' Q) ->
  returns_with (bind m k) s Q.
Proof.
  intros Hm b Hb. apply bind_ok_inv in Hb as (a & Ha & Hk & Hst & _).
  rewrite Hst. exact (Hm a Ha b Hk).
Qed.

Lemma returns_get {St B} (k : St -> M St B) s Q :
  returns_with (k s) s Q -> returns_with (bind get k) s Q.
Proof. intros Hk. apply returns_bind. intros a [= <-]. exact Hk. Qed.

Lemma returns_ret {St A} (a : A) (s : St) (Q : A -> St -> Prop) :
  Q a s -> returns_with (ret a) s Q.
Proof. intros HQ b [= <-]. exact HQ. Qed.

Lemma returns_raise {St A} e (s : St) (Q : A -> St -> Prop) :
  returns_with (raise e) s Q.
Proof. intros b Hb. discriminate Hb. Qed.

Lemma returns_modify {St} g (s : St) (Q : unit -> St -> Prop) :
  Q tt (g s) -> returns_with (modify g) s Q.
Proof. intros HQ [] _. exact HQ. Qed.

Lemma returns_emit {St} e (s : St) (Q : unit -> St -> Prop) :
  Q tt s -> returns_with (emit e) s Q.
Proof. intros HQ [] _. exact HQ. Qed.

(** A handler that raises again lets only the returns of the body through. *)
Lemma returns_try_reraise {St A} (m : M St A) sel (h : exn -> M St A) s Q :
  (forall e s', is_ok (res (h e s')) = false) ->
  returns_with m s Q -> returns_with (try_except m sel h) s Q.
Proof.
  intros Hh Hm a. rewrite try_except_run.
  destruct (res (m s)) as [a'|e] eqn:E.
  - rewrite E. intros [= <-]. apply Hm, E.
  - destruct (sel e).
    + cbn [res]. intros Ha. specialize (Hh e (st (m s))). rewrite Ha in Hh.
      discriminate Hh.
    + rewrite E. discriminate.
Qed.

(** A call on the world changes nothing of the frame but the world. *)
Lemma returns_liftW {A} (m : M World A) (fr : Frame) Q :
  (forall a w', Q a (mkFrame w' (h fr) (content fr) (fp fr) (start_writing fr))) ->
  returns_with (liftW m) fr Q.
Proof. intros HQ a _. apply HQ. Qed.

Lemma returns_liftW_get (fr : Frame) Q :
  Q (world fr) fr -> returns_with (liftW get) fr Q.
Proof. destruct fr. intros HQ a [= <-]. exact HQ. Qed.

Lemma returns_liftW_connect (fr : Frame) Q :
  (forall w', Q (hd [] (net (world fr)))
                (mkFrame w' (h fr) (content fr) (fp fr) (start_writing fr))) ->
  returns_with (liftW socket_connect) fr Q.
Proof.
  intros HQ s Hs. apply socket_connect_ok in Hs. subst s. apply HQ.
Qed.

Section Returns.
Context `{Platform}.

Lemma returns_sha1_digest (fr : Frame) Q :
  (forall fed, h fr = Some fed -> Q (sha1 fed) fr) ->
  returns_with sha1_digest fr Q.
Proof.
  intros HQ d. unfold sha1_digest. rewrite bind_run. cbn.
  destruct (h fr) as [fed|] eqn:E; cbn; [|discriminate].
  intros [= <-]. apply HQ. reflexivity.
Qed.

Lemma returns_recv_loop (hash firmware : bool) result s (fr : Frame) Q :
  (forall fr',
     let out := body_written (start_writing fr) result s in
     fp fr' = fp fr ->
     h fr' = (fun fed => fed ++ if hash then out else []) <$> h fr ->
     content fr' = content fr
       ++ (if firmware then [] else match fp fr with None => out | Some _ => [] end) ->
     Q tt fr') ->
  returns_with (recv_loop hash firmware result s) fr Q.
Proof.
  intros HQ [] Hok. apply recv_loop_ok in Hok as (Hfp & Hh & Hc). apply HQ; auto.
Qed.

Ltac run :=
  cbv beta;
  lazymatch goal with
  | |- returns_with (bind (@get _) _) _ _ => apply returns_get
  | |- returns_with (bind _ _) _ _ => apply returns_bind
  | |- returns_with (try_except _ _ _) _ _ => apply returns_try_reraise
  | |- returns_with (ret _) _ _ => apply returns_ret
  | |- returns_with (raise _) _ _ => apply returns_raise
  | |- returns_with (modify _) _ _ => apply returns_modify
  | |- returns_with (emit _) _ _ => apply returns_emit
  | |- returns_with (liftW get) _ _ => apply returns_liftW_get
  | |- returns_with (liftW socket_connect) _ _ =>
      apply returns_liftW_connect; intros ?
  | |- returns_with (liftW _) _ _ => apply returns_liftW; intros ? ?
  | |- returns_with (@sha1_digest _) _ _ => apply returns_sha1_digest; intros ? ?
  | |- returns_with (recv_loop _ _ _ _) _ _ =>
      let Hfp := fresh "Hfp" in
      let Hh := fresh "Hh" in
      let Hc := fresh "Hc" in
      apply returns_recv_loop; intros ? ? Hfp Hh Hc;
      cbn [world h content fp start_writing fmap option_fmap option_map] in Hfp, Hh, Hc
  | |- returns_with (match ?x with _ => _ end) _ _ => destruct x
  | |- returns_with (if ?b then _ else _) _ _ => destruct b
  end;
  cbv beta;
  unfold set_world, set_h, set_content, set_fp, set_start_writing;
  cbn [world h content fp start_writing];
  repeat match goal with
         | Heq : fp ?f = _ |- context [fp ?f] => rewrite Heq
         | Heq : h ?f = _ |- context [h ?f] => rewrite Heq
         | Heq : content ?f = _ |- context [content ?f] => rewrite Heq
         end.

Lemma get_data_frame_ok req dest_path hash firmware (w : World) :
  returns_with (get_data_frame req dest_path hash firmware)
    (mkFrame w None [] None false)
    (fun v _ =>
       let out := received (hd [] (net w)) in
       let digest := Py.hexlify (sha1 (if hash then out else [])) in
       match dest_path with
       | None =>
           let content := if firmware then [] else out in
           v = if hash then RPair content digest else RBytes content
       | Some _ =>
           firmware = false /\ v = if hash then RHex digest else RNone
       end).
Proof.
  unfold get_data_frame. do 7 run. apply returns_try_reraise.
  { intros e s'. destruct (handler_run e s') as (Hr & _). cbv zeta in Hr.
    rewrite Hr. reflexivity. }
  do 5 run.
  destruct dest_path as [path|], firmware;
    unfold file_open, ota_start, ota_finish, sha1_new; repeat run.
  all: cbn [h app start_writing] in *; unfold received;
       repeat match goal with out := _ |- _ => subst out end;
       try split; congruence.
Qed.

Lemma get_data_ok req dest_path hash firmware (w : World) (v : retval) :
  res (get_data req dest_path hash firmware w) = Ok v ->
  let out := received (hd [] (net w)) in
  let digest := Py.hexlify (sha1 (if hash then out else [])) in
  match dest_path with
  | None =>
      let content := if firmware then [] else out in
      v = if hash then RPair content digest else RBytes content
  | Some _ =>
      firmware = false /\ v = if hash then RHex digest else RNone
  end.
Proof. intros Hok. exact (get_data_frame_ok req dest_path hash firmware w v Hok). Qed.
End Returns.

(** ** The file system under [os.remove] and [os.rename] *)

Lemma str_app_ne (a b : string) : b <> "" -> a <> (a ++ b)%string.
Proof.
  intros Hb. induction a as [|c a IH]; simpl.
  - intros Heq. apply Hb. symmetry. exact Heq.
  - intros [= Heq]. exact (IH Heq).
Qed.

(** [try: os.remove(path)  except OSError: pass] leaves no file at [path],
    whether there was one or not. *)
Lemma remove_stale_run (path : string) (w : World) :
  try_except (os_remove path) is_OSError (fun _ => ret tt) w
  = mkOut (Ok tt) (set_fs (delete path) w) [EvRemove path].
Proof.
  destruct w as [f fl i po n wb flt].
  unfold try_except, os_remove, bind, emit, get, modify, raise, ret, set_fs.
  cbn. destruct (f !! path) eqn:E; cbn; [reflexivity|].
  rewrite (delete_id f path E). reflexivity.
Qed.

Lemma os_rename_run (src dst : string) (w : World) (data : bytes) :
  fs w !! src = Some data ->
  os_rename src dst w
  = mkOut (Ok tt) (set_fs (fun m => <[dst := data]> (delete src m)) w)
          [EvRename src dst].
Proof.
  intros E. unfold os_rename, bind, emit, get, modify, raise, ret. cbn.
  rewrite E. reflexivity.
Qed.

Lemma os_rename_missing (src dst : string) (w : World) :
  fs w !! src = None ->
  os_rename src dst w = mkOut (Raise OSError) w [EvRename src dst].
Proof.
  intros E. unfold os_rename, bind, emit, get, modify, raise, ret. cbn.
  rewrite E. reflexivity.
Qed.

(** [delete_file] on a file that exists: the run, step by step. *)
Lemma delete_file_run (f : string) (w : World) (data : bytes) :
  fs w !! ("/" ++ f)%string = Some data ->
  delete_file f w
  = mkOut (Ok tt)
      (set_fs (fun m => <[("/" ++ f ++ ".bak_del")%string := data]>
                          (delete ("/" ++ f)%string m))
         (set_fs (delete ("/" ++ f ++ ".bak_del")%string) w))
      [EvEnter (CDeleteFile f);
       EvRemove ("/" ++ f ++ ".bak_del");
       EvRename ("/" ++ f) ("/" ++ f ++ ".bak_del");
       EvExit (CDeleteFile f) true].
Proof.
  intros E. unfold delete_file, traced. rewrite bind_run, remove_stale_run.
  cbn [res st evs].
  rewrite (os_rename_run _ _ _ data).
  - reflexivity.
  - destruct w as [m fl i po n wb flt]. cbn in *.
    rewrite lookup_delete_ne; [exact E|].
    intros Heq. cbn in Heq. injection Heq as Heq. symmetry in Heq.
    exact (str_app_ne f ".bak_del" ltac:(discriminate) Heq).
Qed.

(** ** Invariants of the state *)

Lemma maintains_bind {St A B} (I : St -> Prop) (m : M St A) (k : A -> M St B) :
  maintains I m -> (forall a, maintains I (k a)) -> maintains I (bind m k).
Proof.
  intros Hm Hk s Hs. rewrite bind_run. specialize (Hm s Hs).
  destruct (res (m s)); simpl; [|exact Hm]. apply Hk, Hm.
Qed.

Lemma maintains_try {St A} (I : St -> Prop) (m : M St A) sel (h : exn -> M St A) :
  maintains I m -> (forall e, maintains I (h e)) -> maintains I (try_except m sel h).
Proof.
  intros Hm Hh s Hs. rewrite try_except_run. specialize (Hm s Hs).
  destruct (res (m s)) as [a|e]; [exact Hm|].
  destruct (sel e); [|exact Hm]. simpl. apply Hh, Hm.
Qed.

Lemma maintains_pure {St A} (I : St -> Prop) (m : M St A) :
  (forall s, st (m s) = s) -> maintains I m.
Proof. intros Hm s Hs. rewrite Hm. exact Hs. Qed.

Lemma file_kept_liftW {A} q v (m : M World A) :
  keeps fs m -> maintains (file_kept q v) (liftW m).
Proof.
  intros Hm fr [Hfp Hv]. split; [exact Hfp|].
  cbn. rewrite Hm. exact Hv.
Qed.

Lemma io_keeps_fs e : keeps fs (io e).
Proof. unfold io. repeat keeps_step. Qed.

Lemma socket_connect_keeps_fs : keeps fs socket_connect.
Proof. unfold socket_connect, io. repeat keeps_step. Qed.

Lemma ota_start_keeps_fs : keeps fs ota_start.
Proof. unfold ota_start, io. repeat keeps_step. Qed.

Lemma loop_body_file_kept q v hash firmware result :
  maintains (file_kept q v) (loop_body hash firmware result).
Proof.
  intros fr [Hfp Hv].
  destruct fr as [w hh c p started]. destruct w as [f fl i po n wb flt].
  unfold file_kept, loop_body, sha1_update, ota_write, file_write, io, liftW in *.
  cbn [start_writing fp h content world fs] in *.
  destruct (Py.contains Byte.eqb Py.CRLF2 result) eqn:Ec.
  - destruct (contains_split_item1 _ _ _ Ec) as [r Er]. rewrite Er.
    destruct started, firmware, p as [path|], hash, hh, flt as [|[] flt]; cbn;
      split; auto; rewrite lookup_insert_ne; congruence.
  - destruct started, firmware, p as [path|], hash, hh, flt as [|[] flt]; cbn;
      split; auto; rewrite lookup_insert_ne; congruence.
Qed.

Ltac maintains_step :=
  match goal with
  | |- maintains _ (bind _ _) => apply maintains_bind; [|intros ?]
  | |- maintains _ (try_except _ _ _) => apply maintains_try; [|intros ?]
  | |- maintains _ (match ?x with _ => _ end) => destruct x
  | |- maintains _ (if ?b then _ else _) => destruct b
  end.

Lemma recv_loop_file_kept q v hash firmware s : forall result,
  maintains (file_kept q v) (recv_loop hash firmware result s).
Proof.
  induction s as [|next s IH]; intros [|b result]; simpl;
    try (apply maintains_pure; reflexivity).
  - apply maintains_bind; [apply loop_body_file_kept|]. intros _.
    apply maintains_bind; [apply file_kept_liftW, io_keeps_fs|]. intros _.
    apply maintains_pure; reflexivity.
  - apply maintains_bind; [apply loop_body_file_kept|]. intros _.
    apply maintains_bind; [apply file_kept_liftW, io_keeps_fs|]. intros _.
    apply IH.
Qed.

Lemma file_open_file_kept q v path :
  path <> q -> maintains (file_kept q v) (file_open path).
Proof.
  intros Hne fr [Hfp Hv]. unfold file_open. rewrite bind_run.
  destruct fr as [w hh c p started]. destruct w as [f fl i po n wb flt].
  unfold file_kept, liftW, io in *. cbn in *.
  destruct flt as [|[] flt]; cbn; split; auto; try congruence;
    rewrite lookup_insert_ne; auto.
Qed.

Section FilesKept.
Context `{Platform}.

Lemma sha1_digest_file_kept q v : maintains (file_kept q v) sha1_digest.
Proof.
  unfold sha1_digest. maintains_step; [apply maintains_pure; reflexivity|].
  maintains_step; [|apply maintains_pure; reflexivity].
  maintains_step; apply maintains_pure; reflexivity.
Qed.

Lemma get_data_frame_file_kept q v req dest_path hash firmware :
  dest_path <> Some q ->
  maintains (file_kept q v) (get_data_frame req dest_path hash firmware).
Proof.
  intros Hne. unfold get_data_frame, sha1_new, ota_finish.
  repeat first
    [ apply recv_loop_file_kept
    | apply sha1_digest_file_kept
    | apply file_open_file_kept; congruence
    | apply file_kept_liftW;
        first [ apply io_keeps_fs | apply socket_connect_keeps_fs
              | apply ota_start_keeps_fs | intros ?; reflexivity ]
    | maintains_step
    | apply maintains_pure; reflexivity
    | intros ? [? ?]; split; [first [assumption | discriminate] | assumption] ].
Qed.

(** [get_data] changes no file but the one it is told to write. *)
Lemma get_data_other_files req dest_path hash firmware (w : World) (q : string) :
  dest_path <> Some q ->
  fs (st (get_data req dest_path hash firmware w)) !! q = fs w !! q.
Proof.
  intros Hne.
  apply (get_data_frame_file_kept q (fs w !! q) req dest_path hash firmware Hne
           (mkFrame w None [] None false)).
  split; [discriminate | reflexivity].
Qed.

End FilesKept.

(** ** [get_data] and [get_file]: the calls they make *)

Lemma recv_loop_transfer hash firmware s : forall result,
  emits transfer_event (recv_loop hash firmware result s).
Proof.
  induction s as [|next s IH]; intros [|b result]; simpl;
    try apply emits_ret.
  - unfold loop_body, sha1_update, ota_write, file_write.
    repeat emits_step; exact I.
  - apply emits_bind.
    { unfold loop_body, sha1_update, ota_write, file_write.
      repeat emits_step; exact I. }
    intros _. apply emits_bind; [repeat emits_step; exact I|].
    intros _. apply IH.
Qed.

Section Transfer.
Context `{Platform}.

Lemma get_data_transfer req dest_path hash firmware :
  emits transfer_event (get_data req dest_path hash firmware).
Proof.
  intros w. unfold get_data. cbn [evs].
  generalize (mkFrame w None [] None false).
  change (emits transfer_event (get_data_frame req dest_path hash firmware)).
  unfold get_data_frame, socket_connect, file_open, ota_start, ota_finish,
    sha1_new, sha1_digest.
  repeat first [apply recv_loop_transfer | emits_step]; exact I.
Qed.

(** The run of [get_file], from the run of its download. *)
Lemma get_file_run (f : FileEntry) (w : World) :
  let new_path := (dst_path f ++ ".new")%string in
  let od := get_data (url_path (URL f)) (Some new_path) true false
              (set_fs (delete new_path) w) in
  get_file f w =
  match res od with
  | Ok v =>
      if differs v (hash f) then
        mkOut (Raise (Exception "Downloaded file's hash does not match expected hash"))
          (st od)
          (EvEnter (CGetFile f) :: EvRemove new_path :: evs od
           ++ [EvPrint (retval_str v ++ " " ++ hash f); EvExit (CGetFile f) false])
      else
        mkOut (Ok tt) (st od)
          (EvEnter (CGetFile f) :: EvRemove new_path :: evs od
           ++ [EvExit (CGetFile f) true])
  | Raise e =>
      mkOut (Raise e) (st od)
        (EvEnter (CGetFile f) :: EvRemove new_path :: evs od
         ++ [EvExit (CGetFile f) false])
  end.
Proof.
  cbv zeta. unfold get_file, traced. rewrite bind_run, remove_stale_run.
  cbn [res st evs]. rewrite bind_run.
  destruct (res (get_data _ _ _ _ _)) as [v|e]; cbn [res st evs].
  - destruct (differs v (hash f)); cbn; rewrite <- ?app_assoc; reflexivity.
  - cbn. reflexivity.
Qed.

End Transfer.

(** ** [update]: its phases *)

Section Phases.
Context `{Platform}.

Lemma get_update_manifest_unfold fwtype token :
  get_update_manifest fwtype token =
  (data <- get_data (manifest_request fwtype token) None false false ;;
   manifest_data <- match data with
                    | RBytes b => ret (Py.decode b)
                    | _ => raise TypeError
                    end ;;
   match ujson_loads manifest_data with
   | Some manifest => ret manifest
   | None => raise ValueError
   end).
Proof. reflexivity. Qed.

Lemma update_unfold customManifest fwtype token :
  update customManifest fwtype token
  = update_from (obtain customManifest fwtype token).
Proof.
  unfold update, update_from, obtain, apply_manifest, files_phase, rest_phase,
    stage, backup_all, commit_all.
  reflexivity.
Qed.

Lemma update_from_run (ob : M World manifest_opt) (w : World) :
  update_from ob w =
  let o := ob w in
  match res o with
  | Raise e =>
      mkOut (Ok 0%Z) (st o)
        (evs o ++ [EvPrint ("Error reading the manifest, aborting: " ++ exn_str e)])
  | Ok None =>
      mkOut (Ok 1%Z) (st o) (evs o ++ [EvPrint "Already on the latest version"])
  | Ok (Some manifest) =>
      let o' := apply_manifest manifest (st o) in
      mkOut (res o') (st o') (evs o ++ evs o')
  end.
Proof.
  cbv zeta. unfold update_from. rewrite bind_run, try_except_run, bind_run.
  destruct (res (ob w)) as [[manifest|]|e];
    cbn [res st evs any_exception ret print emit bind].
  - generalize (apply_manifest manifest (st (ob w))). intros o'.
    rewrite app_nil_r. reflexivity.
  - rewrite app_nil_r. reflexivity.
  - rewrite app_nil_r. reflexivity.
Qed.

Lemma update_run customManifest fwtype token (w : World) :
  update customManifest fwtype token w =
  let o := obtain customManifest fwtype token w in
  match res o with
  | Raise e =>
      mkOut (Ok 0%Z) (st o)
        (evs o ++ [EvPrint ("Error reading the manifest, aborting: " ++ exn_str e)])
  | Ok None =>
      mkOut (Ok 1%Z) (st o) (evs o ++ [EvPrint "Already on the latest version"])
  | Ok (Some manifest) =>
      let o' := apply_manifest manifest (st o) in
      mkOut (res o') (st o') (evs o ++ evs o')
  end.
Proof. rewrite update_unfold. apply update_from_run. Qed.

End Phases.

(** ** [update]: the calls of each phase *)

Lemma transfer_inner e : transfer_event e -> inner_event e.
Proof. destruct e; simpl; auto. Qed.

Lemma inner_stage e : inner_event e -> stage_event e.
Proof. destruct e as [[]| | | | | | | | | | | | | | | | | |]; simpl; auto. Qed.

Lemma inner_swap e : inner_event e -> swap_event e.
Proof. destruct e as [[]|[]| | | | | | | | | | | | | | | | |]; simpl; auto. Qed.

Lemma emits_weaken {St A} (P Q : Event -> Prop) (m : M St A) :
  (forall e, P e -> Q e) -> emits P m -> emits Q m.
Proof. intros HPQ Hm s. eapply Forall_impl; [apply Hm | exact HPQ]. Qed.

Lemma traced_run {A} c (m : M World A) (w : World) :
  traced c m w
  = mkOut (res (m w)) (st (m w))
          (EvEnter c :: evs (m w) ++ [EvExit c (is_ok (res (m w)))]).
Proof. reflexivity. Qed.

Section PhaseEvents.
Context `{Platform}.

Lemma get_file_events (f : FileEntry) (w : World) :
  exists inner,
    evs (get_file f w)
    = EvEnter (CGetFile f) :: inner
      ++ [EvExit (CGetFile f) (is_ok (res (get_file f w)))]
    /\ Forall inner_event inner.
Proof.
  pose proof (get_file_run f w) as Hrun. cbv zeta in Hrun.
  pose proof (get_data_transfer (url_path (URL f)) (Some (dst_path f ++ ".new")%string)
                true false (set_fs (delete (dst_path f ++ ".new")%string) w)) as Hod.
  revert Hrun Hod.
  generalize (get_data (url_path (URL f)) (Some (dst_path f ++ ".new")%string)
                true false (set_fs (delete (dst_path f ++ ".new")%string) w)).
  intros od Hrun Hod. rewrite Hrun.
  assert (Hin : Forall inner_event (evs od))
    by (eapply Forall_impl; [exact Hod | exact transfer_inner]).
  destruct (res od) as [v|e]; [destruct (differs v (hash f))|]; cbn [res evs is_ok].
  - exists (EvRemove (dst_path f ++ ".new") :: evs od
            ++ [EvPrint (retval_str v ++ " " ++ hash f)]).
    split.
    + cbn. rewrite <- app_assoc. reflexivity.
    + constructor; [exact I|]. apply Forall_app. split; [assumption|].
      repeat constructor.
  - exists (EvRemove (dst_path f ++ ".new") :: evs od). split; [reflexivity|].
    constructor; [exact I | assumption].
  - exists (EvRemove (dst_path f ++ ".new") :: evs od). split; [reflexivity|].
    constructor; [exact I | assumption].
Qed.

Lemma stage_run (f : FileEntry) (w : World) :
  stage f w =
  let o := get_file f w in
  match res o with
  | Ok _ => mkOut (Ok Next) (st o) (evs o)
  | Raise e =>
      mkOut (Ok (Return 0%Z)) (st o)
        (evs o ++ [EvPrint (exn_str e);
                   EvPrint ("Error downloading `" ++ URL f ++ "` retrying...")])
  end.
Proof.
  cbv zeta. unfold stage. cbn [for_range].
  rewrite bind_run, try_except_run, bind_run.
  generalize (get_file f w). intros o.
  destruct (res o) as [[]|e];
    cbn [res st evs any_exception ret print emit bind];
    rewrite ?app_nil_r; reflexivity.
Qed.

End PhaseEvents.

Section Staging.
Context `{Platform}.

Lemma get_file_stage_events (f : FileEntry) (w : World) :
  Forall stage_event (evs (get_file f w)).
Proof.
  destruct (get_file_events f w) as (inner & Hev & Hin). rewrite Hev.
  constructor; [exact I|]. apply Forall_app. split.
  - eapply Forall_impl; [exact Hin | exact inner_stage].
  - repeat constructor.
Qed.

Lemma get_file_exit (f g : FileEntry) (ok : bool) (w : World) :
  In (EvExit (CGetFile g) ok) (evs (get_file f w)) ->
  g = f /\ ok = is_ok (res (get_file f w)).
Proof.
  destruct (get_file_events f w) as (inner & Hev & Hin). rewrite Hev.
  intros [Hin'|Hin']; [discriminate|].
  apply in_app_iff in Hin' as [Hin'|[Hin'|[]]].
  - rewrite List.Forall_forall in Hin. destruct (Hin _ Hin').
  - split; congruence.
Qed.

Lemma get_file_exit_in (f : FileEntry) (w : World) :
  In (EvExit (CGetFile f) (is_ok (res (get_file f w)))) (evs (get_file f w)).
Proof.
  destruct (get_file_events f w) as (inner & Hev & Hin). rewrite Hev.
  right. apply in_app_iff. right. left. reflexivity.
Qed.

(** The download of a list of files: every file is downloaded, or the
    first failure ends the loop with [return 0]. *)
Lemma stage_all_cases (l : list FileEntry) : forall (w : World),
  let o := for_each l stage w in
  Forall stage_event (evs o)
  /\ ((res o = Ok Next
       /\ (forall f, In f l -> In (EvExit (CGetFile f) true) (evs o))
       /\ (forall f, ~ In (EvExit (CGetFile f) false) (evs o)))
      \/ (res o = Ok (Return 0%Z)
          /\ exists f, In f l /\ In (EvExit (CGetFile f) false) (evs o))).
Proof.
  induction l as [|f l IH]; intros w; cbn [for_each].
  - split; [constructor|]. left. repeat split; [intros f []|intros f []].
  - cbv zeta. rewrite bind_run, stage_run. cbv zeta.
    pose proof (get_file_stage_events f w) as Hst.
    pose proof (get_file_exit_in f w) as Hexit.
    pose proof (fun g ok => get_file_exit f g ok w) as Honly.
    revert Hst Hexit Honly. generalize (get_file f w). intros o1 Hst Hexit Honly.
    destruct (res o1) as [[]|e]; cbn [res st evs is_ok] in *.
    + specialize (IH (st o1)). cbv zeta in IH.
      revert IH. generalize (for_each l stage (st o1)). intros o2 [Hst2 IH].
      split; [apply Forall_app; auto|].
      destruct IH as [(Hr & Hall & Hnone)|(Hr & g & Hg & Hfail)].
      * left. split; [exact Hr|]. split.
        -- intros g [<-|Hg]; apply in_app_iff; [left; exact Hexit | right; auto].
        -- intros g Hg. apply in_app_iff in Hg as [Hg|Hg].
           ++ apply Honly in Hg as [_ Hg]. discriminate.
           ++ exact (Hnone g Hg).
      * right. split; [exact Hr|]. exists g. split; [right; exact Hg|].
        apply in_app_iff. right. exact Hfail.
    + cbn [ret res st evs]. rewrite app_nil_r. split.
      * apply Forall_app. split; [exact Hst|]. repeat constructor.
      * right. split; [reflexivity|]. exists f. split; [left; reflexivity|].
        apply in_app_iff. left. exact Hexit.
Qed.

End Staging.

Lemma inner_rest e : transfer_event e -> rest_event e.
Proof. destruct e as [[]|[]| | | | | | | | | | | | | | | | |]; simpl; tauto. Qed.

Lemma rest_swap e : rest_event e -> swap_event e.
Proof. destruct e as [[]|[]| | | | | | | | | | | | | | | | |]; simpl; tauto. Qed.

Lemma str_length_app (a b : string) :
  String.length (a ++ b) = String.length a + String.length b.
Proof. induction a as [|c a IH]; simpl; [reflexivity | rewrite IH; reflexivity]. Qed.

(** The rename that commits a file is none of [delete_file]'s. *)
Lemma commit_not_rest (d : string) : ~ rest_event (EvRename (d ++ ".new") d).
Proof.
  intros (f & Hsrc & Hdst). apply (f_equal String.length) in Hsrc, Hdst.
  rewrite !str_length_app in *. simpl in *. lia.
Qed.

Lemma split_at_event {A} (P : A -> Prop) (l1 l2 before after : list A) (x : A) :
  l1 ++ l2 = before ++ x :: after -> Forall P l1 -> ~ P x ->
  exists mid, before = l1 ++ mid /\ l2 = mid ++ x :: after.
Proof.
  revert before. induction l1 as [|a l1 IH]; intros before Heq Hall Hx.
  - exists before. auto.
  - apply Forall_cons in Hall as [Ha Hall].
    destruct before as [|b before]; simpl in Heq; injection Heq as -> Heq.
    + contradiction.
    + destruct (IH before Heq Hall Hx) as (mid & -> & ->). exists mid. auto.
Qed.

Section Swap.
Context `{Platform}.

Lemma obtain_transfer customManifest fwtype token :
  emits transfer_event (obtain customManifest fwtype token).
Proof.
  unfold obtain. destruct (falsy customManifest); [|apply emits_ret].
  rewrite get_update_manifest_unfold.
  apply emits_bind; [apply get_data_transfer|]. intros data.
  repeat emits_step.
Qed.

Lemma backup_file_swap f : emits swap_event (backup_file f).
Proof. unfold backup_file, os_remove, os_rename. repeat emits_step; exact I. Qed.

Lemma backup_all_swap upd : emits swap_event (backup_all upd).
Proof.
  unfold backup_all. apply emits_for_each. intros f.
  apply emits_bind; [apply backup_file_swap|]. intros _. apply emits_ret.
Qed.

Lemma commit_all_swap l : emits swap_event (commit_all l).
Proof. unfold commit_all, os_rename. repeat emits_step; exact I. Qed.

Lemma delete_file_rest f : emits rest_event (delete_file f).
Proof.
  unfold delete_file, os_remove, os_rename. repeat emits_step; try exact I.
  exists f. auto.
Qed.

Lemma write_firmware_rest fw : emits rest_event (write_firmware fw).
Proof.
  unfold write_firmware. apply emits_traced; [exact I | intros ok; exact I |].
  apply emits_bind; [repeat emits_step|]. intros url.
  apply emits_bind; [repeat emits_step|]. intros _.
  apply emits_bind; [|intros _; apply emits_ret].
  eapply emits_weaken; [exact inner_rest | apply get_data_transfer].
Qed.

Lemma rest_phase_rest manifest : emits rest_event (rest_phase manifest).
Proof.
  unfold rest_phase.
  apply emits_bind.
  { destruct (m_delete manifest); [|apply emits_ret].
    apply emits_for_each. intros f.
    apply emits_bind; [apply delete_file_rest|]. intros _. apply emits_ret. }
  intros _. apply emits_bind; [|intros _; apply emits_ret].
  destruct (m_firmware manifest); [apply write_firmware_rest | apply emits_ret].
Qed.

End Swap.

Section Shape.
Context `{Platform}.

Lemma backup_all_ok (upd : list FileEntry) : forall (w : World) c,
  res (backup_all upd w) = Ok c ->
  forall f, In f upd -> In (EvExit (CBackupFile f) true) (evs (backup_all upd w)).
Proof.
  unfold backup_all.
  induction upd as [|g upd IH]; intros w c Hok f Hf; [destruct Hf|].
  cbn [for_each] in *. rewrite bind_run in *. rewrite bind_run in *.
  unfold backup_file in *. rewrite traced_run in *. cbn [res st evs] in *.
  match goal with
  | |- context [res (?m w)] => generalize dependent (m w); intros o1 Hok
  end.
  destruct (res o1) as [[]|e]; cbn [res st evs ret is_ok] in *; [|discriminate].
  rewrite app_nil_r. destruct Hf as [<-|Hf].
  - apply in_app_iff. left. right. apply in_app_iff. right. left. reflexivity.
  - apply in_app_iff. right. exact (IH _ _ Hok f Hf).
Qed.

Lemma commit_all_ok (l : list FileEntry) : forall (w : World) c,
  res (commit_all l w) = Ok c ->
  forall f, In f l ->
    In (EvRename (dst_path f ++ ".new") (dst_path f)) (evs (commit_all l w)).
Proof.
  unfold commit_all.
  induction l as [|g l IH]; intros w c Hok f Hf; [destruct Hf|].
  cbn [for_each] in *. rewrite bind_run in *. rewrite bind_run in *.
  assert (Hev : In (EvRename (dst_path g ++ ".new") (dst_path g))
                   (evs (os_rename (dst_path g ++ ".new") (dst_path g) w))).
  { unfold os_rename. rewrite bind_run. cbn. left. reflexivity. }
  revert Hev Hok.
  generalize (os_rename (dst_path g ++ ".new") (dst_path g) w). intros o1 Hev Hok.
  destruct (res o1) as [[]|e]; cbn [res st evs ret] in *; [|discriminate].
  rewrite app_nil_r. destruct Hf as [<-|Hf].
  - apply in_app_iff. left. exact Hev.
  - apply in_app_iff. right. exact (IH _ _ Hok f Hf).
Qed.

(** The calls of [update] once it has a manifest: those of the downloads,
    then the others; and the three ways it can go. *)
Lemma apply_manifest_shape (manifest : Manifest) (w : World) :
  let o := apply_manifest manifest w in
  exists staged rest,
    evs o = staged ++ rest
    /\ Forall stage_event staged /\ Forall swap_event rest
    /\ ((res o = Ok 0%Z /\ rest = []
         /\ exists f, In (EvExit (CGetFile f) false) staged)
        \/ (exists new upd,
              m_new manifest = Some new /\ m_update manifest = Some upd
              /\ (forall f, In f (new ++ upd) ->
                    In (EvExit (CGetFile f) true) staged)
              /\ (forall f, ~ In (EvExit (CGetFile f) false) staged))
        \/ ((m_new manifest = None \/ m_update manifest = None)
            /\ staged = [] /\ Forall rest_event rest)).
Proof.
  cbv zeta. unfold apply_manifest, files_phase.
  assert (Htail : forall c : flow Z,
            emits swap_event (match c with
                              | Return v => ret v
                              | _ => rest_phase manifest
                              end)).
  { intros c. destruct c; try apply emits_ret.
    all: eapply emits_weaken; [exact rest_swap | apply rest_phase_rest]. }
  destruct (m_new manifest) as [new|] eqn:En;
    [destruct (m_update manifest) as [upd|] eqn:Eu|].
  - assert (Hswaps : emits swap_event (backup_all upd ;; commit_all (new ++ upd))).
    { apply emits_bind; [apply backup_all_swap|]. intros _. apply commit_all_swap. }
    rewrite bind_run. rewrite bind_run.
    destruct (stage_all_cases (new ++ upd) w) as (Hst & Hcases).
    revert Hst Hcases. generalize (for_each (new ++ upd) stage w).
    intros o1 Hst [(Hr & Hall & Hnone)|(Hr & f & Hf & Hfail)]; rewrite Hr;
      cbn [res st evs ret].
    + (* every file is downloaded *)
      specialize (Hswaps (st o1)). revert Hswaps.
      generalize ((backup_all upd ;; commit_all (new ++ upd)) (st o1)).
      intros o2 Hswaps.
      destruct (res o2) as [c2|e2]; cbn [res st evs].
      * specialize (Htail c2 (st o2)). revert Htail.
        generalize (match c2 with
                    | Return v => ret v
                    | _ => rest_phase manifest
                    end (st o2)).
        intros o3 Htail.
        exists (evs o1), (evs o2 ++ evs o3). rewrite <- app_assoc.
        split; [reflexivity|].
        split; [exact Hst|]. split; [apply Forall_app; auto|].
        right. left. exists new, upd. auto.
      * exists (evs o1), (evs o2). split; [reflexivity|].
        split; [exact Hst|]. split; [exact Hswaps|].
        right. left. exists new, upd. auto.
    + (* a download failed *)
      exists (evs o1), []. rewrite !app_nil_r. split; [reflexivity|].
      split; [exact Hst|]. split; [constructor|].
      left. split; [reflexivity|]. split; [reflexivity|]. exists f. exact Hfail.
  - rewrite bind_run. cbn [res st evs ret]. exists [], (evs (rest_phase manifest w)).
    split; [reflexivity|]. split; [constructor|]. split.
    + eapply Forall_impl; [apply rest_phase_rest | exact rest_swap].
    + right. right. split; [auto|]. split; [reflexivity|]. apply rest_phase_rest.
  - rewrite bind_run. cbn [res st evs ret]. exists [], (evs (rest_phase manifest w)).
    split; [reflexivity|]. split; [constructor|]. split.
    + eapply Forall_impl; [apply rest_phase_rest | exact rest_swap].
    + right. right. split; [auto|]. split; [reflexivity|]. apply rest_phase_rest.
Qed.

End Shape.

(** * The claims *)

Lemma filter_none {A} (f : A -> bool) (l : list A) :
  Forall (fun x => f x = false) l -> List.filter f l = [].
Proof.
  induction 1 as [|x l Hx _ IH]; simpl; [reflexivity|].
  rewrite Hx. exact IH.
Qed.

Lemma no_sha1_not_new e : no_sha1 e -> is_sha1_new e = false.
Proof. destruct e; simpl; intros []; reflexivity. Qed.

Lemma hexdigit_lower (n : N) : Py.is_lower_hex (Py.hexdigit n) = true.
Proof.
  destruct n as [|p]; [reflexivity|].
  do 4 (destruct p as [p|p|]; try reflexivity).
Qed.

Lemma hexlify_lower (b : bytes) :
  forallb Py.is_lower_hex (Py.chars (Py.hexlify b)) = true.
Proof.
  induction b as [|x b IH]; [reflexivity|].
  cbn [Py.hexlify Py.chars list_ascii_of_string forallb].
  rewrite !hexdigit_lower. exact IH.
Qed.

(** C7. In [get_data] at most one digest context is created per call
    ([uhashlib.sha1()] is called at most once), and whenever one has been
    created the run ends with [h.digest()]: on a failure path the context is
    finalized before the exception reaches the caller. *)
Theorem get_data_single_digest_context `{Platform}
    (req : string) (dest_path : option string) (hash firmware : bool) (w : World) :
  let o := get_data req dest_path hash firmware w in
  (length (List.filter is_sha1_new (evs o)) <= 1)%nat
  /\ (In EvSha1New (evs o) ->
      exists before during,
        evs o = before ++ EvSha1New :: during ++ [EvSha1Digest]
        /\ Forall no_sha1 before /\ Forall feeds during)
  /\ (forall e, res o = Raise e -> In EvSha1New (evs o) ->
      exists earlier, evs o = earlier ++ [EvSha1Digest] /\ In EvSha1New earlier).
Proof.
  cbv zeta.
  destruct (get_data_finalizes req dest_path hash firmware w)
    as [(_ & Hq)|(before & during & Hev & Hb & Hd)].
  - assert (Hnot : ~ In EvSha1New (evs (get_data req dest_path hash firmware w))).
    { intros Hin. rewrite List.Forall_forall in Hq. exact (Hq _ Hin). }
    split; [|split].
    + rewrite filter_none; [simpl; lia|].
      eapply Forall_impl; [exact Hq | exact no_sha1_not_new].
    + intros Hin. destruct (Hnot Hin).
    + intros e _ Hin. destruct (Hnot Hin).
  - split; [|split].
    + rewrite Hev, List.filter_app. cbn [List.filter is_sha1_new].
      rewrite List.filter_app. cbn [List.filter is_sha1_digest is_sha1_new].
      rewrite (filter_none is_sha1_new before), (filter_none is_sha1_new during).
      * simpl. lia.
      * eapply Forall_impl; [exact Hd | intros e [He _]; exact He].
      * eapply Forall_impl; [exact Hb | exact no_sha1_not_new].
    + intros _. exists before, during. auto.
    + intros e _ _. exists (before ++ EvSha1New :: during). split.
      * rewrite Hev, <- app_assoc. reflexivity.
      * apply in_app_iff. right. left. reflexivity.
Qed.

(** C10. When [get_data] returns, what it returns is fixed by [dest_path]
    and [hash]: without a [dest_path] the bytes accumulated in [content]
    (the body; nothing in firmware mode, where the body goes to the flash),
    paired with the digest when [hash] is set; with a [dest_path] the digest
    when [hash] is set and [None] otherwise. The digest is the lowercase
    hexadecimal text of the SHA-1 of the body. *)
Theorem get_data_return_value `{Platform}
    (req : string) (dest_path : option string) (hash firmware : bool)
    (w : World) (v : retval) :
  res (get_data req dest_path hash firmware w) = Ok v ->
  let body := received (hd [] (net w)) in
  let content := if firmware then [] else body in
  let digest := Py.hexlify (sha1 (if hash then body else [])) in
  v = match dest_path, hash with
      | None, true => RPair content digest
      | None, false => RBytes content
      | Some _, true => RHex digest
      | Some _, false => RNone
      end
  /\ forallb Py.is_lower_hex (Py.chars digest) = true.
Proof.
  intros Hok. cbv zeta. split; [|apply hexlify_lower].
  apply get_data_ok in Hok. cbv zeta in Hok.
  destruct dest_path as [path|], hash; try exact Hok; destruct Hok as [_ Hv];
    exact Hv.
Qed.

(** C8. [delete_file] on a path whose file exists does not destroy its
    data: it removes a stale [.bak_del] (its absence is ignored) and renames
    the file, so that afterwards the content is found at [/<path>.bak_del],
    no file is left at [/<path>], and no other file has changed. *)
Theorem delete_file_keeps_data (f : string) (w : World) (data : bytes) :
  fs w !! ("/" ++ f)%string = Some data ->
  let o := delete_file f w in
  res o = Ok tt
  /\ fs (st o) !! ("/" ++ f ++ ".bak_del")%string = Some data
  /\ fs (st o) !! ("/" ++ f)%string = None
  /\ evs o = [EvEnter (CDeleteFile f);
              EvRemove ("/" ++ f ++ ".bak_del");
              EvRename ("/" ++ f) ("/" ++ f ++ ".bak_del");
              EvExit (CDeleteFile f) true]
  /\ (forall q : string,
        q <> ("/" ++ f)%string -> q <> ("/" ++ f ++ ".bak_del")%string ->
        fs (st o) !! q = fs w !! q).
Proof.
  intros Hf. cbv zeta. rewrite (delete_file_run f w data Hf).
  cbn [res st evs]. destruct w as [m fl i po n wb flt]. cbn [fs set_fs].
  assert (Hne : ("/" ++ f ++ ".bak_del")%string <> ("/" ++ f)%string).
  { intros Heq. cbn in Heq. injection Heq as Heq. symmetry in Heq.
    exact (str_app_ne f ".bak_del" ltac:(discriminate) Heq). }
  repeat split.
  - apply lookup_insert_eq.
  - rewrite lookup_insert_ne by exact Hne. apply lookup_delete_eq.
  - intros q Hq1 Hq2.
    rewrite lookup_insert_ne by congruence.
    rewrite !lookup_delete_ne by congruence. reflexivity.
Qed.


Lemma Forall_no_middle {A} (P : A -> Prop) (l before after : list A) (x : A) :
  Forall P l -> ~ P x -> l <> before ++ x :: after.
Proof.
  intros Hall Hx ->. apply Forall_app in Hall as [_ Hall].
  apply Forall_cons in Hall as [Hx' _]. contradiction.
Qed.

Section UpdateClaims.
Context `{Platform}.

Lemma apply_manifest_skips (manifest : Manifest) (w : World) :
  m_new manifest = None \/ m_update manifest = None ->
  Forall rest_event (evs (apply_manifest manifest w)).
Proof.
  intros Hnone. unfold apply_manifest, files_phase.
  destruct (m_new manifest) as [new|], (m_update manifest) as [upd|];
    try (destruct Hnone; discriminate);
    rewrite bind_run; cbn [res st evs ret]; apply rest_phase_rest.
Qed.

Lemma apply_manifest_applied (manifest : Manifest) (w : World) new upd :
  m_new manifest = Some new -> m_update manifest = Some upd ->
  res (apply_manifest manifest w) = Ok 2%Z ->
  (forall f, In f (new ++ upd) ->
     In (EvExit (CGetFile f) true) (evs (apply_manifest manifest w))
     /\ In (EvRename (dst_path f ++ ".new") (dst_path f))
           (evs (apply_manifest manifest w)))
  /\ (forall f, In f upd ->
        In (EvExit (CBackupFile f) true) (evs (apply_manifest manifest w))).
Proof.
  intros En Eu. unfold apply_manifest, files_phase. rewrite En, Eu.
  rewrite bind_run. rewrite bind_run.
  destruct (stage_all_cases (new ++ upd) w) as (_ & Hcases). cbv zeta in Hcases.
  revert Hcases. generalize (for_each (new ++ upd) stage w).
  intros o1 [(Hr & Hall & _)|(Hr & _)]; rewrite Hr; cbn [res st evs ret];
    [|discriminate].
  rewrite bind_run.
  destruct (res (backup_all upd (st o1))) as [c2|e2] eqn:Eb; cbn [res st evs];
    [|discriminate].
  destruct (res (commit_all (new ++ upd) (st (backup_all upd (st o1)))))
    as [c3|e3] eqn:Ec; cbn [res st evs]; [|discriminate].
  intros _. split.
  - intros f Hf. split.
    + apply in_app_iff. left. apply in_app_iff. left. exact (Hall f Hf).
    + apply in_app_iff. left. apply in_app_iff. right. apply in_app_iff. right.
      exact (commit_all_ok _ _ _ Ec f Hf).
  - intros f Hf.
    apply in_app_iff. left. apply in_app_iff. right. apply in_app_iff. left.
    exact (backup_all_ok _ _ _ Eb f Hf).
Qed.

End UpdateClaims.

(** C1. In every run of [update]: if [get_file] fails for an entry, the
    run makes no call of [backup_file] and no [os.rename] at all, and
    returns 0 (Failed); and a call of [backup_file] is made only after
    [get_file] has returned normally for every entry of [new + update] of
    the manifest in use. *)
Theorem update_staging_gate `{Platform}
    (customManifest : manifest_opt) (fwtype token : option string) (w : World) :
  let o := update customManifest fwtype token w in
  (forall f, In (EvExit (CGetFile f) false) (evs o) ->
     res o = Ok 0%Z
     /\ (forall g, ~ In (EvEnter (CBackupFile g)) (evs o))
     /\ (forall src dst, ~ In (EvRename src dst) (evs o)))
  /\ (forall before g after,
        evs o = before ++ EvEnter (CBackupFile g) :: after ->
        exists manifest new upd,
          res (obtain customManifest fwtype token w) = Ok (Some manifest)
          /\ m_new manifest = Some new /\ m_update manifest = Some upd
          /\ forall f, In f (new ++ upd) -> In (EvExit (CGetFile f) true) before).
Proof.
  cbv zeta. rewrite update_run. cbv zeta.
  pose proof (obtain_transfer customManifest fwtype token w) as Hpre.
  assert (Hpre_stage : Forall stage_event (evs (obtain customManifest fwtype token w))).
  { eapply Forall_impl; [exact Hpre|]. intros e He.
    apply inner_stage, transfer_inner, He. }
  revert Hpre Hpre_stage. generalize (obtain customManifest fwtype token w).
  intros o0 Hpre Hpre_stage.
  assert (Hquiet : forall tail : list Event,
            Forall (fun e => match e with EvPrint _ => True | _ => False end) tail ->
            (forall f, ~ In (EvExit (CGetFile f) false) (evs o0 ++ tail))
            /\ (forall before g after,
                  evs o0 ++ tail <> before ++ EvEnter (CBackupFile g) :: after)).
  { intros tail Htail.
    assert (Hall : Forall (fun e => transfer_event e
                             \/ match e with EvPrint _ => True | _ => False end)
                     (evs o0 ++ tail)).
    { apply Forall_app. split.
      - eapply Forall_impl; [exact Hpre|]. intros e He. left. exact He.
      - eapply Forall_impl; [exact Htail|]. intros e He. right. exact He. }
    split.
    - intros f Hin. rewrite List.Forall_forall in Hall.
      destruct (Hall _ Hin) as [[]|[]].
    - intros before g after. apply (Forall_no_middle _ _ _ _ _ Hall).
      intros [[]|[]]. }
  destruct (res o0) as [[manifest|]|e] eqn:E0; cbn [res st evs].
  - destruct (apply_manifest_shape manifest (st o0))
      as (staged & rest & Hev & Hs & Hsw & Hcases).
    revert Hev Hcases. generalize (apply_manifest manifest (st o0)).
    intros o1 -> Hcases. split.
    + intros f Hin.
      assert (Hstaged : In (EvExit (CGetFile f) false) staged).
      { apply in_app_iff in Hin as [Hin|Hin].
        - rewrite List.Forall_forall in Hpre. destruct (Hpre _ Hin).
        - apply in_app_iff in Hin as [Hin|Hin]; [exact Hin|].
          rewrite List.Forall_forall in Hsw. destruct (Hsw _ Hin). }
      destruct Hcases as [(Hr & -> & _)|[(new & upd & _ & _ & _ & Hnone)|(_ & -> & _)]].
      * rewrite app_nil_r.
        assert (Hall : Forall stage_event (evs o0 ++ staged))
          by (apply Forall_app; auto).
        rewrite List.Forall_forall in Hall.
        split; [exact Hr|]. split.
        -- intros g Hg. exact (Hall _ Hg).
        -- intros src dst Hg. exact (Hall _ Hg).
      * destruct (Hnone f Hstaged).
      * destruct Hstaged.
    + intros before g after Heq. rewrite app_assoc in Heq.
      apply (split_at_event stage_event) in Heq as (mid & -> & Hrest);
        [|apply Forall_app; auto|intros []].
      destruct Hcases as [(_ & Hnil & _)|[(new & upd & En & Eu & Hall & _)|(_ & _ & Hr)]].
      * rewrite Hnil in Hrest. destruct mid; discriminate.
      * exists manifest, new, upd. repeat split; auto.
        intros f Hf. apply in_app_iff. left. apply in_app_iff. right. auto.
      * rewrite Hrest in Hr. apply Forall_app in Hr as [_ Hr].
        apply Forall_cons in Hr as [[] _].
  - destruct (Hquiet [EvPrint "Already on the latest version"]) as [Hno Hmid];
      [repeat constructor|].
    split.
    + intros f Hin. destruct (Hno f Hin).
    + intros before g after Heq. destruct (Hmid _ _ _ Heq).
  - destruct (Hquiet [EvPrint ("Error reading the manifest, aborting: " ++ exn_str e)])
      as [Hno Hmid]; [repeat constructor|].
    split.
    + intros f Hin. destruct (Hno f Hin).
    + intros before g after Heq. destruct (Hmid _ _ _ Heq).
Qed.


(** C5 (amended). When [update] has to fetch the manifest and the download
    returns: a payload that [ujson.loads] reads as [null] gives the manifest
    [None] and the outcome 1 (AlreadyCurrent); a payload that [ujson.loads]
    rejects makes [get_update_manifest] raise [ValueError] and gives the
    outcome 0 (Failed). The empty payload is of the second kind. *)
Theorem update_null_manifest `{Platform}
    (customManifest : manifest_opt) (fwtype token : option string) (w : World) :
  falsy customManifest = true ->
  is_ok (res (get_data (manifest_request fwtype token) None false false w)) = true ->
  let payload := Py.decode (received (hd [] (net w))) in
  let o := update customManifest fwtype token w in
  (ujson_loads payload = Some None ->
     res (get_update_manifest fwtype token w) = Ok None /\ res o = Ok 1%Z)
  /\ (ujson_loads payload = None ->
      res (get_update_manifest fwtype token w) = Raise ValueError
      /\ res o = Ok 0%Z).
Proof.
  intros Hfalsy Hdl. cbv zeta. rewrite update_run. cbv zeta.
  unfold obtain. rewrite Hfalsy, get_update_manifest_unfold.
  pose proof (get_data_ok (manifest_request fwtype token) None false false w) as Hv.
  cbv zeta in Hv. rewrite !bind_run. revert Hdl Hv.
  generalize (get_data (manifest_request fwtype token) None false false w).
  intros od Hdl Hv.
  destruct (res od) as [v|e]; [|discriminate Hdl].
  rewrite (Hv v eq_refl). cbn [res st evs ret raise bind].
  split; intros ->; cbn [res st evs ret raise bind]; auto.
Qed.

(** ** The network configuration *)

Lemma try_any_swallows {St} (m : M St unit) (h : exn -> M St unit) (s : St) :
  (forall e s', res (h e s') = Ok tt) ->
  res (try_except m any_exception h s) = Ok tt.
Proof.
  intros Hh. rewrite try_except_run.
  destruct (res (m s)) as [[]|e] eqn:E; [exact E|]. cbn. apply Hh.
Qed.

(** C9 (amended). [update_network_config] never raises, whatever the
    response and the configuration are. [update_device_network_config]
    never raises when the configuration has a [device_id]: every exception
    of the request, of the merge and of the write is caught and logged. The
    URL is formatted from [config['device_id']] before the [try], so a
    configuration without that key raises [KeyError] to the caller. *)
Theorem network_config_errors_are_swallowed `{Platform} (letResp : json) (ctx : NetCtx) :
  res (update_network_config letResp ctx) = Ok tt
  /\ (forall device_id, config ctx !! "device_id" = Some device_id ->
      res (update_device_network_config ctx) = Ok tt)
  /\ (config ctx !! "device_id" = None ->
      res (update_device_network_config ctx) = Raise (KeyError "device_id")).
Proof.
  split; [|split].
  - unfold update_network_config. apply try_any_swallows. reflexivity.
  - intros device_id Hid. unfold update_device_network_config.
    rewrite bind_run. cbn [get res st evs]. rewrite bind_run, Hid.
    cbn [ret res st evs]. rewrite bind_run. cbn [print_debug emit res st evs].
    apply try_any_swallows. reflexivity.
  - intros Hid. unfold update_device_network_config.
    rewrite bind_run. cbn [get res st evs]. rewrite bind_run, Hid. reflexivity.
Qed.

(** * The claims on concrete runs *)

(** The scenario of a successful update: the old file is kept as [.bak],
    the new content is in place, the outcome is 2 (Applied). *)
Example update_applies_a_file :
  let o := @update reference_platform (Some update_a_txt) None None
             (old_device [[http_ok (Py.encode "abc")]]) in
  res o = Ok 2%Z
  /\ fs (st o) !! "/flash/a.txt" = Some (Py.encode "abc")
  /\ fs (st o) !! "/flash/a.txt.bak" = Some (Py.encode "old")
  /\ fs (st o) !! "/flash/a.txt.new" = None.
Proof. vm_compute. repeat split; reflexivity. Qed.

(** The scenario of a wrong digest: nothing is renamed, the outcome is 0
    (Failed) and the file is untouched. *)
Example update_rejects_a_wrong_digest :
  let o := @update reference_platform (Some update_a_txt) None None
             (old_device [[http_ok (Py.encode "abx")]]) in
  res o = Ok 0%Z
  /\ fs (st o) !! "/flash/a.txt" = Some (Py.encode "old")
  /\ fs (st o) !! "/flash/a.txt.bak" = None
  /\ existsb (fun e => match e with EvRename _ _ => true | _ => false end) (evs o)
     = false.
Proof. vm_compute. repeat split; reflexivity. Qed.

(** C2 (code bug). The first download of [a.txt] delivers a wrong content,
    a second one would deliver the right one. [update] returns 0 after a
    single call of [get_file], although the call, made again on the state
    it leaves, returns normally: the [return 0] of the handler ends the
    loop of 5 attempts at the first failure. *)
Theorem update_gives_up_at_first_failure :
  let w := old_device [[http_ok (Py.encode "abx")]; [http_ok (Py.encode "abc")]] in
  let o := @update reference_platform (Some update_a_txt) None None w in
  res o = Ok 0%Z
  /\ length (List.filter is_get_file_call (evs o)) = 1
  /\ In (EvPrint "Error downloading `http://ota.example/a.txt` retrying...") (evs o)
  /\ res (@get_file reference_platform a_txt (st o)) = Ok tt.
Proof.
  vm_compute. repeat split; try reflexivity.
  repeat (first [left; reflexivity | right]).
Qed.

(** C6 (code bug). Two answers of a server, in chunks of at most 50 bytes.
    In the first, the body [ab], blank line, [cd] arrives with the headers
    in one chunk: everything after the first separator is that body, but
    [get_data] returns only [ab] ([result.split(sep)[1]] stops at the next
    separator of the chunk). In the second, the separator is cut by the
    chunk boundary: the stream has the body [abc] after its first
    separator, but [get_data] finds no separator in any chunk and returns
    nothing. *)
Theorem get_data_loses_body_bytes :
  let ab := Py.encode "ab" in
  let cd := Py.encode "cd" in
  let abc := Py.encode "abc" in
  let one_chunk := [http_ok (ab ++ Py.CRLF2 ++ cd)] in
  let cut := [Py.encode ("HTTP/1.0 200 OK" ++ Py.CRLF); Py.encode Py.CRLF ++ abc] in
  (Forall (fun chunk => length chunk <= 50) (one_chunk ++ cut)
   /\ Py.partition Byte.eqb Py.CRLF2 (concat one_chunk)
      = Some (Py.encode "HTTP/1.0 200 OK", ab ++ Py.CRLF2 ++ cd)
   /\ Py.partition Byte.eqb Py.CRLF2 (concat cut)
      = Some (Py.encode "HTTP/1.0 200 OK", abc))
  /\ res (@get_data reference_platform "f" None false false (device [] [one_chunk]))
     = Ok (RBytes ab)
  /\ res (@get_data reference_platform "f" None false false (device [] [cut]))
     = Ok (RBytes []).
Proof.
  cbv zeta. split; [split; [|split]|split]; try (vm_compute; reflexivity).
  repeat constructor; vm_compute; lia.
Qed.

(** The payloads that the reference [ujson.loads] takes for no manifest,
    and those it rejects. *)
Example loads_null_and_empty :
  @ujson_loads reference_platform "null" = Some None
  /\ @ujson_loads reference_platform "" = None
  /\ @ujson_loads reference_platform "{}" = Some (Some (mkManifest None None None None)).
Proof. vm_compute. repeat split; reflexivity. Qed.

(** C5, the counterexample: the server answers the manifest request with
    an empty body. [get_update_manifest] does not return [None], it raises
    [ValueError], and [update] returns 0 (Failed), not 1. *)
Lemma empty_payload_is_a_parse_error :
  let w := device [] [[http_ok []]] in
  res (@get_data reference_platform (@manifest_request reference_platform None None)
         None false false w) = Ok (RBytes [])
  /\ res (@get_update_manifest reference_platform None None w) = Raise ValueError
  /\ res (@update reference_platform None None None w) = Ok 0%Z.
Proof. vm_compute. repeat split; reflexivity. Qed.

(** C5, a run of the amended claim: the server answers [null]. *)
Lemma update_null_manifest_witness :
  let w := device [] [[http_ok (Py.encode "null")]] in
  (falsy None = true
   /\ is_ok (res (@get_data reference_platform
                    (@manifest_request reference_platform None None)
                    None false false w)) = true
   /\ @ujson_loads reference_platform (Py.decode (received (hd [] (net w)))) = Some None)
  /\ res (@get_update_manifest reference_platform None None w) = Ok None
  /\ res (@update reference_platform None None None w) = Ok 1%Z.
Proof.
  cbv zeta. split.
  - vm_compute. repeat split; reflexivity.
  - apply (@update_null_manifest reference_platform None None None
             (device [] [[http_ok (Py.encode "null")]])); vm_compute; reflexivity.
Defined.

(** C3, the counterexample: a manifest with a [new] list and no [update]
    key. [update] returns 2 (Applied) without a single call: the entry is
    neither downloaded nor renamed into place. *)
Lemma new_only_manifest_is_skipped :
  let manifest := mkManifest (Some [a_txt]) None None None in
  let w := device [] [[http_ok (Py.encode "abc")]] in
  let o := @update reference_platform (Some manifest) None None w in
  res o = Ok 2%Z /\ evs o = []
  /\ fs (st o) !! "/flash/a.txt" = None /\ net (st o) = net w.
Proof. vm_compute. repeat split; reflexivity. Qed.


(** C8, a run: the scenario of a manifest that deletes [old.txt]. *)
Lemma delete_file_keeps_data_witness :
  let w := device [("/old.txt", Py.encode "old")] [] in
  fs w !! "/old.txt" = Some (Py.encode "old")
  /\ res (delete_file "old.txt" w) = Ok tt
  /\ fs (st (delete_file "old.txt" w)) !! "/old.txt.bak_del" = Some (Py.encode "old")
  /\ fs (st (delete_file "old.txt" w)) !! "/old.txt" = None.
Proof.
  cbv zeta.
  assert (Hf : fs (device [("/old.txt", Py.encode "old")] []) !! "/old.txt"
               = Some (Py.encode "old")) by (vm_compute; reflexivity).
  split; [exact Hf|].
  destruct (delete_file_keeps_data "old.txt" _ _ Hf) as (Hr & Hbak & Hgone & _).
  auto.
Defined.

(** C10, a run: the body [abc] fetched into memory with its digest. *)
Lemma get_data_return_value_witness :
  let w := device [] [[http_ok (Py.encode "abc")]] in
  res (@get_data reference_platform "a.txt" None true false w)
  = Ok (RPair (Py.encode "abc") "a9993e364706816aba3e25717850c26c9cd0d89d")
  /\ RPair (Py.encode "abc") "a9993e364706816aba3e25717850c26c9cd0d89d"
     = RPair (received (hd [] (net w)))
             (Py.hexlify (Sha1.digest (received (hd [] (net w))))).
Proof.
  cbv zeta.
  assert (Hok : res (@get_data reference_platform "a.txt" None true false
                       (device [] [[http_ok (Py.encode "abc")]]))
                = Ok (RPair (Py.encode "abc") "a9993e364706816aba3e25717850c26c9cd0d89d"))
    by (vm_compute; reflexivity).
  split; [exact Hok|].
  exact (proj1 (@get_data_return_value reference_platform _ _ _ _ _ _ Hok)).
Defined.

(** C9, the counterexample: a configuration without [device_id]. The
    [KeyError] of [config['device_id']] reaches the caller. *)
Lemma missing_device_id_raises :
  res (@update_device_network_config reference_platform
         (mkNetCtx (device [] []) ∅))
  = Raise (KeyError "device_id").
Proof. vm_compute. reflexivity. Qed.

(** A run of the network configuration: the response replaces the WiFi
    settings and has no LTE settings; the configuration is merged and
    written, and the device resets. *)
Example network_config_is_merged :
  let url := "https://pyconfig.eu-central-1.elasticbeanstalk.com/device/networks/dev1" in
  let doc := JObj [("networkConfig",
                    JObj [("networkPreferences", JArr [JStr "wifi"]);
                          ("wifi", JObj [("ssid", JStr "home")])])] in
  let w := mkWorld ∅ [] "ota.example" 80 [] {[ url := doc ]} [] in
  let ctx := mkNetCtx w {[ "device_id" := JStr "dev1"; "lte" := JObj [] ]} in
  let o := @update_device_network_config reference_platform ctx in
  res o = Ok tt
  /\ config (st o) !! "wifi" = Some (JObj [("ssid", JStr "home")])
  /\ config (st o) !! "lte" = None
  /\ In EvReset (evs o)
  /\ is_Some (fs (nc_world (st o)) !! "/flash/pybytes_config.json").
Proof.
  vm_compute. repeat split; try reflexivity.
  - repeat (first [left; reflexivity | right]).
  - eexists. reflexivity.
Qed.

(** * Further properties *)

(** What a round of the loop does to the sinks: the flash session in
    firmware mode, the open file otherwise. *)
Lemma loop_body_sink hash firmware result fr :
  res (loop_body hash firmware result fr) = Ok tt ->
  let w := world fr in
  let w' := world (st (loop_body hash firmware result fr)) in
  let out := snd (round_output (start_writing fr) result) in
  flash w' = flash w ++ (if firmware then out else [])
  /\ (firmware = true \/ fp fr = None -> fs w' = fs w)
  /\ (forall path prev, firmware = false -> fp fr = Some path ->
        fs w !! path = Some prev -> fs w' !! path = Some (prev ++ out)).
Proof.
  destruct fr as [w hh c p started]. destruct w as [f fl i po n wb flt].
  unfold round_output, loop_body, sha1_update, ota_write, file_write, io, liftW.
  cbn [start_writing fp h content world].
  destruct (Py.contains Byte.eqb Py.CRLF2 result) eqn:Ec.
  - destruct (contains_split_item1 _ _ _ Ec) as [r Er]. rewrite Er.
    destruct started, firmware, p as [path|], hash, hh, flt as [|[] flt]; cbn;
      intros Hok; try discriminate Hok; rewrite ?app_nil_r;
      (split; [reflexivity|split]);
      try (intros [?|?]; (discriminate || reflexivity));
      try (intros path' prev ? [= <-] Hprev; cbn; rewrite ?Hprev; cbn;
           rewrite ?app_nil_r; first [apply lookup_insert_eq | reflexivity | assumption]);
      try (intros path' prev ? ?; discriminate).
  - destruct started, firmware, p as [path|], hash, hh, flt as [|[] flt]; cbn;
      intros Hok; try discriminate Hok; rewrite ?app_nil_r;
      (split; [reflexivity|split]);
      try (intros [?|?]; (discriminate || reflexivity));
      try (intros path' prev ? [= <-] Hprev; cbn; rewrite ?Hprev; cbn;
           rewrite ?app_nil_r; first [apply lookup_insert_eq | reflexivity | assumption]);
      try (intros path' prev ? ?; discriminate).
Qed.

Lemma io_ok (e : Event) (w : World) :
  res (io e w) = Ok tt ->
  st (io e w) = set_faults (tl (faults w)) w /\ evs (io e w) = [e].
Proof.
  destruct w as [f fl i po n wb flt]. unfold io.
  destruct flt as [|[] flt]; cbn; intros Hok; try discriminate Hok; auto.
Qed.

Lemma io_sinks (e : Event) (w : World) :
  fs (st (io e w)) = fs w /\ flash (st (io e w)) = flash w.
Proof.
  destruct w as [f fl i po n wb flt]. unfold io.
  destruct flt as [|[] flt]; cbn; auto.
Qed.

Lemma recv_loop_sink hash firmware s : forall result fr,
  res (recv_loop hash firmware result s fr) = Ok tt ->
  let w := world fr in
  let w' := world (st (recv_loop hash firmware result s fr)) in
  let out := body_written (start_writing fr) result s in
  flash w' = flash w ++ (if firmware then out else [])
  /\ (firmware = true \/ fp fr = None -> fs w' = fs w)
  /\ (forall path prev, firmware = false -> fp fr = Some path ->
        fs w !! path = Some prev -> fs w' !! path = Some (prev ++ out)).
Proof.
  induction s as [|next s IH]; intros [|b result] fr Hok; cbn [recv_loop body_written] in *.
  - cbn. destruct firmware; rewrite ?app_nil_r; repeat split; auto;
      intros path prev _ _ Hp; rewrite app_nil_r; exact Hp.
  - apply bind_ok_inv in Hok as ([] & Hbody & Hrest & Hst & _).
    rewrite Hst. pose proof (loop_body_ok _ _ _ _ Hbody) as (_ & Hfp & _).
    apply loop_body_sink in Hbody as (Hfl & Hfs & Hfile).
    apply bind_ok_inv in Hrest as ([] & _ & _ & Hst' & _). rewrite Hst'.
    cbn [ret st]. rewrite app_nil_r.
    set (fr1 := st (loop_body hash firmware (b :: result) fr)) in *.
    destruct (io_sinks EvRecv (world fr1)) as (Efs & Efl).
    change (world (st (liftW (io EvRecv) fr1))) with (st (io EvRecv (world fr1))).
    rewrite Efs, Efl. auto.
  - cbn. destruct firmware; rewrite ?app_nil_r; repeat split; auto;
      intros path prev _ _ Hp; rewrite app_nil_r; exact Hp.
  - apply bind_ok_inv in Hok as ([] & Hbody & Hrest & Hst & _).
    rewrite Hst. pose proof (loop_body_ok _ _ _ _ Hbody) as (Hs & Hfp & _).
    apply loop_body_sink in Hbody as (Hfl & Hfs & Hfile).
    apply bind_ok_inv in Hrest as ([] & _ & Hloop & Hst' & _). rewrite Hst'.
    apply IH in Hloop as (Hfl' & Hfs' & Hfile').
    set (fr1 := st (loop_body hash firmware (b :: result) fr)) in *.
    destruct (io_sinks EvRecv (world fr1)) as (Efs & Efl).
    change (world (st (liftW (io EvRecv) fr1))) with (st (io EvRecv (world fr1))) in *.
    change (start_writing (st (liftW (io EvRecv) fr1))) with (start_writing fr1) in *.
    change (fp (st (liftW (io EvRecv) fr1))) with (fp fr1) in *.
    rewrite Efs, Efl, Hfp, Hs in *. clear Efs Efl.
    set (r := round_output (start_writing fr) (b :: result)) in *.
    split; [|split].
    + rewrite Hfl', Hfl. destruct firmware; rewrite <- ?app_assoc, ?app_nil_r; reflexivity.
    + intros Hc. rewrite Hfs', Hfs; auto.
    + intros path prev Hfw Hp Hprev. rewrite app_assoc.
      apply Hfile'; auto.
Qed.

Lemma recv_loop_loop_events hash firmware s : forall result,
  emits loop_event (recv_loop hash firmware result s).
Proof.
  induction s as [|next s IH]; intros [|b result]; simpl;
    try apply emits_ret.
  - unfold loop_body, sha1_update, ota_write, file_write.
    repeat emits_step; exact I.
  - apply emits_bind.
    { unfold loop_body, sha1_update, ota_write, file_write.
      repeat emits_step; exact I. }
    intros _. apply emits_bind; [repeat emits_step; exact I|].
    intros _. apply IH.
Qed.

(** ** Runs that return, with their events *)

Lemma traces_bind {St A B} (m : M St A) (k : A -> M St B) s Q :
  traces m s (fun a s' e1 => traces (k a) s' (fun b s'' e2 => Q b s'' (e1 ++ e2))) ->
  traces (bind m k) s Q.
Proof.
  intros Hm b Hb. apply bind_ok_inv in Hb as (a & Ha & Hk & Hst & Hev).
  rewrite Hst, Hev. exact (Hm a Ha b Hk).
Qed.

Lemma traces_get {St B} (k : St -> M St B) s Q :
  traces (k s) s Q -> traces (bind get k) s Q.
Proof. intros Hk. apply traces_bind. intros a [= <-]. exact Hk. Qed.

Lemma traces_get_only {St} (s : St) (Q : St -> St -> list Event -> Prop) :
  Q s s [] -> traces get s Q.
Proof. intros HQ a [= <-]. exact HQ. Qed.

Lemma traces_ret {St A} (a : A) (s : St) (Q : A -> St -> list Event -> Prop) :
  Q a s [] -> traces (ret a) s Q.
Proof. intros HQ b [= <-]. exact HQ. Qed.

Lemma traces_raise {St A} e (s : St) (Q : A -> St -> list Event -> Prop) :
  traces (raise e) s Q.
Proof. intros b Hb. discriminate Hb. Qed.

Lemma traces_modify {St} g (s : St) (Q : unit -> St -> list Event -> Prop) :
  Q tt (g s) [] -> traces (modify g) s Q.
Proof. intros HQ [] _. exact HQ. Qed.

Lemma traces_emit {St} e (s : St) (Q : unit -> St -> list Event -> Prop) :
  Q tt s [e] -> traces (emit e) s Q.
Proof. intros HQ [] _. exact HQ. Qed.

Lemma traces_io e (w : World) (Q : unit -> World -> list Event -> Prop) :
  Q tt (set_faults (tl (faults w)) w) [e] -> traces (io e) w Q.
Proof. intros HQ [] Hok. destruct (io_ok e w Hok) as (-> & ->). exact HQ. Qed.

Lemma traces_liftW {A} (m : M World A) (fr : Frame) Q :
  traces m (world fr) (fun a w' e => Q a (set_world w' fr) e) ->
  traces (liftW m) fr Q.
Proof. intros Hm a Ha. exact (Hm a Ha). Qed.

Lemma traces_try_reraise {St A} (m : M St A) sel (h : exn -> M St A) s Q :
  (forall e s', is_ok (res (h e s')) = false) ->
  traces m s Q -> traces (try_except m sel h) s Q.
Proof.
  intros Hh Hm a. rewrite try_except_run.
  destruct (res (m s)) as [a'|e] eqn:E.
  - rewrite E. intros [= <-]. apply Hm, E.
  - destruct (sel e).
    + cbn [res]. intros Ha. specialize (Hh e (st (m s))). rewrite Ha in Hh.
      discriminate Hh.
    + rewrite E. discriminate.
Qed.

Lemma traces_recv_loop (hash firmware : bool) result s (fr : Frame) Q :
  (forall fr' ev,
     let out := body_written (start_writing fr) result s in
     fp fr' = fp fr ->
     h fr' = (fun fed => fed ++ if hash then out else []) <$> h fr ->
     content fr' = content fr
       ++ (if firmware then [] else match fp fr with None => out | Some _ => [] end) ->
     flash (world fr') = flash (world fr) ++ (if firmware then out else []) ->
     (firmware = true \/ fp fr = None -> fs (world fr') = fs (world fr)) ->
     (forall path prev, firmware = false -> fp fr = Some path ->
        fs (world fr) !! path = Some prev ->
        fs (world fr') !! path = Some (prev ++ out)) ->
     Forall loop_event ev ->
     Q tt fr' ev) ->
  traces (recv_loop hash firmware result s) fr Q.
Proof.
  intros HQ [] Hok. pose proof (recv_loop_ok _ _ _ _ _ Hok) as (Hfp & Hh & Hc).
  pose proof (recv_loop_sink _ _ _ _ _ Hok) as (Hfl & Hfs & Hfile).
  apply HQ; auto. apply recv_loop_loop_events.
Qed.

Lemma traces_socket_connect (w : World) Q :
  (forall w', fs w' = fs w -> flash w' = flash w ->
     Q (hd [] (net w)) w' [EvConnect (ip w) (port w)]) ->
  traces socket_connect w Q.
Proof.
  intros HQ s Hs. pose proof (socket_connect_ok w s Hs) as ->.
  revert Hs. specialize (HQ (st (socket_connect w))). revert HQ.
  destruct w as [f fl i po n wb flt]. unfold socket_connect, io.
  destruct n, flt as [|[] flt]; cbn; intros HQ Hs; try discriminate Hs;
    apply HQ; reflexivity.
Qed.

Section Traces.
Context `{Platform}.

Lemma traces_sha1_digest (fr : Frame) Q :
  (forall fed, h fr = Some fed -> Q (sha1 fed) fr [EvSha1Digest]) ->
  traces sha1_digest fr Q.
Proof.
  intros HQ d. unfold sha1_digest. rewrite bind_run. cbn.
  destruct (h fr) as [fed|] eqn:E; cbn; [|discriminate].
  intros [= <-]. apply HQ. reflexivity.
Qed.

Ltac trun :=
  cbv beta;
  lazymatch goal with
  | |- traces (bind (@get _) _) _ _ => apply traces_get
  | |- traces (bind _ _) _ _ => apply traces_bind
  | |- traces (try_except _ _ _) _ _ => apply traces_try_reraise
  | |- traces (ret _) _ _ => apply traces_ret
  | |- traces (@get _) _ _ => apply traces_get_only
  | |- traces (raise _) _ _ => apply traces_raise
  | |- traces (modify _) _ _ => apply traces_modify
  | |- traces (emit _) _ _ => apply traces_emit
  | |- traces (io _) _ _ => apply traces_io
  | |- traces socket_connect _ _ =>
      let Hfs := fresh "Hfs" in
      let Hfl := fresh "Hfl" in
      apply traces_socket_connect; intros ? Hfs Hfl
  | |- traces (liftW _) _ _ => apply traces_liftW
  | |- traces (@sha1_digest _) _ _ => apply traces_sha1_digest; intros ? ?
  | |- traces (recv_loop _ _ _ _) _ _ =>
      let Hfp := fresh "Hfp" in
      let Hh := fresh "Hh" in
      let Hc := fresh "Hc" in
      let Hfl := fresh "Hfl" in
      let Hfs := fresh "Hfs" in
      let Hfile := fresh "Hfile" in
      let Hev := fresh "Hev" in
      apply traces_recv_loop; intros ? ? ? Hfp Hh Hc Hfl Hfs Hfile Hev;
      cbn [world h content fp start_writing fmap option_fmap option_map
           fs flash set_faults set_fs set_flash set_net] in Hfp, Hh, Hc, Hfl, Hfs, Hfile
  | |- traces (match ?x with _ => _ end) _ _ => destruct x eqn:?
  | |- traces (if ?b then _ else _) _ _ => destruct b
  end;
  cbv beta;
  unfold set_world, set_h, set_content, set_fp, set_start_writing;
  cbn [world h content fp start_writing fs flash net ip port faults
       set_faults set_fs set_flash set_net app];
  repeat match goal with
         | Heq : fp ?f = _ |- context [fp ?f] => rewrite Heq
         | Heq : h ?f = _ |- context [h ?f] => rewrite Heq
         | Heq : content ?f = _ |- context [content ?f] => rewrite Heq
         end.

Lemma get_data_frame_run req dest_path hash firmware (w : World) :
  traces (get_data_frame req dest_path hash firmware)
    (mkFrame w None [] None false)
    (fun _ fr' ev =>
       let out := received (hd [] (net w)) in
       flash (world fr') = (if firmware then out else flash w)
       /\ match dest_path with
          | Some path => fs (world fr') !! path = Some out
          | None => fs (world fr') = fs w
          end
       /\ exists loop,
            Forall loop_event loop
            /\ ev = [EvConnect (ip w) (port w);
                     EvSend (_http_get req (ip w ++ ":" ++ pretty (port w)))]
                    ++ sink_opened dest_path firmware
                    ++ [EvSha1New; EvRecv] ++ loop ++ [EvSockClose]
                    ++ sink_closed dest_path firmware ++ [EvSha1Digest]).
Proof.
  unfold get_data_frame. do 10 trun. apply traces_try_reraise.
  { intros e s'. destruct (handler_run e s') as (Hr & _). cbv zeta in Hr.
    rewrite Hr. reflexivity. }
  destruct dest_path as [path|], firmware;
    unfold file_open, ota_start, ota_finish, sha1_new; repeat trun.
  all: subst out; cbn [start_writing app] in *; unfold received;
    (split; [rewrite Hfl0, ?app_nil_r; cbn [app]; congruence|]);
    (split; [first [ rewrite Hfs0 by auto; exact Hfs
                   | apply (Hfile path []); auto; apply lookup_insert_eq ]|]);
    exists ev; (split; [exact Hev|]);
    unfold sink_opened, sink_closed; cbn [app]; rewrite <- ?app_assoc;
    reflexivity.
Qed.

(** The run of [get_data] that returns: what it leaves in the sinks and
    the calls it makes. *)
Lemma get_data_run req dest_path hash firmware (w : World) (v : retval) :
  let o := get_data req dest_path hash firmware w in
  let out := received (hd [] (net w)) in
  res o = Ok v ->
  flash (st o) = (if firmware then out else flash w)
  /\ match dest_path with
     | Some path => fs (st o) !! path = Some out
     | None => fs (st o) = fs w
     end
  /\ exists loop,
       Forall loop_event loop
       /\ evs o = [EvConnect (ip w) (port w);
                   EvSend (_http_get req (ip w ++ ":" ++ pretty (port w)))]
                  ++ sink_opened dest_path firmware
                  ++ [EvSha1New; EvRecv] ++ loop ++ [EvSockClose]
                  ++ sink_closed dest_path firmware ++ [EvSha1Digest].
Proof.
  intros o out Hok.
  exact (get_data_frame_run req dest_path hash firmware w v Hok).
Qed.




End Traces.


(** ** [backup_file] and [delete_file] *)

Lemma str_app_inv (a b c : string) : (a ++ b = a ++ c)%string -> b = c.
Proof. induction a as [|x a IH]; simpl; [auto|]. intros [= Heq]. auto. Qed.


Lemma backup_file_run (f : FileEntry) (w : World) (data : bytes) :
  fs w !! dst_path f = Some data ->
  backup_file f w
  = mkOut (Ok tt)
      (set_fs (fun m => <[(dst_path f ++ ".bak")%string := data]>
                          (delete (dst_path f) m))
         (set_fs (delete (dst_path f ++ ".bak")%string) w))
      [EvEnter (CBackupFile f); EvRemove (dst_path f ++ ".bak");
       EvRename (dst_path f) (dst_path f ++ ".bak"); EvExit (CBackupFile f) true].
Proof.
  intros E. unfold backup_file. rewrite traced_run, bind_run, remove_stale_run.
  cbn [res st evs].
  rewrite (os_rename_run _ _ _ data); [reflexivity|].
  destruct w; cbn in *. rewrite lookup_delete_ne; [exact E|].
  intros Heq. symmetry in Heq. revert Heq. apply str_app_ne. discriminate.
Qed.

Lemma backup_file_missing_run (f : FileEntry) (w : World) :
  fs w !! dst_path f = None ->
  backup_file f w
  = mkOut (Raise OSError) (set_fs (delete (dst_path f ++ ".bak")%string) w)
      [EvEnter (CBackupFile f); EvRemove (dst_path f ++ ".bak");
       EvRename (dst_path f) (dst_path f ++ ".bak"); EvExit (CBackupFile f) false].
Proof.
  intros E. unfold backup_file. rewrite traced_run, bind_run, remove_stale_run.
  cbn [res st evs].
  rewrite os_rename_missing; [reflexivity|].
  destruct w; cbn in *. rewrite lookup_delete_ne; [exact E|].
  intros Heq. symmetry in Heq. revert Heq. apply str_app_ne. discriminate.
Qed.

Lemma delete_file_missing_run (f : string) (w : World) :
  fs w !! ("/" ++ f)%string = None ->
  delete_file f w
  = mkOut (Raise OSError) (set_fs (delete ("/" ++ f ++ ".bak_del")%string) w)
      [EvEnter (CDeleteFile f); EvRemove ("/" ++ f ++ ".bak_del");
       EvRename ("/" ++ f) ("/" ++ f ++ ".bak_del"); EvExit (CDeleteFile f) false].
Proof.
  intros E. unfold delete_file. rewrite traced_run, bind_run, remove_stale_run.
  cbn [res st evs].
  rewrite os_rename_missing; [reflexivity|].
  destruct w; cbn in *. rewrite lookup_delete_ne; [exact E|].
  intros Heq. cbn in Heq. injection Heq as Heq. symmetry in Heq.
  exact (str_app_ne f ".bak_del" ltac:(discriminate) Heq).
Qed.


(** X8. [backup_file] on a file that exists moves it to [.bak], replacing a
    previous backup, and touches no other file. *)
Theorem backup_file_moves_the_file (f : FileEntry) (w : World) (data : bytes) :
  fs w !! dst_path f = Some data ->
  let o := backup_file f w in
  let bak_path := (dst_path f ++ ".bak")%string in
  res o = Ok tt
  /\ fs (st o) !! bak_path = Some data
  /\ fs (st o) !! dst_path f = None
  /\ (forall q, q <> dst_path f -> q <> bak_path -> fs (st o) !! q = fs w !! q)
  /\ evs o = [EvEnter (CBackupFile f); EvRemove bak_path;
              EvRename (dst_path f) bak_path; EvExit (CBackupFile f) true].
Proof.
  intros E. cbv zeta. rewrite (backup_file_run f w data E). cbn [res st evs].
  assert (Hne : dst_path f <> (dst_path f ++ ".bak")%string)
    by (apply str_app_ne; discriminate).
  destruct w as [m fl i po n wb flt]; cbn [fs set_fs] in *.
  repeat split.
  - apply lookup_insert_eq.
  - rewrite lookup_insert_ne by auto. apply lookup_delete_eq.
  - intros q Hq Hq'. rewrite lookup_insert_ne by auto.
    rewrite !lookup_delete_ne by auto. reflexivity.
Qed.

(** X9. [backup_file] on a file that is not there raises [OSError], and the
    previous backup is gone all the same; no other file is touched. *)
Theorem backup_file_missing_file (f : FileEntry) (w : World) :
  fs w !! dst_path f = None ->
  let o := backup_file f w in
  let bak_path := (dst_path f ++ ".bak")%string in
  res o = Raise OSError
  /\ fs (st o) !! bak_path = None
  /\ (forall q, q <> bak_path -> fs (st o) !! q = fs w !! q).
Proof.
  intros E. cbv zeta. rewrite (backup_file_missing_run f w E). cbn [res st evs].
  destruct w as [m fl i po n wb flt]; cbn [fs set_fs] in *.
  repeat split.
  - apply lookup_delete_eq.
  - intros q Hq. rewrite lookup_delete_ne by auto. reflexivity.
Qed.

(** X10. [delete_file] on a file that is not there raises [OSError], and a
    previous [.bak_del] of that name is gone all the same; no other file is
    touched. *)
Theorem delete_file_missing_file (f : string) (w : World) :
  fs w !! ("/" ++ f)%string = None ->
  let o := delete_file f w in
  let bak_path := ("/" ++ f ++ ".bak_del")%string in
  res o = Raise OSError
  /\ fs (st o) !! bak_path = None
  /\ (forall q, q <> bak_path -> fs (st o) !! q = fs w !! q).
Proof.
  intros E. cbv zeta. rewrite (delete_file_missing_run f w E). cbn [res st evs].
  destruct w as [m fl i po n wb flt]; cbn [fs set_fs] in *.
  repeat split.
  - apply lookup_delete_eq.
  - intros q Hq. rewrite lookup_delete_ne by auto. reflexivity.
Qed.

(** ** [get_data]: the sinks *)

Lemma body_written_headers (pre : list bytes) first rest :
  Forall (fun c => c <> [] /\ Py.contains Byte.eqb Py.CRLF2 c = false) pre ->
  body_written false (hd [] (pre ++ first :: rest)) (tl (pre ++ first :: rest))
  = body_written false first rest.
Proof.
  induction pre as [|c pre IH]; intros Hpre; [reflexivity|].
  apply Forall_cons in Hpre as [[Hc Hno] Hpre].
  cbn [app hd tl]. destruct c as [|b c]; [destruct Hc; reflexivity|].
  specialize (IH Hpre).
  destruct pre as [|c' pre]; cbn [app hd tl body_written] in *;
    unfold round_output at 1 2; rewrite Hno; cbn [fst snd app]; exact IH.
Qed.

Lemma body_written_started (rest : list bytes) :
  Forall (fun c => c <> []) rest ->
  match rest with
  | [] => []
  | next :: s' => body_written true next s'
  end = concat rest.
Proof.
  induction rest as [|c rest IH]; intros Hrest; [reflexivity|].
  apply Forall_cons in Hrest as [Hc Hrest].
  destruct c as [|b c]; [destruct Hc; reflexivity|].
  specialize (IH Hrest).
  destruct rest; cbn [body_written round_output fst snd concat] in *;
    rewrite ?IH; reflexivity.
Qed.

Lemma received_well_framed (pre : list bytes) first headers b0 rest :
  Forall (fun c => c <> [] /\ Py.contains Byte.eqb Py.CRLF2 c = false) pre ->
  Py.partition Byte.eqb Py.CRLF2 first = Some (headers, b0) ->
  Py.contains Byte.eqb Py.CRLF2 b0 = false ->
  Forall (fun c => c <> []) rest ->
  received (pre ++ first :: rest) = b0 ++ concat rest.
Proof.
  intros Hpre Hfirst Hb0 Hrest. unfold received.
  rewrite body_written_headers by exact Hpre.
  destruct first as [|b first]; [discriminate Hfirst|].
  rewrite <- (body_written_started rest Hrest).
  assert (Hround : round_output false (b :: first) = (true, b0)).
  { unfold round_output, Py.contains, Py.split_item1. rewrite Hfirst.
    unfold Py.contains in Hb0.
    destruct (Py.partition Byte.eqb Py.CRLF2 b0); [discriminate Hb0|reflexivity]. }
  destruct rest; cbn [body_written]; rewrite Hround; reflexivity.
Qed.

Lemma received_no_separator (conn : list bytes) :
  Forall (fun c => Py.contains Byte.eqb Py.CRLF2 c = false) conn ->
  received conn = [].
Proof.
  unfold received. destruct conn as [|c conn]; [reflexivity|].
  cbn [hd tl]. revert c.
  induction conn as [|c' conn IH]; intros c Hall;
    apply Forall_cons in Hall as [Hc Hall];
    destruct c as [|b c]; try reflexivity;
    cbn [body_written]; unfold round_output; rewrite Hc; cbn [fst snd app].
  - reflexivity.
  - apply IH, Hall.
Qed.

(** X1. When [get_data] with a [dest_path] returns, the file at
    [dest_path] holds the bytes that the digest was computed over: with
    [hash] the value returned is the SHA-1 of what the file holds. No other
    file and nothing of the flash has changed. When the header separator
    lies whole inside one chunk of the answer, with no separator in the
    chunks before it and none after it in that chunk, the file holds what
    follows the separator in that chunk and every later chunk; when no
    chunk holds the separator whole, the file is empty. *)
Theorem get_data_fills_the_file `{Platform}
    (req path : string) (hash firmware : bool) (w : World) (v : retval) :
  let o := get_data req (Some path) hash firmware w in
  res o = Ok v ->
  exists data,
    fs (st o) !! path = Some data
    /\ (hash = true -> v = RHex (Py.hexlify (sha1 data)))
    /\ (forall q, q <> path -> fs (st o) !! q = fs w !! q)
    /\ flash (st o) = flash w
    /\ (forall pre first headers b0 rest,
          hd [] (net w) = pre ++ first :: rest ->
          Forall (fun c => c <> [] /\ Py.contains Byte.eqb Py.CRLF2 c = false) pre ->
          Py.partition Byte.eqb Py.CRLF2 first = Some (headers, b0) ->
          Py.contains Byte.eqb Py.CRLF2 b0 = false ->
          Forall (fun c => c <> []) rest ->
          data = b0 ++ concat rest)
    /\ (Forall (fun c => Py.contains Byte.eqb Py.CRLF2 c = false) (hd [] (net w)) ->
        data = []).
Proof.
  intros o Hok. subst o.
  pose proof (get_data_ok _ _ _ _ _ _ Hok) as Hv. cbv zeta in Hv.
  destruct Hv as [-> Hv].
  destruct (get_data_run _ _ _ _ _ _ Hok) as (Hfl & Hfs & _).
  exists (received (hd [] (net w))). repeat split; auto.
  - intros ->. exact Hv.
  - intros q Hq. apply get_data_other_files. congruence.
  - intros pre first headers b0 rest -> Hpre Hfirst Hb0 Hrest.
    exact (received_well_framed pre first headers b0 rest Hpre Hfirst Hb0 Hrest).
  - exact (received_no_separator _).
Qed.

(** X2. When [get_data] in firmware mode returns, no byte is returned in
    memory, no file has changed, and with [hash] the digest returned is the
    SHA-1 of what the flash session holds. What an earlier session left is
    not kept: when the header separator lies whole inside one chunk of the
    answer, with no separator in the chunks before it and none after it in
    that chunk, the flash holds what follows the separator in that chunk
    and every later chunk; when no chunk holds the separator whole, the
    flash is empty. *)
Theorem get_data_fills_the_flash `{Platform}
    (req : string) (hash : bool) (w : World) (v : retval) :
  let o := get_data req None hash true w in
  res o = Ok v ->
  v = (if hash then RPair [] (Py.hexlify (sha1 (flash (st o)))) else RBytes [])
  /\ fs (st o) = fs w
  /\ (forall pre first headers b0 rest,
        hd [] (net w) = pre ++ first :: rest ->
        Forall (fun c => c <> [] /\ Py.contains Byte.eqb Py.CRLF2 c = false) pre ->
        Py.partition Byte.eqb Py.CRLF2 first = Some (headers, b0) ->
        Py.contains Byte.eqb Py.CRLF2 b0 = false ->
        Forall (fun c => c <> []) rest ->
        flash (st o) = b0 ++ concat rest)
  /\ (Forall (fun c => Py.contains Byte.eqb Py.CRLF2 c = false) (hd [] (net w)) ->
      flash (st o) = []).
Proof.
  intros o Hok. subst o.
  pose proof (get_data_ok _ _ _ _ _ _ Hok) as Hv. cbv zeta in Hv.
  destruct (get_data_run _ _ _ _ _ _ Hok) as (Hfl & Hfs & _).
  rewrite Hfl. repeat split; auto.
  - destruct hash; exact Hv.
  - intros pre first headers b0 rest -> Hpre Hfirst Hb0 Hrest.
    exact (received_well_framed pre first headers b0 rest Hpre Hfirst Hb0 Hrest).
  - exact (received_no_separator _).
Qed.


(** X3. The calls of a run of [get_data] that returns, in order: connect,
    send the request, open the file and start the flash session (as the
    arguments ask), create the digest context, receive; then only receives,
    writes and digest updates; then close the socket, close the file, finish
    the flash session, and read the digest last. *)
Theorem get_data_calls_in_order `{Platform}
    (req : string) (dest_path : option string) (hash firmware : bool)
    (w : World) (v : retval) :
  let o := get_data req dest_path hash firmware w in
  res o = Ok v ->
  exists loop,
    Forall loop_event loop
    /\ evs o = [EvConnect (ip w) (port w);
                EvSend (_http_get req (ip w ++ ":" ++ pretty (port w)))]
               ++ sink_opened dest_path firmware
               ++ [EvSha1New; EvRecv] ++ loop ++ [EvSockClose]
               ++ sink_closed dest_path firmware ++ [EvSha1Digest].
Proof.
  intros o Hok. exact (proj2 (proj2 (get_data_run _ _ _ _ _ _ Hok))).
Qed.

(** X4. An answer whose header separator lies inside one chunk, with no
    second separator after it in that chunk, is read in full: [get_data]
    returns what follows the separator in that chunk and every later chunk,
    up to the end of the connection. *)
Theorem get_data_returns_a_well_framed_body `{Platform}
    (req : string) (w : World) (v : retval)
    (pre : list bytes) (first headers b0 : bytes) (rest : list bytes)
    (others : list (list bytes)) :
  net w = (pre ++ first :: rest) :: others ->
  Forall (fun c => c <> [] /\ Py.contains Byte.eqb Py.CRLF2 c = false) pre ->
  Py.partition Byte.eqb Py.CRLF2 first = Some (headers, b0) ->
  Py.contains Byte.eqb Py.CRLF2 b0 = false ->
  Forall (fun c => c <> []) rest ->
  res (get_data req None false false w) = Ok v ->
  v = RBytes (b0 ++ concat rest).
Proof.
  intros Hnet Hpre Hfirst Hb0 Hrest Hok.
  apply get_data_ok in Hok. cbv zeta in Hok. rewrite Hnet in Hok. cbn [hd] in Hok.
  rewrite (received_well_framed pre first headers b0 rest) in Hok; auto.
Qed.

(** X5. The separator is looked for in one chunk at a time: when no chunk
    of the answer contains it whole, [get_data] takes everything for
    headers and returns an empty body. *)
Theorem get_data_misses_a_split_separator `{Platform}
    (req : string) (hash : bool) (w : World) (v : retval) :
  Forall (fun c => Py.contains Byte.eqb Py.CRLF2 c = false) (hd [] (net w)) ->
  res (get_data req None hash false w) = Ok v ->
  v = if hash then RPair [] (Py.hexlify (sha1 [])) else RBytes [].
Proof.
  intros Hno Hok. apply get_data_ok in Hok. cbv zeta in Hok.
  rewrite (received_no_separator _ Hno) in Hok. destruct hash; exact Hok.
Qed.

(** X6. [get_data] with both a [dest_path] and [firmware] never returns:
    the arguments are checked only after the connection is made and the
    request sent, and then the call raises without opening the file,
    starting a flash session or creating a digest context. *)
Theorem get_data_rejects_firmware_to_file `{Platform}
    (req path : string) (hash : bool) (w : World) :
  let o := get_data req (Some path) hash true w in
  is_ok (res o) = false
  /\ fs (st o) = fs w /\ flash (st o) = flash w
  /\ Forall (fun e => match e with EvConnect _ _ | EvSend _ => True | _ => False end)
       (evs o)
  /\ (faults w = [] ->
      res o = Raise (Exception "Cannot write firmware to a file")
      /\ evs o = [EvConnect (ip w) (port w);
                  EvSend (_http_get req (ip w ++ ":" ++ pretty (port w)))]).
Proof.
  destruct w as [f fl i po n wb flt].
  unfold get_data, get_data_frame, socket_connect, io, liftW.
  destruct n as [|c n], flt as [|[] [|[] flt]];
    cbn -[_http_get pretty String.append];
    repeat split; try discriminate; repeat constructor.
Qed.

(** ** The flash *)

Lemma keeps_liftW {A X} (f : World -> X) (m : M World A) :
  keeps f m -> keeps (fun fr => f (world fr)) (liftW m).
Proof. intros Hm fr. cbn. apply Hm. Qed.

Lemma keeps_traced {A X} (f : World -> X) c (m : M World A) :
  keeps f m -> keeps f (traced c m).
Proof. intros Hm w. apply Hm. Qed.

Lemma keeps_for_range {St A X} (f : St -> X) n (body orelse : M St (flow A)) :
  keeps f body -> keeps f orelse -> keeps f (for_range n body orelse).
Proof.
  intros Hb Ho. induction n as [|n IH]; simpl; [exact Ho|].
  apply keeps_bind; [exact Hb|]. intros [| |v]; auto using keeps_ret.
Qed.

Lemma keeps_for_each {St A B X} (f : St -> X) (l : list B) (body : B -> M St (flow A)) :
  (forall x, keeps f (body x)) -> keeps f (for_each l body).
Proof.
  intros Hb. induction l as [|x l IH]; simpl; [apply keeps_ret|].
  apply keeps_bind; [apply Hb|]. intros [| |v]; auto using keeps_ret.
Qed.

Lemma io_keeps_flash e : keeps flash (io e).
Proof. unfold io. repeat keeps_step. Qed.

Lemma socket_connect_keeps_flash : keeps flash socket_connect.
Proof.
  unfold socket_connect.
  apply keeps_bind; [keeps_step|]. intros w.
  apply keeps_bind; [apply io_keeps_flash|]. intros _.
  repeat keeps_step.
Qed.

Ltac flash_step :=
  lazymatch goal with
  | |- keeps _ (liftW _) => apply keeps_liftW
  | |- keeps _ (io _) => apply io_keeps_flash
  | |- keeps _ socket_connect => apply socket_connect_keeps_flash
  | |- keeps _ (traced _ _) => apply keeps_traced
  | |- keeps _ (for_range _ _ _) => apply keeps_for_range
  | |- keeps _ (for_each _ _) => apply keeps_for_each; intros ?
  | |- keeps _ (bind _ _) => apply keeps_bind; [|intros ?]
  | |- keeps _ (try_except _ _ _) => apply keeps_try; [|intros ?]
  | |- keeps _ (match ?x with _ => _ end) => destruct x
  | |- keeps _ (if ?b then _ else _) => destruct b
  | |- keeps _ (ret _) => apply keeps_ret
  | |- keeps _ (raise _) => apply keeps_raise
  | |- keeps _ (@get _) => apply keeps_get
  | |- keeps _ (emit _) => apply keeps_emit
  | |- keeps _ (print _) => apply keeps_emit
  | |- keeps _ (modify _) => intros ?; reflexivity
  end.

Lemma recv_loop_keeps_flash hash s : forall result,
  keeps (fun fr => flash (world fr)) (recv_loop hash false result s).
Proof.
  induction s as [|next s IH]; intros [|b result]; simpl;
    try apply keeps_ret.
  - unfold loop_body, sha1_update, file_write. repeat flash_step.
  - apply keeps_bind.
    { unfold loop_body, sha1_update, file_write. repeat flash_step. }
    intros _. apply keeps_bind; [repeat flash_step|].
    intros _. apply IH.
Qed.

Section Flash.
Context `{Platform}.

Lemma get_data_frame_keeps_flash req dest_path hash :
  keeps (fun fr => flash (world fr)) (get_data_frame req dest_path hash false).
Proof.
  unfold get_data_frame, file_open, sha1_new, sha1_digest.
  repeat lazymatch goal with
         | |- keeps _ (recv_loop _ _ _ _) => apply recv_loop_keeps_flash
         | _ => flash_step
         end.
Qed.

(** Without [firmware], no run of [get_data] touches the flash. *)
Lemma get_data_keeps_flash req dest_path hash :
  keeps flash (get_data req dest_path hash false).
Proof.
  intros w.
  exact (get_data_frame_keeps_flash req dest_path hash (mkFrame w None [] None false)).
Qed.

Lemma get_file_keeps_flash f : keeps flash (get_file f).
Proof.
  unfold get_file, os_remove, print.
  repeat lazymatch goal with
         | |- keeps _ (get_data _ _ _ _) => apply get_data_keeps_flash
         | _ => flash_step
         end.
Qed.

Lemma obtain_keeps_flash customManifest fwtype token :
  keeps flash (obtain customManifest fwtype token).
Proof.
  unfold obtain. destruct (falsy customManifest); [|apply keeps_ret].
  rewrite get_update_manifest_unfold.
  repeat lazymatch goal with
         | |- keeps _ (get_data _ _ _ _) => apply get_data_keeps_flash
         | _ => flash_step
         end.
Qed.

Lemma apply_manifest_keeps_flash manifest :
  m_firmware manifest = None -> keeps flash (apply_manifest manifest).
Proof.
  intros Hfw.
  unfold apply_manifest, files_phase, rest_phase, stage, backup_all, commit_all,
    backup_file, delete_file, os_remove, os_rename, print.
  rewrite Hfw.
  repeat lazymatch goal with
         | |- keeps _ (get_file _) => apply get_file_keeps_flash
         | _ => flash_step
         end.
Qed.

End Flash.

(** ** [update]: the outcomes and what they leave *)

Lemma for_each_next {St B} (l : list B) (m : B -> M St unit) : forall (s : St) c,
  res (for_each l (fun x => m x ;; ret (@Next Z)) s) = Ok c -> c = Next.
Proof.
  induction l as [|x l IH]; intros s c Hok; cbn [for_each] in Hok.
  - injection Hok as <-. reflexivity.
  - apply bind_ok_inv in Hok as (c1 & Hc1 & Hrest & _).
    apply bind_ok_inv in Hc1 as ([] & _ & Hret & _). injection Hret as <-.
    exact (IH _ _ Hrest).
Qed.

Section Outcomes.
Context `{Platform}.

Lemma get_data_keeps_fs req hash firmware :
  keeps fs (get_data req None hash firmware).
Proof.
  intros w. apply map_eq. intros q.
  apply get_data_other_files. discriminate.
Qed.

Lemma obtain_keeps_fs customManifest fwtype token :
  keeps fs (obtain customManifest fwtype token).
Proof.
  unfold obtain. destruct (falsy customManifest); [|apply keeps_ret].
  rewrite get_update_manifest_unfold.
  repeat lazymatch goal with
         | |- keeps _ (get_data _ _ _ _) => apply get_data_keeps_fs
         | _ => flash_step
         end.
Qed.

Lemma files_phase_outcome manifest (w : World) c :
  res (files_phase manifest w) = Ok c -> c = Next \/ c = Return 0%Z.
Proof.
  unfold files_phase.
  destruct (m_new manifest) as [new|]; [destruct (m_update manifest) as [upd|]|];
    try (intros [= <-]; left; reflexivity).
  intros Hok. apply bind_ok_inv in Hok as (c1 & Hc1 & Hrest & _).
  destruct (stage_all_cases (new ++ upd) w) as (_ & [(Hr & _)|(Hr & _)]);
    rewrite Hr in Hc1; injection Hc1 as <-.
  - apply bind_ok_inv in Hrest as (c2 & _ & Hcommit & _).
    left. exact (for_each_next _ _ _ _ Hcommit).
  - injection Hrest as <-. right. reflexivity.
Qed.

Lemma apply_manifest_outcome manifest (w : World) v :
  res (apply_manifest manifest w) = Ok v -> v = 0%Z \/ v = 2%Z.
Proof.
  unfold apply_manifest. intros Hok.
  apply bind_ok_inv in Hok as (c & Hc & Hrest & _).
  apply files_phase_outcome in Hc as [-> | ->].
  - unfold rest_phase in Hrest.
    apply bind_ok_inv in Hrest as (c1 & _ & Hrest & _).
    apply bind_ok_inv in Hrest as ([] & _ & Hret & _).
    injection Hret as <-. right. reflexivity.
  - injection Hrest as <-. left. reflexivity.
Qed.

End Outcomes.

(** X14. When [update] returns, it returns 0, 1 or 2, and 1 exactly when
    the manifest in use is [None]. In that case, and when the manifest
    cannot be had at all (outcome 0), no file and nothing of the flash has
    changed, and the run ends with the message printed. *)
Theorem update_outcomes `{Platform}
    (customManifest : manifest_opt) (fwtype token : option string) (w : World) :
  let o := update customManifest fwtype token w in
  let got := res (obtain customManifest fwtype token w) in
  (forall v, res o = Ok v -> v = 0%Z \/ v = 1%Z \/ v = 2%Z)
  /\ (res o = Ok 1%Z <-> got = Ok None)
  /\ (got = Ok None \/ is_ok got = false ->
      fs (st o) = fs w /\ flash (st o) = flash w
      /\ exists msg, evs o = evs (obtain customManifest fwtype token w) ++ [EvPrint msg]).
Proof.
  cbv zeta. rewrite update_run. cbv zeta.
  pose proof (obtain_keeps_fs customManifest fwtype token w) as Hfs.
  pose proof (obtain_keeps_flash customManifest fwtype token w) as Hfl.
  revert Hfs Hfl. generalize (obtain customManifest fwtype token w).
  intros o0 Hfs Hfl.
  destruct (res o0) as [[manifest|]|e] eqn:E0; cbn [res st evs is_ok].
  - split; [|split].
    + intros v Hv. apply apply_manifest_outcome in Hv as [->| ->]; auto.
    + split; [|discriminate]. intros Hone.
      apply apply_manifest_outcome in Hone as [Hv|Hv]; discriminate Hv.
    + intros [Hn|Hn]; discriminate Hn.
  - split; [|split].
    + intros v [= <-]. auto.
    + tauto.
    + intros _. eauto.
  - split; [|split].
    + intros v [= <-]. auto.
    + split; discriminate.
    + intros _. eauto.
Qed.

(** X15. A manifest without a [firmware] entry never leads [update] to the
    flash: whatever happens in the run, the flash is what it was. *)
Theorem update_flash_needs_a_firmware_entry `{Platform}
    (customManifest : manifest_opt) (fwtype token : option string) (w : World) :
  (forall manifest,
     res (obtain customManifest fwtype token w) = Ok (Some manifest) ->
     m_firmware manifest = None) ->
  flash (st (update customManifest fwtype token w)) = flash w.
Proof.
  intros Hfw. rewrite update_run. cbv zeta.
  pose proof (obtain_keeps_flash customManifest fwtype token w) as Hfl.
  revert Hfw Hfl. generalize (obtain customManifest fwtype token w).
  intros o0 Hfw Hfl.
  destruct (res o0) as [[manifest|]|e]; cbn [res st evs]; try exact Hfl.
  rewrite (apply_manifest_keeps_flash manifest (Hfw manifest eq_refl)). exact Hfl.
Qed.

(** ** [update]: what it installs *)

Section Installs.
Context `{Platform}.

Lemma get_file_st (f : FileEntry) (w : World) :
  st (get_file f w)
  = st (get_data (url_path (URL f)) (Some (dst_path f ++ ".new")%string) true false
          (set_fs (delete (dst_path f ++ ".new")%string) w)).
Proof.
  pose proof (get_file_run f w) as Hrun. cbv zeta in Hrun. rewrite Hrun.
  destruct (res (get_data _ _ _ _ _)) as [v|e]; [destruct (differs v (hash f))|];
    reflexivity.
Qed.

(** [get_file] touches no file but its [.new]. *)
Lemma get_file_other_files (f : FileEntry) (w : World) (q : string) :
  q <> (dst_path f ++ ".new")%string ->
  fs (st (get_file f w)) !! q = fs w !! q.
Proof.
  intros Hq. rewrite get_file_st.
  rewrite get_data_other_files by congruence.
  destruct w; cbn. apply lookup_delete_ne. congruence.
Qed.

(** [get_file] that returns has left in [.new] a body of the declared
    digest. *)
Lemma get_file_ok (f : FileEntry) (w : World) :
  res (get_file f w) = Ok tt ->
  let body := received (hd [] (net w)) in
  fs (st (get_file f w)) !! (dst_path f ++ ".new")%string = Some body
  /\ Py.hexlify (sha1 body) = hash f.
Proof.
  intros Hok. cbv zeta. rewrite get_file_st.
  pose proof (get_file_run f w) as Hrun. cbv zeta in Hrun. rewrite Hrun in Hok.
  clear Hrun.
  pose proof (fun v => get_data_ok (url_path (URL f))
                (Some (dst_path f ++ ".new")%string) true false
                (set_fs (delete (dst_path f ++ ".new")%string) w) v) as Hv.
  pose proof (fun v => get_data_run (url_path (URL f))
                (Some (dst_path f ++ ".new")%string) true false
                (set_fs (delete (dst_path f ++ ".new")%string) w) v) as Hrun.
  cbv zeta in Hv, Hrun.
  assert (Hnet : net (set_fs (delete (dst_path f ++ ".new")%string) w) = net w)
    by (destruct w; reflexivity).
  rewrite Hnet in Hv, Hrun.
  revert Hok Hv Hrun.
  generalize (get_data (url_path (URL f)) (Some (dst_path f ++ ".new")%string)
                true false (set_fs (delete (dst_path f ++ ".new")%string) w)).
  intros od Hok Hv Hrun.
  destruct (res od) as [v|e]; [|discriminate Hok].
  destruct (Hv v eq_refl) as [_ ->]. destruct (Hrun _ eq_refl) as (_ & Hfs & _).
  cbn [differs] in Hok.
  destruct (String.eqb_spec (Py.hexlify (sha1 (received (hd [] (net w))))) (hash f))
    as [Heq|Hneq]; cbn [negb] in Hok; [|discriminate Hok].
  split; assumption.
Qed.

Lemma stage_st (f : FileEntry) (w : World) : st (stage f w) = st (get_file f w).
Proof.
  pose proof (stage_run f w) as Hrun. cbv zeta in Hrun. rewrite Hrun.
  destruct (res (get_file f w)); reflexivity.
Qed.

(** The downloads touch no file but the [.new] ones. *)
Lemma stage_all_other_files (l : list FileEntry) (q : string) :
  Forall (fun g => (dst_path g ++ ".new")%string <> q) l ->
  forall w : World, fs (st (for_each l stage w)) !! q = fs w !! q.
Proof.
  induction l as [|g l IH]; intros Hall w; [reflexivity|].
  apply Forall_cons in Hall as [Hg Hall].
  cbn [for_each]. rewrite bind_run.
  pose proof (stage_st g w) as Hst.
  pose proof (get_file_other_files g w q ltac:(congruence)) as Hq.
  rewrite <- Hst in Hq. revert Hq. generalize (stage g w). intros o Hq.
  destruct (res o) as [[| |v]|e]; cbn [res st evs ret]; try exact Hq.
  rewrite IH by exact Hall. exact Hq.
Qed.

End Installs.

(** ** [update]: the run, phase by phase *)

Lemma bind_ok_run {St A B} (m : M St A) (k : A -> M St B) (s : St) (a : A) :
  res (m s) = Ok a ->
  bind m k s = mkOut (res (k a (st (m s)))) (st (k a (st (m s))))
                 (evs (m s) ++ evs (k a (st (m s)))).
Proof. intros E. rewrite bind_run, E. reflexivity. Qed.

Lemma bind_raise_run {St A B} (m : M St A) (k : A -> M St B) (s : St) e :
  res (m s) = Raise e ->
  bind m k s = mkOut (Raise e) (st (m s)) (evs (m s)).
Proof. intros E. rewrite bind_run, E. reflexivity. Qed.

Section Phases.
Context `{Platform}.

Lemma update_with_manifest customManifest fwtype token (w : World) manifest :
  res (obtain customManifest fwtype token w) = Ok (Some manifest) ->
  update customManifest fwtype token w
  = mkOut (res (apply_manifest manifest (st (obtain customManifest fwtype token w))))
      (st (apply_manifest manifest (st (obtain customManifest fwtype token w))))
      (evs (obtain customManifest fwtype token w)
       ++ evs (apply_manifest manifest (st (obtain customManifest fwtype token w)))).
Proof. intros Hob. rewrite update_run. cbv zeta. rewrite Hob. reflexivity. Qed.

Lemma update_custom customManifest fwtype token (w : World) manifest :
  res (obtain customManifest fwtype token w) = Ok (Some manifest) ->
  res (update customManifest fwtype token w)
  = res (apply_manifest manifest (st (obtain customManifest fwtype token w)))
  /\ st (update customManifest fwtype token w)
     = st (apply_manifest manifest (st (obtain customManifest fwtype token w))).
Proof.
  intros Hob. rewrite (update_with_manifest _ _ _ _ _ Hob). split; reflexivity.
Qed.

Lemma backup_all_missing (f : FileEntry) upd l (s : World) :
  fs s !! dst_path f = None ->
  (backup_all (f :: upd) ;; commit_all l) s
  = mkOut (Raise OSError) (set_fs (delete (dst_path f ++ ".bak")%string) s)
      [EvEnter (CBackupFile f); EvRemove (dst_path f ++ ".bak");
       EvRename (dst_path f) (dst_path f ++ ".bak"); EvExit (CBackupFile f) false].
Proof.
  intros Hnone.
  assert (Hb : res (backup_file f s) = Raise OSError)
    by (rewrite (backup_file_missing_run f s Hnone); reflexivity).
  unfold backup_all. cbn [for_each].
  rewrite (bind_raise_run _ _ _ OSError).
  - rewrite (bind_raise_run _ _ _ OSError).
    + rewrite (bind_raise_run _ _ _ OSError) by exact Hb.
      rewrite (backup_file_missing_run f s Hnone). reflexivity.
    + rewrite (bind_raise_run _ _ _ OSError) by exact Hb. reflexivity.
  - rewrite (bind_raise_run _ _ _ OSError).
    + reflexivity.
    + rewrite (bind_raise_run _ _ _ OSError) by exact Hb. reflexivity.
Qed.

Lemma files_phase_backup_missing manifest new upd f (s : World) :
  m_new manifest = Some new -> m_update manifest = Some (f :: upd) ->
  res (for_each (new ++ f :: upd) stage s) = Ok Next ->
  fs (st (for_each (new ++ f :: upd) stage s)) !! dst_path f = None ->
  res (apply_manifest manifest s) = Raise OSError
  /\ evs (apply_manifest manifest s)
     = evs (for_each (new ++ f :: upd) stage s)
       ++ [EvEnter (CBackupFile f); EvRemove (dst_path f ++ ".bak");
           EvRename (dst_path f) (dst_path f ++ ".bak"); EvExit (CBackupFile f) false].
Proof.
  intros En Eu Hr Hnone.
  assert (Hfiles : files_phase manifest s
            = mkOut (Raise OSError)
                (set_fs (delete (dst_path f ++ ".bak")%string)
                   (st (for_each (new ++ f :: upd) stage s)))
                (evs (for_each (new ++ f :: upd) stage s)
                 ++ [EvEnter (CBackupFile f); EvRemove (dst_path f ++ ".bak");
                     EvRename (dst_path f) (dst_path f ++ ".bak");
                     EvExit (CBackupFile f) false])).
  { unfold files_phase. rewrite En, Eu.
    rewrite (bind_ok_run _ _ _ _ Hr). cbv beta iota.
    rewrite (backup_all_missing f upd _ _ Hnone). reflexivity. }
  unfold apply_manifest.
  rewrite (bind_raise_run _ _ _ OSError) by (rewrite Hfiles; reflexivity).
  rewrite Hfiles. split; reflexivity.
Qed.

Lemma files_phase_stage_failed manifest new upd (s : World) :
  m_new manifest = Some new -> m_update manifest = Some upd ->
  res (for_each (new ++ upd) stage s) = Ok (Return 0%Z) ->
  res (apply_manifest manifest s) = Ok 0%Z.
Proof.
  intros En Eu Hr.
  assert (Hfiles : res (files_phase manifest s) = Ok (Return 0%Z)).
  { unfold files_phase. rewrite En, Eu.
    rewrite (bind_ok_run _ _ _ _ Hr). reflexivity. }
  unfold apply_manifest. rewrite (bind_ok_run _ _ _ _ Hfiles). reflexivity.
Qed.

End Phases.

(** X17. A manifest whose first [update] entry names a file that the device
    does not have, and that no entry of the manifest downloads to (it is
    the [.new] path of none), cannot be applied: either a download fails
    (outcome 0), or every file is downloaded and then [update] raises
    [OSError] from [backup_file], uncaught. *)
Theorem update_backup_of_a_missing_file `{Platform}
    (customManifest : manifest_opt) (fwtype token : option string) (w : World)
    (manifest : Manifest) (new upd : list FileEntry) (f : FileEntry) :
  res (obtain customManifest fwtype token w) = Ok (Some manifest) ->
  m_new manifest = Some new -> m_update manifest = Some (f :: upd) ->
  fs w !! dst_path f = None ->
  Forall (fun g => (dst_path g ++ ".new")%string <> dst_path f) (new ++ f :: upd) ->
  let o := update customManifest fwtype token w in
  res o = Ok 0%Z
  \/ (res o = Raise OSError
      /\ (forall g, In g (new ++ f :: upd) -> In (EvExit (CGetFile g) true) (evs o))
      /\ In (EvExit (CBackupFile f) false) (evs o)).
Proof.
  intros Hob En Eu Hnone Hnew. cbv zeta.
  rewrite (update_with_manifest _ _ _ _ _ Hob).
  pose proof (obtain_keeps_fs customManifest fwtype token w) as Hfs.
  revert Hfs. generalize (st (obtain customManifest fwtype token w)).
  generalize (evs (obtain customManifest fwtype token w)).
  intros ev0 s0 Hfs. cbv beta in Hfs.
  pose proof (stage_all_other_files (new ++ f :: upd) (dst_path f) Hnew s0) as Hkeep.
  rewrite Hfs, Hnone in Hkeep.
  destruct (stage_all_cases (new ++ f :: upd) s0) as (_ & Hcases).
  cbv zeta in Hcases.
  destruct Hcases as [(Hr & Hall & _)|(Hr & _)].
  - right.
    destruct (files_phase_backup_missing manifest new upd f s0 En Eu Hr Hkeep)
      as (Hres & Hev).
    unfold res at 1, evs at 1 3. rewrite Hres, Hev.
    split; [reflexivity|]. split.
    + intros g Hg. apply in_or_app. right. apply in_or_app. left.
      exact (Hall g Hg).
    + apply in_or_app. right. apply in_or_app. right.
      do 3 right. left. reflexivity.
  - left. exact (files_phase_stage_failed manifest new (f :: upd) s0 En Eu Hr).
Qed.

Lemma bind_ret_run {St A B} (m : M St A) (b : B) (s : St) (a : A) :
  res (m s) = Ok a ->
  (m ;; ret b) s = mkOut (Ok b) (st (m s)) (evs (m s) ++ []).
Proof. intros E. rewrite (bind_ok_run _ _ _ _ E). reflexivity. Qed.

Lemma for_each_one {St A B} (x : B) (body : B -> M St (flow A)) (s : St) :
  res (body x s) = Ok Next ->
  for_each [x] body s = mkOut (Ok Next) (st (body x s)) (evs (body x s) ++ []).
Proof. intros E. cbn [for_each]. rewrite (bind_ok_run _ _ _ _ E). reflexivity. Qed.

Lemma bind_ok_res {St A B} (m : M St A) (k : A -> M St B) (s : St) (a : A) :
  res (m s) = Ok a -> res (bind m k s) = res (k a (st (m s))).
Proof. intros E. rewrite (bind_ok_run _ _ _ _ E). reflexivity. Qed.

Lemma bind_ok_st {St A B} (m : M St A) (k : A -> M St B) (s : St) (a : A) :
  res (m s) = Ok a -> st (bind m k s) = st (k a (st (m s))).
Proof. intros E. rewrite (bind_ok_run _ _ _ _ E). reflexivity. Qed.

Section OneFile.
Context `{Platform}.

(** Backup and rename for a single file that is there, with its [.new]. *)
Lemma swap_one (f : FileEntry) (s : World) (old body : bytes) :
  fs s !! dst_path f = Some old ->
  fs s !! (dst_path f ++ ".new")%string = Some body ->
  res ((backup_all [f] ;; commit_all [f]) s) = Ok Next
  /\ st ((backup_all [f] ;; commit_all [f]) s)
     = set_fs (fun m => <[dst_path f := body]> (delete (dst_path f ++ ".new")%string m))
         (set_fs (fun m => <[(dst_path f ++ ".bak")%string := old]>
                             (delete (dst_path f) m))
            (set_fs (delete (dst_path f ++ ".bak")%string) s)).
Proof.
  intros Hold Hnew.
  assert (Hn1 : dst_path f <> (dst_path f ++ ".new")%string)
    by (apply str_app_ne; discriminate).
  assert (Hn3 : (dst_path f ++ ".new")%string <> (dst_path f ++ ".bak")%string).
  { intros Heq. apply str_app_inv in Heq. discriminate Heq. }
  pose proof (backup_file_run f s old Hold) as Hb.
  set (s1 := set_fs (fun m => <[(dst_path f ++ ".bak")%string := old]>
                                (delete (dst_path f) m))
               (set_fs (delete (dst_path f ++ ".bak")%string) s)) in *.
  assert (Hnew1 : fs s1 !! (dst_path f ++ ".new")%string = Some body).
  { subst s1. destruct s as [m fl i po n wb flt]; cbn [fs set_fs] in *.
    rewrite lookup_insert_ne by auto. rewrite !lookup_delete_ne by auto.
    exact Hnew. }
  pose proof (os_rename_run _ (dst_path f) s1 body Hnew1) as Hr.
  assert (Hb1 : (backup_file f ;; ret (@Next Z)) s
                = mkOut (Ok Next) s1 (evs (backup_file f s) ++ [])).
  { rewrite (bind_ret_run _ _ _ tt) by (rewrite Hb; reflexivity).
    rewrite Hb. reflexivity. }
  assert (Hb2 : backup_all [f] s = mkOut (Ok Next) s1 ((evs (backup_file f s) ++ []) ++ [])).
  { unfold backup_all. rewrite for_each_one by (cbv beta; rewrite Hb1; reflexivity).
    cbv beta. rewrite Hb1. reflexivity. }
  assert (Hr1 : (os_rename (dst_path f ++ ".new")%string (dst_path f) ;; ret (@Next Z)) s1
                = mkOut (Ok Next)
                    (set_fs (fun m => <[dst_path f := body]>
                                        (delete (dst_path f ++ ".new")%string m)) s1)
                    ([EvRename (dst_path f ++ ".new") (dst_path f)] ++ [])).
  { rewrite (bind_ret_run _ _ _ tt) by (rewrite Hr; reflexivity).
    rewrite Hr. reflexivity. }
  assert (Hr2 : commit_all [f] s1
                = mkOut (Ok Next)
                    (set_fs (fun m => <[dst_path f := body]>
                                        (delete (dst_path f ++ ".new")%string m)) s1)
                    (([EvRename (dst_path f ++ ".new") (dst_path f)] ++ []) ++ [])).
  { unfold commit_all. rewrite for_each_one by (cbv beta; rewrite Hr1; reflexivity).
    cbv beta. rewrite Hr1. reflexivity. }
  rewrite (bind_ok_run _ _ _ Next) by (rewrite Hb2; reflexivity).
  rewrite Hb2. cbn [res st evs]. rewrite Hr2. split; reflexivity.
Qed.

Lemma stage_ok (f : FileEntry) (w : World) :
  res (get_file f w) = Ok tt ->
  res (for_each [f] stage w) = Ok Next
  /\ st (for_each [f] stage w) = st (get_file f w).
Proof.
  intros Eg.
  assert (Hs : stage f w = mkOut (Ok Next) (st (get_file f w)) (evs (get_file f w))).
  { pose proof (stage_run f w) as Hrun. cbv zeta in Hrun. rewrite Hrun, Eg.
    reflexivity. }
  rewrite for_each_one by (rewrite Hs; reflexivity).
  rewrite Hs. split; reflexivity.
Qed.

Lemma stage_failed (f : FileEntry) (w : World) e :
  res (get_file f w) = Raise e ->
  res (for_each [f] stage w) = Ok (Return 0%Z).
Proof.
  intros Eg.
  assert (Hs : res (stage f w) = Ok (Return 0%Z)).
  { pose proof (stage_run f w) as Hrun. cbv zeta in Hrun. rewrite Hrun, Eg.
    reflexivity. }
  cbn [for_each]. rewrite (bind_ok_run _ _ _ _ Hs). reflexivity.
Qed.

Lemma files_phase_swapped manifest new upd (s : World) :
  m_new manifest = Some new -> m_update manifest = Some upd ->
  res (for_each (new ++ upd) stage s) = Ok Next ->
  res (files_phase manifest s)
  = res ((backup_all upd ;; commit_all (new ++ upd))
           (st (for_each (new ++ upd) stage s)))
  /\ st (files_phase manifest s)
     = st ((backup_all upd ;; commit_all (new ++ upd))
             (st (for_each (new ++ upd) stage s))).
Proof.
  intros En Eu Hr. unfold files_phase. rewrite En, Eu.
  rewrite (bind_ok_res _ _ _ _ Hr), (bind_ok_st _ _ _ _ Hr).
  split; reflexivity.
Qed.

Lemma apply_one_update (f : FileEntry) (w : World) :
  res (apply_manifest (mkManifest (Some []) (Some [f]) None None) w) = Ok 2%Z ->
  exists old,
    res (get_file f w) = Ok tt
    /\ fs (st (get_file f w)) !! dst_path f = Some old
    /\ forall body,
         fs (st (get_file f w)) !! (dst_path f ++ ".new")%string = Some body ->
         st (apply_manifest (mkManifest (Some []) (Some [f]) None None) w)
         = set_fs (fun m => <[dst_path f := body]>
                              (delete (dst_path f ++ ".new")%string m))
             (set_fs (fun m => <[(dst_path f ++ ".bak")%string := old]>
                                 (delete (dst_path f) m))
                (set_fs (delete (dst_path f ++ ".bak")%string) (st (get_file f w)))).
Proof.
  set (manifest := mkManifest (Some []) (Some [f]) None None).
  intros Hok.
  destruct (res (get_file f w)) as [[]|e] eqn:Eg.
  2:{ pose proof (files_phase_stage_failed manifest [] [f] w eq_refl eq_refl
                    (stage_failed f w e Eg)) as Hzero.
      rewrite Hzero in Hok. discriminate Hok. }
  destruct (stage_ok f w Eg) as (Hr & Hst).
  destruct (fs (st (get_file f w)) !! dst_path f) as [old|] eqn:Eold.
  2:{ rewrite <- Hst in Eold.
      destruct (files_phase_backup_missing manifest [] [] f w eq_refl eq_refl Hr Eold)
        as (Hraise & _).
      rewrite Hraise in Hok. discriminate Hok. }
  exists old. repeat split. intros body Hnew.
  destruct (swap_one f (st (get_file f w)) old body Eold Hnew) as (Hswap & Hswap_st).
  rewrite <- Hst in Hswap, Hswap_st.
  destruct (files_phase_swapped manifest [] [f] w eq_refl eq_refl Hr) as (Hf & Hfst).
  cbn [app] in Hf, Hfst. rewrite Hswap in Hf. rewrite Hswap_st, Hst in Hfst.
  unfold apply_manifest. rewrite (bind_ok_st _ _ _ _ Hf). rewrite Hfst.
  reflexivity.
Qed.

End OneFile.

(** X18. [update] with a manifest that updates one file, when it returns 2:
    the file now holds the body that was downloaded, whose SHA-1 is the
    declared hash; what it held before is in [.bak]; no [.new] file is left;
    no other file has changed. *)
Theorem update_replaces_one_file `{Platform}
    (fwtype token : option string) (w : World) (f : FileEntry) :
  let o := update (Some (mkManifest (Some []) (Some [f]) None None)) fwtype token w in
  let body := received (hd [] (net w)) in
  let bak_path := (dst_path f ++ ".bak")%string in
  let new_path := (dst_path f ++ ".new")%string in
  res o = Ok 2%Z ->
  exists old,
    fs w !! dst_path f = Some old
    /\ fs (st o) !! dst_path f = Some body
    /\ Py.hexlify (sha1 body) = hash f
    /\ fs (st o) !! bak_path = Some old
    /\ fs (st o) !! new_path = None
    /\ (forall q, q <> dst_path f -> q <> bak_path -> q <> new_path ->
          fs (st o) !! q = fs w !! q).
Proof.
  cbv zeta.
  destruct (update_custom (Some (mkManifest (Some []) (Some [f]) None None))
              fwtype token w _ eq_refl) as (-> & ->).
  assert (Hst0 : st (obtain (Some (mkManifest (Some []) (Some [f]) None None))
                       fwtype token w) = w) by reflexivity.
  rewrite Hst0. clear Hst0. intros Hok.
  destruct (apply_one_update f w Hok) as (old & Eg & Eold & Hst).
  destruct (get_file_ok f w Eg) as (Hnew & Hhash).
  rewrite (Hst _ Hnew). clear Hst Hok.
  assert (Hn1 : dst_path f <> (dst_path f ++ ".new")%string)
    by (apply str_app_ne; discriminate).
  assert (Hn2 : dst_path f <> (dst_path f ++ ".bak")%string)
    by (apply str_app_ne; discriminate).
  assert (Hn3 : (dst_path f ++ ".new")%string <> (dst_path f ++ ".bak")%string).
  { intros Heq. apply str_app_inv in Heq. discriminate Heq. }
  pose proof (get_file_other_files f w) as Hother.
  exists old. rewrite <- (Hother (dst_path f)) by auto.
  split; [exact Eold|].
  revert Hother Hnew Eold. generalize (fs w). intros fs0.
  destruct (st (get_file f w)) as [m fl i po n wb flt]; cbn [fs set_fs].
  intros Hq Hnew Eold. repeat split.
  - apply lookup_insert_eq.
  - exact Hhash.
  - rewrite lookup_insert_ne by auto. rewrite lookup_delete_ne by auto.
    apply lookup_insert_eq.
  - rewrite lookup_insert_ne by auto. apply lookup_delete_eq.
  - intros q Hq1 Hq2 Hq3. rewrite lookup_insert_ne by auto.
    rewrite lookup_delete_ne by auto. rewrite lookup_insert_ne by auto.
    rewrite !lookup_delete_ne by auto. apply Hq, Hq3.
Qed.

(** ** URLs *)

Lemma chars_app (a b : string) : Py.chars (a ++ b)%string = Py.chars a ++ Py.chars b.
Proof. induction a as [|c a IH]; simpl; [reflexivity|]. f_equal. exact IH. Qed.

Lemma str_chars (s : string) : Py.str (Py.chars s) = s.
Proof. apply string_of_list_ascii_of_string. Qed.

Lemma partition_char (c : ascii) (a b : list ascii) :
  ~ In c a ->
  Py.partition Ascii.eqb [c] (a ++ c :: b) = Some (a, b).
Proof.
  induction a as [|x a IH]; intros Hc; cbn [app Py.partition Py.starts_with].
  - rewrite Ascii.eqb_refl. reflexivity.
  - destruct (Ascii.eqb_spec c x) as [->|Hne]; [destruct Hc; left; reflexivity|].
    cbn [andb]. cbn [app] in IH. rewrite IH; [reflexivity|].
    intros Hin. apply Hc. right. exact Hin.
Qed.

Lemma partition_char_none (c : ascii) (a : list ascii) :
  ~ In c a -> Py.partition Ascii.eqb [c] a = None.
Proof.
  induction a as [|x a IH]; intros Hc; cbn [Py.partition Py.starts_with];
    [reflexivity|].
  destruct (Ascii.eqb_spec c x) as [->|Hne]; [destruct Hc; left; reflexivity|].
  cbn [andb]. rewrite IH; [reflexivity|].
  intros Hin. apply Hc. right. exact Hin.
Qed.

Lemma url_path_split (scheme host path : string) :
  ~ In "/"%char (Py.chars scheme) -> ~ In "/"%char (Py.chars host) ->
  url_path (scheme ++ "//" ++ host ++ "/" ++ path) = path.
Proof.
  intros Hs Hh. unfold url_path. rewrite !chars_app.
  change (Py.chars "//") with ["/"%char; "/"%char].
  change (Py.chars "/") with ["/"%char].
  cbn [Py.split_last app].
  rewrite (partition_char "/" (Py.chars scheme) _ Hs); cbv beta iota.
  change (Py.partition Ascii.eqb ["/"%char]
            ("/"%char :: Py.chars host ++ "/"%char :: Py.chars path))
    with (Some (@nil ascii, Py.chars host ++ "/"%char :: Py.chars path)).
  cbv beta iota. rewrite (partition_char "/" (Py.chars host) _ Hh). apply str_chars.
Qed.

(** X13. [url_path] drops the scheme and the host of a URL and keeps what
    follows the third slash; of a URL with no path it keeps the host. *)
Theorem url_path_of_a_url (scheme host path : string) :
  ~ In "/"%char (Py.chars scheme) -> ~ In "/"%char (Py.chars host) ->
  url_path (scheme ++ "//" ++ host ++ "/" ++ path) = path
  /\ url_path (scheme ++ "//" ++ host) = host.
Proof.
  intros Hs Hh. split; [exact (url_path_split scheme host path Hs Hh)|].
  unfold url_path. rewrite !chars_app.
  change (Py.chars "//") with ["/"%char; "/"%char].
  change (Py.chars "/") with ["/"%char].
  cbn [Py.split_last app].
  rewrite (partition_char "/" (Py.chars scheme) _ Hs); cbv beta iota.
  change (Py.partition Ascii.eqb ["/"%char] ("/"%char :: Py.chars host))
    with (Some (@nil ascii, Py.chars host)).
  cbv beta iota. rewrite (partition_char_none "/" (Py.chars host) Hh). apply str_chars.
Qed.

(** ** The server of the requests *)

Lemma io_keeps_target e : keeps (fun w => (ip w, port w)) (io e).
Proof. unfold io. repeat keeps_step. Qed.

Lemma socket_connect_keeps_target : keeps (fun w => (ip w, port w)) socket_connect.
Proof.
  unfold socket_connect.
  apply keeps_bind; [keeps_step|]. intros w.
  apply keeps_bind; [apply io_keeps_target|]. intros _.
  repeat keeps_step.
Qed.

Ltac target_step :=
  lazymatch goal with
  | |- keeps _ (liftW _) => apply (keeps_liftW (fun w => (ip w, port w)))
  | |- keeps _ (io _) => apply io_keeps_target
  | |- keeps _ socket_connect => apply socket_connect_keeps_target
  | |- keeps _ (bind _ _) => apply keeps_bind; [|intros ?]
  | |- keeps _ (try_except _ _ _) => apply keeps_try; [|intros ?]
  | |- keeps _ (match ?x with _ => _ end) => destruct x
  | |- keeps _ (if ?b then _ else _) => destruct b
  | |- keeps _ (ret _) => apply keeps_ret
  | |- keeps _ (raise _) => apply keeps_raise
  | |- keeps _ (@get _) => apply keeps_get
  | |- keeps _ (emit _) => apply keeps_emit
  | |- keeps _ (modify _) => intros ?; reflexivity
  end.

Lemma recv_loop_keeps_target hash firmware s : forall result,
  keeps (fun fr => (ip (world fr), port (world fr)))
    (recv_loop hash firmware result s).
Proof.
  induction s as [|next s IH]; intros [|b result]; simpl;
    try apply keeps_ret.
  - unfold loop_body, sha1_update, file_write, ota_write. repeat target_step.
  - apply keeps_bind.
    { unfold loop_body, sha1_update, file_write, ota_write. repeat target_step. }
    intros _. apply keeps_bind; [repeat target_step|].
    intros _. apply IH.
Qed.

Lemma bind_evs_prefix {St A B} (m : M St A) (k : A -> M St B) (s : St) :
  exists rest, evs (bind m k s) = evs (m s) ++ rest.
Proof.
  rewrite bind_run. destruct (res (m s)); cbn [evs]; eauto.
  exists []. rewrite app_nil_r. reflexivity.
Qed.

Section Target.
Context `{Platform}.

Lemma get_data_frame_keeps_target req dest_path (hash firmware : bool) :
  keeps (fun fr => (ip (world fr), port (world fr)))
    (get_data_frame req dest_path hash firmware).
Proof.
  unfold get_data_frame, file_open, sha1_new, sha1_digest, ota_start, ota_finish.
  repeat lazymatch goal with
         | |- keeps _ (recv_loop _ _ _ _) => apply recv_loop_keeps_target
         | _ => target_step
         end.
Qed.

(** No run of [get_data] changes the server that the requests go to. *)
Lemma get_data_keeps_target req dest_path (hash firmware : bool) :
  keeps (fun w => (ip w, port w)) (get_data req dest_path hash firmware).
Proof.
  intros w.
  exact (get_data_frame_keeps_target req dest_path hash firmware
           (mkFrame w None [] None false)).
Qed.

End Target.

Lemma partition_skip (c : ascii) (h l : list ascii) :
  ~ In c h ->
  Py.partition Ascii.eqb [c; c] (h ++ l)
  = match Py.partition Ascii.eqb [c; c] l with
    | Some (before, after) => Some (h ++ before, after)
    | None => None
    end.
Proof.
  induction h as [|x h IH]; intros Hc; cbn [app].
  - destruct (Py.partition Ascii.eqb [c; c] l) as [[before after]|]; reflexivity.
  - destruct (Ascii.eqb_spec c x) as [->|Hne]; [destruct Hc; left; reflexivity|].
    cbn [Py.partition Py.starts_with].
    destruct (Ascii.eqb_spec c x) as [Heq|_]; [contradiction|]. cbn [andb].
    rewrite IH by (intros Hin; apply Hc; right; exact Hin).
    destruct (Py.partition Ascii.eqb [c; c] l) as [[before after]|]; reflexivity.
Qed.

Lemma partition_head (c : ascii) (p before after : list ascii) :
  Py.partition Ascii.eqb [c; c] (c :: p) = Some (before, after) ->
  before = [] \/ exists before', before = c :: before'.
Proof.
  cbn [Py.partition Py.starts_with].
  destruct (Ascii.eqb c c && _)%bool.
  - intros [= <- _]. left. reflexivity.
  - destruct (Py.partition Ascii.eqb [c; c] p) as [[b a]|]; [|discriminate].
    intros [= <- _]. right. eexists. reflexivity.
Qed.

(** The host that [write_firmware] reads in a URL. *)
Lemma firmware_authority (scheme host path : string) :
  ~ In "/"%char (Py.chars scheme) -> ~ In "/"%char (Py.chars host) ->
  exists mid,
    Py.split_item1 Ascii.eqb (Py.chars "//")
      (Py.chars (scheme ++ "//" ++ host ++ "/" ++ path)) = Some mid
    /\ Py.split_item0 Ascii.eqb (Py.chars "/") mid = Py.chars host.
Proof.
  intros Hs Hh. unfold Py.split_item1, Py.split_item0. rewrite !chars_app.
  change (Py.chars "//") with ["/"%char; "/"%char].
  change (Py.chars "/") with ["/"%char].
  cbn [app]. rewrite (partition_skip "/" (Py.chars scheme) _ Hs).
  change (Py.partition Ascii.eqb ["/"%char; "/"%char]
            ("/"%char :: "/"%char :: Py.chars host ++ "/"%char :: Py.chars path))
    with (Some (@nil ascii, Py.chars host ++ "/"%char :: Py.chars path)).
  cbv beta iota. rewrite (partition_skip "/" (Py.chars host) _ Hh).
  destruct (Py.partition Ascii.eqb ["/"%char; "/"%char] ("/"%char :: Py.chars path))
    as [[before after]|] eqn:E.
  - eexists. split; [reflexivity|].
    destruct (partition_head _ _ _ _ E) as [->|(before' & ->)].
    + rewrite app_nil_r, (partition_char_none "/" (Py.chars host) Hh). reflexivity.
    + rewrite (partition_char "/" (Py.chars host) _ Hh). reflexivity.
  - eexists. split; [reflexivity|].
    rewrite (partition_char "/" (Py.chars host) _ Hh). reflexivity.
Qed.

Lemma io_evs (e : Event) (w : World) : evs (io e w) = [e].
Proof.
  destruct w as [f fl i po n wb flt]. unfold io.
  destruct flt as [|[] flt]; reflexivity.
Qed.

Lemma socket_connect_evs (w : World) :
  evs (socket_connect w) = [EvConnect (ip w) (port w)].
Proof.
  destruct w as [f fl i po n wb flt]. unfold socket_connect, io.
  destruct n, flt as [|[] flt]; reflexivity.
Qed.

Lemma bind_ok_evs {St A B} (m : M St A) (k : A -> M St B) (s : St) (a : A) :
  res (m s) = Ok a -> evs (bind m k s) = evs (m s) ++ evs (k a (st (m s))).
Proof. intros E. rewrite (bind_ok_run _ _ _ _ E). reflexivity. Qed.

(** Every run of [get_data] connects to the server and, unless the
    connection fails, sends the request next. *)
Lemma get_data_starts `{Platform} req dest_path (hash firmware : bool) (w : World) :
  exists rest,
    evs (get_data req dest_path hash firmware w) = EvConnect (ip w) (port w) :: rest
    /\ ((rest = [] /\ is_ok (res (get_data req dest_path hash firmware w)) = false)
        \/ exists rest',
             rest = EvSend (_http_get req (ip w ++ ":" ++ pretty (port w))) :: rest').
Proof.
  unfold get_data. cbn [evs res]. unfold get_data_frame.
  set (fr := mkFrame w None [] None false).
  rewrite (bind_ok_evs _ _ _ w) by reflexivity.
  rewrite (bind_ok_res _ _ _ w) by reflexivity.
  change (evs (liftW get fr)) with (@nil Event). cbn [app].
  change (st (liftW get fr)) with fr.
  assert (Hc : evs (liftW socket_connect fr) = [EvConnect (ip w) (port w)])
    by exact (socket_connect_evs w).
  destruct (res (liftW socket_connect fr)) as [s|e] eqn:Es.
  - rewrite (bind_ok_evs _ _ _ _ Es), Hc. cbn [app].
    eexists. split; [reflexivity|]. right.
    match goal with
    | |- context [evs (bind ?m ?k ?s0)] =>
        destruct (bind_evs_prefix m k s0) as (rest' & ->)
    end.
    change (evs (liftW (io ?e) ?x)) with (evs (io e (world x))).
    rewrite io_evs. cbn [app]. eexists. reflexivity.
  - rewrite (bind_raise_run _ _ _ _ Es). cbn [res evs]. rewrite Hc.
    eexists. split; [reflexivity|]. left. split; reflexivity.
Qed.

(** X12. [write_firmware] with a URL [scheme//host/path] whose host names
    no port connects to [host] on port 443 and, unless the connection
    fails, sends the request for [path] there; it returns exactly when that
    download does; and the server of every later request stays [host:443],
    whether the download succeeds or not. *)
Theorem write_firmware_retargets `{Platform}
    (f : FirmwareEntry) (w : World) (scheme host path : string) :
  fw_URL f = (scheme ++ "//" ++ host ++ "/" ++ path)%string ->
  ~ In "/"%char (Py.chars scheme) -> ~ In "/"%char (Py.chars host) ->
  ~ In ":"%char (Py.chars host) ->
  let o := write_firmware f w in
  let download := get_data path None true true (set_target host 443 w) in
  ip (st o) = host /\ port (st o) = 443%Z
  /\ is_ok (res o) = is_ok (res download)
  /\ exists rest,
       evs o = EvEnter (CWriteFirmware f) :: EvConnect host 443 :: rest
       /\ ((rest = [EvExit (CWriteFirmware f) false] /\ is_ok (res o) = false)
           \/ exists rest',
                rest = EvSend (_http_get path (host ++ ":443")) :: rest').
Proof.
  intros Hurl Hs Hh Hport. cbv zeta.
  destruct (firmware_authority scheme host path Hs Hh) as (mid & Hsplit & Hhost).
  assert (Hcolon : Py.contains Ascii.eqb (Py.chars ":") (Py.chars host) = false).
  { unfold Py.contains. change (Py.chars ":") with [":"%char].
    rewrite (partition_char_none ":" (Py.chars host) Hport). reflexivity. }
  unfold write_firmware. rewrite traced_run. cbn [res st evs].
  rewrite Hurl, Hsplit. cbv beta iota. rewrite Hhost.
  rewrite (bind_ok_res _ _ _ (Py.chars host)) by reflexivity.
  rewrite (bind_ok_st _ _ _ (Py.chars host)) by reflexivity.
  rewrite (bind_ok_evs _ _ _ (Py.chars host)) by reflexivity.
  cbv beta. rewrite Hcolon. cbv iota.
  rewrite str_chars, (url_path_split _ _ _ Hs Hh).
  rewrite (bind_ok_res _ _ _ tt) by reflexivity.
  rewrite (bind_ok_st _ _ _ tt) by reflexivity.
  rewrite (bind_ok_evs _ _ _ tt) by reflexivity.
  change (st (ret (Py.chars host) w)) with w.
  change (st (modify (set_target host 443) w)) with (set_target host 443 w).
  change (evs (ret (Py.chars host) w)) with (@nil Event).
  change (evs (modify (set_target host 443) w)) with (@nil Event).
  cbn [app].
  rewrite bind_run. cbv zeta.
  pose proof (get_data_keeps_target path None true true (set_target host 443 w)) as Hk.
  destruct (get_data_starts path None true true (set_target host 443 w))
    as (rest & Hev & Hrest).
  assert (Hi : ip (set_target host 443 w) = host) by (destruct w; reflexivity).
  assert (Hpo : port (set_target host 443 w) = 443%Z) by (destruct w; reflexivity).
  rewrite Hi, Hpo in Hev, Hrest. cbv beta in Hk. rewrite Hi, Hpo in Hk.
  change (pretty 443%Z) with "443" in Hrest.
  change (host ++ ":" ++ "443")%string with (host ++ ":443")%string in Hrest.
  revert Hk Hev Hrest.
  generalize (get_data path None true true (set_target host 443 w)).
  intros od Hk Hev Hrest. injection Hk as Hip Hport'.
  destruct (res od) as [v|e]; cbn [res st evs ret is_ok] in *; rewrite Hev;
    (split; [exact Hip|]); (split; [exact Hport'|]); (split; [reflexivity|]);
    eexists; (split; [reflexivity|]);
    destruct Hrest as [(-> & Hbad)|(rest' & ->)];
    try discriminate Hbad;
    try (left; split; reflexivity);
    right; eexists; reflexivity.
Qed.

(** ** The network configuration: what a merge touches *)

Lemma maintains_modify {St} (I : St -> Prop) (g : St -> St) :
  (forall s, I s -> I (g s)) -> maintains I (modify g).
Proof. intros Hg s Hs. apply Hg, Hs. Qed.

Lemma maintains_liftN {A} (I : NetCtx -> Prop) (m : M World A) :
  (forall c w, I c -> I (mkNetCtx w (config c))) -> maintains I (liftN m).
Proof. intros HI c Hc. apply HI, Hc. Qed.

Lemma json_in_pure {St} key v (s : St) : st (json_in key v s) = s.
Proof. destruct v; reflexivity. Qed.

Lemma json_get_pure {St} v key (s : St) : st (json_get v key s) = s.
Proof. destruct v; try reflexivity. cbn. destruct (assoc key members); reflexivity. Qed.

Ltac netconf_step :=
  lazymatch goal with
  | |- maintains _ (bind _ _) => apply maintains_bind; [|intros ?]
  | |- maintains _ (try_except _ _ _) => apply maintains_try; [|intros ?]
  | |- maintains _ (json_in _ _) => apply maintains_pure; apply json_in_pure
  | |- maintains _ (json_get _ _) => apply maintains_pure; apply json_get_pure
  | |- maintains _ (print_debug _ _) => apply maintains_pure; reflexivity
  | |- maintains _ (ret _) => apply maintains_pure; reflexivity
  | |- maintains _ (@get _) => apply maintains_pure; reflexivity
  | |- maintains _ (liftN _) => apply maintains_liftN; intros ? ? ?; assumption
  | |- maintains _ (if ?b then _ else _) => destruct b
  end.

(** X20. [update_network_config] changes no entry of the configuration but
    [network_preferences], [wifi], [lte] and [lora], whatever the response
    is and whether the merge fails or not. *)
Theorem network_config_keeps_other_keys `{Platform}
    (letResp : json) (ctx : NetCtx) (k : string) :
  k <> "network_preferences" -> k <> "wifi" -> k <> "lte" -> k <> "lora" ->
  config (st (update_network_config letResp ctx)) !! k = config ctx !! k.
Proof.
  intros H1 H2 H3 H4.
  assert (Hm : maintains (fun c => config c !! k = config ctx !! k)
                 (update_network_config letResp)).
  { assert (Hins : forall key v, key <> k ->
              maintains (fun c => config c !! k = config ctx !! k)
                (modify (set_config (fun c => <[key := v]> c)))).
    { intros key v Hne. apply maintains_modify. intros s Hs. cbn.
      rewrite lookup_insert_ne by exact Hne. exact Hs. }
    assert (Hdel : forall key, key <> k ->
              maintains (fun c => config c !! k = config ctx !! k)
                (modify (set_config (fun c => delete key c)))).
    { intros key Hne. apply maintains_modify. intros s Hs. cbn.
      rewrite lookup_delete_ne by exact Hne. exact Hs. }
    unfold update_network_config, replace_or_remove.
    repeat first [ apply Hins; congruence | apply Hdel; congruence | netconf_step ]. }
  apply Hm. reflexivity.
Qed.

(** ** The network configuration: the file and the restart *)

Section ConfigFile.
Context `{Platform}.

Lemma written_last_bind {A} (m : M NetCtx A) (k : A -> M NetCtx unit) :
  keeps (fun c => fs (nc_world c)) m ->
  (forall a s, written_last s (k a s)) ->
  forall s, written_last s (bind m k s).
Proof.
  intros Hm Hk s. rewrite bind_run. specialize (Hm s). cbv beta in Hm.
  destruct (res (m s)) as [a|e]; [|left; exact Hm].
  destruct (Hk a (st (m s))) as [Hfs|(Hok & Hfs & before & Hev)];
    [left|right]; cbn [res st evs].
  - rewrite Hfs. exact Hm.
  - rewrite Hfs, Hm, Hev. repeat split; auto.
    exists (evs (m s) ++ before). apply app_assoc.
Qed.

Lemma written_last_try (m : M NetCtx unit) (h : exn -> M NetCtx unit) (s : NetCtx) :
  (forall e s', st (h e s') = s') ->
  written_last s (m s) -> written_last s (try_except m any_exception h s).
Proof.
  intros Hh Hm. rewrite try_except_run.
  destruct (res (m s)) as [[]|e] eqn:E; [exact Hm|]. cbn [any_exception].
  left. cbn [st]. rewrite Hh.
  destruct Hm as [Hfs|(Hok & _)]; [exact Hfs|].
  rewrite E in Hok. discriminate Hok.
Qed.

Lemma write_config_last (s : NetCtx) :
  written_last s
    ((ctx <- get ;;
      print_debug 1 ("update_network_config : " ++ ujson_dumps (config ctx)) ;;
      liftN (update_file_content "/flash/pybytes_config.json"
               (ujson_dumps (config ctx)))) s).
Proof.
  destruct s as [[f fl i po n wb flt] c].
  unfold written_last, update_file_content, io, liftN, print_debug.
  destruct flt as [|[] flt]; cbn; auto.
  - right. repeat split; auto. eexists [_]. reflexivity.
  - right. repeat split; auto. eexists [_]. reflexivity.
Qed.

Ltac config_step :=
  lazymatch goal with
  | |- keeps _ (bind _ _) => apply keeps_bind; [|intros ?]
  | |- keeps _ (json_in _ _) => unfold json_in
  | |- keeps _ (json_get _ _) => unfold json_get
  | |- keeps _ (match ?x with _ => _ end) => destruct x
  | |- keeps _ (if ?b then _ else _) => destruct b
  | |- keeps _ (ret _) => apply keeps_ret
  | |- keeps _ (raise _) => apply keeps_raise
  | |- keeps _ (modify _) => intros ?; reflexivity
  end.

Lemma update_network_config_written_last (letResp : json) (ctx : NetCtx) :
  written_last ctx (update_network_config letResp ctx).
Proof.
  unfold update_network_config. apply written_last_try; [reflexivity|].
  revert ctx.
  apply written_last_bind; [repeat config_step|]. intros present.
  destruct present; [|intros s; left; reflexivity].
  apply written_last_bind; [repeat config_step|]. intros netConf.
  apply written_last_bind; [repeat config_step|]. intros prefs.
  apply written_last_bind; [repeat config_step|]. intros _.
  apply written_last_bind; [unfold replace_or_remove; repeat config_step|]. intros _.
  apply written_last_bind; [unfold replace_or_remove; repeat config_step|]. intros _.
  apply written_last_bind; [repeat config_step|]. intros has_lora.
  apply written_last_bind; [destruct has_lora; repeat config_step|]. intros _.
  exact write_config_last.
Qed.

End ConfigFile.

(** X21. [update_network_config] writes the configuration file last: after
    any run either no file has changed, or [/flash/pybytes_config.json]
    holds the dump of the configuration as the run has left it in memory,
    nothing else of the file system has changed, and the write was the last
    call of the run (no error was logged). *)
Theorem network_config_file_is_written_last `{Platform}
    (letResp : json) (ctx : NetCtx) :
  let o := update_network_config letResp ctx in
  fs (nc_world (st o)) = fs (nc_world ctx)
  \/ (fs (nc_world (st o))
      = <["/flash/pybytes_config.json" :=
            Py.encode (ujson_dumps (config (st o)))]> (fs (nc_world ctx))
      /\ exists before, evs o = before ++ [EvOpen "/flash/pybytes_config.json"]).
Proof.
  cbv zeta.
  destruct (update_network_config_written_last letResp ctx)
    as [Hfs|(_ & Hfs & Hev)]; [left|right]; auto.
Qed.

(** X22. [update_device_network_config] restarts the device exactly when the
    request has returned a document: then [machine.reset()] is the last
    call of the run, whether the merge of the document succeeded, failed or
    had nothing to do. When the request fails, the error is logged, the
    device is not restarted and the configuration is what it was. *)
Theorem network_config_restart `{Platform} (ctx : NetCtx) (device_id : json) :
  config ctx !! "device_id" = Some device_id ->
  let targetURL := (pyconfig_protocol ++ "://" ++ pyconfig_domain
                    ++ "/device/networks/" ++ py_str device_id)%string in
  let request := urequest_get_json targetURL (nc_world ctx) in
  let o := update_device_network_config ctx in
  (is_ok (res request) = true -> exists before, evs o = before ++ [EvReset])
  /\ (is_ok (res request) = false ->
      ~ In EvReset (evs o) /\ config (st o) = config ctx
      /\ fs (nc_world (st o)) = fs (nc_world ctx)).
Proof.
  intros Hid. cbv zeta. unfold update_device_network_config.
  rewrite bind_run. cbn [get res st evs]. rewrite bind_run, Hid.
  cbn [ret res st evs]. rewrite bind_run. cbn [print_debug emit res st evs].
  set (targetURL := (pyconfig_protocol ++ "://" ++ pyconfig_domain
                     ++ "/device/networks/" ++ py_str device_id)%string).
  rewrite try_except_run, bind_run.
  assert (Hreq : forall (w : World),
            is_ok (res (urequest_get_json targetURL w)) = false ->
            fs (st (urequest_get_json targetURL w)) = fs w
            /\ evs (urequest_get_json targetURL w) = [EvConnect targetURL 0]).
  { intros [f fl i po n wb flt]. unfold urequest_get_json, io.
    destruct flt as [|[] flt]; cbn; destruct (wb !! targetURL); cbn; auto;
      discriminate. }
  specialize (Hreq (nc_world ctx)).
  change (res (liftN (urequest_get_json targetURL) ctx))
    with (res (urequest_get_json targetURL (nc_world ctx))).
  change (evs (liftN (urequest_get_json targetURL) ctx))
    with (evs (urequest_get_json targetURL (nc_world ctx))).
  change (st (liftN (urequest_get_json targetURL) ctx))
    with (mkNetCtx (st (urequest_get_json targetURL (nc_world ctx))) (config ctx)).
  revert Hreq. generalize (urequest_get_json targetURL (nc_world ctx)).
  intros oreq Hreq.
  destruct (res oreq) as [doc|e]; cbn [is_ok res st evs any_exception].
  - split; [intros _|discriminate].
    rewrite bind_run.
    assert (Hok : res (update_network_config doc (mkNetCtx (st oreq) (config ctx)))
                  = Ok tt)
      by (unfold update_network_config; apply try_any_swallows; reflexivity).
    rewrite Hok. cbn [machine_reset emit res st evs].
    eexists. rewrite !app_assoc. reflexivity.
  - split; [discriminate|intros _].
    destruct (Hreq eq_refl) as (Hfs & Hev). rewrite Hev. repeat split; auto.
    cbn. intros [Hx|[Hx|[Hx|[]]]]; discriminate Hx.
Qed.

(** ** [update]: the files it leaves alone *)

Lemma maintains_for_each_in {St A B} (I : St -> Prop) (l : list B)
    (body : B -> M St (flow A)) :
  (forall x, In x l -> maintains I (body x)) -> maintains I (for_each l body).
Proof.
  induction l as [|x l IH]; intros Hb; cbn [for_each];
    [apply maintains_pure; reflexivity|].
  apply maintains_bind; [apply Hb; left; reflexivity|].
  intros [| |v]; try (apply maintains_pure; reflexivity).
  apply IH. intros y Hy. apply Hb. right. exact Hy.
Qed.

Lemma maintains_traced {A} (I : World -> Prop) c (m : M World A) :
  maintains I m -> maintains I (traced c m).
Proof. intros Hm w Hw. exact (Hm w Hw). Qed.

Lemma maintains_keeps {St A X} (f : St -> X) (P : X -> Prop) (m : M St A) :
  keeps f m -> maintains (fun s => P (f s)) m.
Proof. intros Hm s Hs. rewrite Hm. exact Hs. Qed.

Lemma os_remove_other (path q : string) v :
  q <> path -> maintains (fun w => fs w !! q = v) (os_remove path).
Proof.
  intros Hq [m fl i po n wb flt] Hs. unfold os_remove. cbn in *.
  destruct (m !! path); cbn; [|exact Hs].
  rewrite lookup_delete_ne by auto. exact Hs.
Qed.

Lemma os_rename_other (src dst q : string) v :
  q <> src -> q <> dst -> maintains (fun w => fs w !! q = v) (os_rename src dst).
Proof.
  intros Hq Hq' [m fl i po n wb flt] Hs. unfold os_rename. cbn in *.
  destruct (m !! src); cbn; [|exact Hs].
  rewrite lookup_insert_ne by auto. rewrite lookup_delete_ne by auto. exact Hs.
Qed.

Lemma remove_stale_other (path q : string) v :
  q <> path ->
  maintains (fun w => fs w !! q = v)
    (try_except (os_remove path) is_OSError (fun _ => ret tt)).
Proof.
  intros Hq. apply maintains_try; [apply os_remove_other, Hq|].
  intros _. apply maintains_pure. reflexivity.
Qed.

Section Untouched.
Context `{Platform}.

Lemma stage_other (f : FileEntry) (q : string) v :
  q <> (dst_path f ++ ".new")%string ->
  maintains (fun w => fs w !! q = v) (stage f).
Proof.
  intros Hq w Hw. rewrite stage_st, get_file_other_files by exact Hq. exact Hw.
Qed.

Lemma backup_file_other (f : FileEntry) (q : string) v :
  q <> dst_path f -> q <> (dst_path f ++ ".bak")%string ->
  maintains (fun w => fs w !! q = v) (backup_file f).
Proof.
  intros Hq Hq'. unfold backup_file. apply maintains_traced.
  apply maintains_bind; [apply remove_stale_other, Hq'|]. intros _.
  apply os_rename_other; assumption.
Qed.

Lemma delete_file_other (f : string) (q : string) v :
  q <> ("/" ++ f)%string -> q <> ("/" ++ f ++ ".bak_del")%string ->
  maintains (fun w => fs w !! q = v) (delete_file f).
Proof.
  intros Hq Hq'. unfold delete_file. apply maintains_traced.
  apply maintains_bind; [apply remove_stale_other, Hq'|]. intros _.
  apply os_rename_other; assumption.
Qed.

Lemma write_firmware_keeps_fs (f : FirmwareEntry) : keeps fs (write_firmware f).
Proof.
  unfold write_firmware.
  repeat lazymatch goal with
         | |- keeps _ (get_data _ _ _ _) => apply get_data_keeps_fs
         | _ => flash_step
         end.
Qed.

Lemma apply_manifest_other (manifest : Manifest) (q : string) v :
  ~ touched manifest q ->
  maintains (fun w => fs w !! q = v) (apply_manifest manifest).
Proof.
  intros Hq. unfold touched in Hq.
  assert (Hfiles : forall f,
            In f (match m_new manifest, m_update manifest with
                  | Some new, Some upd => new ++ upd
                  | _, _ => []
                  end) ->
            q <> dst_path f /\ q <> (dst_path f ++ ".new")%string
            /\ q <> (dst_path f ++ ".bak")%string).
  { intros f Hf. repeat split; intros Heq; apply Hq; left; exists f; auto. }
  assert (Hdel : forall f, In f (default [] (m_delete manifest)) ->
            q <> ("/" ++ f)%string /\ q <> ("/" ++ f ++ ".bak_del")%string).
  { intros f Hf. split; intros Heq; apply Hq; right; exists f; auto. }
  clear Hq. unfold apply_manifest.
  apply maintains_bind.
  { unfold files_phase.
    destruct (m_new manifest) as [new|]; [destruct (m_update manifest) as [upd|]|];
      try (apply maintains_pure; reflexivity).
    apply maintains_bind.
    { apply maintains_for_each_in. intros f Hf. apply stage_other.
      apply (Hfiles f Hf). }
    intros c.
    assert (Hswap : maintains (fun w => fs w !! q = v)
                      (backup_all upd ;; commit_all (new ++ upd))).
    { apply maintains_bind.
      - unfold backup_all. apply maintains_for_each_in. intros f Hf.
        assert (Hin : In f (new ++ upd)) by (apply in_or_app; right; exact Hf).
        apply maintains_bind; [|intros _; apply maintains_pure; reflexivity].
        apply backup_file_other; apply (Hfiles f Hin).
      - intros _. unfold commit_all. apply maintains_for_each_in. intros f Hf.
        apply maintains_bind; [|intros _; apply maintains_pure; reflexivity].
        apply os_rename_other; apply (Hfiles f Hf). }
    destruct c; try exact Hswap. apply maintains_pure. reflexivity. }
  intros c.
  assert (Hrest : maintains (fun w => fs w !! q = v) (rest_phase manifest)).
  { unfold rest_phase. apply maintains_bind.
    - destruct (m_delete manifest) as [l|]; [|apply maintains_pure; reflexivity].
      apply maintains_for_each_in. intros f Hf.
      apply maintains_bind; [|intros _; apply maintains_pure; reflexivity].
      apply delete_file_other; apply (Hdel f Hf).
    - intros _. apply maintains_bind; [|intros _; apply maintains_pure; reflexivity].
      destruct (m_firmware manifest) as [fw|]; [|apply maintains_pure; reflexivity].
      apply (maintains_keeps fs (fun m => m !! q = v)), write_firmware_keeps_fs. }
  destruct c; try exact Hrest. apply maintains_pure. reflexivity.
Qed.

End Untouched.

(** X16. [update] changes no file but those that the manifest in use names:
    for its [new] and [update] entries (when it has both lists) the
    [dst_path], its [.new] and its [.bak]; for its [delete] entries the path
    and its [.bak_del]. Every other file is what it was, however the run
    ends. *)
Theorem update_touches_only_named_files `{Platform}
    (customManifest : manifest_opt) (fwtype token : option string) (w : World)
    (q : string) :
  (forall manifest,
     res (obtain customManifest fwtype token w) = Ok (Some manifest) ->
     ~ touched manifest q) ->
  fs (st (update customManifest fwtype token w)) !! q = fs w !! q.
Proof.
  intros Hq. rewrite update_run. cbv zeta.
  pose proof (obtain_keeps_fs customManifest fwtype token w) as Hfs.
  revert Hq Hfs. generalize (obtain customManifest fwtype token w).
  intros o0 Hq Hfs. cbv beta in Hfs.
  destruct (res o0) as [[manifest|]|e]; cbn [res st evs]; rewrite <- Hfs;
    try reflexivity.
  apply (apply_manifest_other manifest q (fs (st o0) !! q) (Hq manifest eq_refl)).
  reflexivity.
Qed.

(** X7. [get_file] that returns has left, at [dst_path + ".new"], the body
    it received, and the SHA-1 of that body is the declared hash; no other
    file and nothing of the flash has changed. *)
Theorem get_file_stages_a_verified_body `{Platform} (f : FileEntry) (w : World) :
  let o := get_file f w in
  let body := received (hd [] (net w)) in
  res o = Ok tt ->
  fs (st o) !! (dst_path f ++ ".new")%string = Some body
  /\ Py.hexlify (sha1 body) = hash f
  /\ (forall q, q <> (dst_path f ++ ".new")%string -> fs (st o) !! q = fs w !! q)
  /\ flash (st o) = flash w.
Proof.
  intros o body Hok. subst o body.
  destruct (get_file_ok f w Hok) as (Hnew & Hhash).
  repeat split; auto.
  - intros q Hq. apply get_file_other_files, Hq.
  - apply get_file_keeps_flash.
Qed.

Section OneNewFile.
Context `{Platform}.

(** The rename of a single [new] file: there is nothing to back up. *)
Lemma swap_new (f : FileEntry) (s : World) (body : bytes) :
  fs s !! (dst_path f ++ ".new")%string = Some body ->
  res ((backup_all [] ;; commit_all [f]) s) = Ok Next
  /\ st ((backup_all [] ;; commit_all [f]) s)
     = set_fs (fun m => <[dst_path f := body]> (delete (dst_path f ++ ".new")%string m)) s.
Proof.
  intros Hnew.
  pose proof (os_rename_run _ (dst_path f) s body Hnew) as Hr.
  assert (Hr1 : (os_rename (dst_path f ++ ".new")%string (dst_path f) ;; ret (@Next Z)) s
                = mkOut (Ok Next)
                    (set_fs (fun m => <[dst_path f := body]>
                                        (delete (dst_path f ++ ".new")%string m)) s)
                    ([EvRename (dst_path f ++ ".new") (dst_path f)] ++ [])).
  { rewrite (bind_ret_run _ _ _ tt) by (rewrite Hr; reflexivity).
    rewrite Hr. reflexivity. }
  assert (Hr2 : commit_all [f] s
                = mkOut (Ok Next)
                    (set_fs (fun m => <[dst_path f := body]>
                                        (delete (dst_path f ++ ".new")%string m)) s)
                    (([EvRename (dst_path f ++ ".new") (dst_path f)] ++ []) ++ [])).
  { unfold commit_all. rewrite for_each_one by (cbv beta; rewrite Hr1; reflexivity).
    cbv beta. rewrite Hr1. reflexivity. }
  rewrite (bind_ok_res _ _ _ Next) by reflexivity.
  rewrite (bind_ok_st _ _ _ Next) by reflexivity.
  change (st (backup_all [] s)) with s. rewrite Hr2. split; reflexivity.
Qed.

Lemma apply_one_new (f : FileEntry) (w : World) :
  res (apply_manifest (mkManifest (Some [f]) (Some []) None None) w) = Ok 2%Z ->
  res (get_file f w) = Ok tt
  /\ forall body,
       fs (st (get_file f w)) !! (dst_path f ++ ".new")%string = Some body ->
       st (apply_manifest (mkManifest (Some [f]) (Some []) None None) w)
       = set_fs (fun m => <[dst_path f := body]>
                            (delete (dst_path f ++ ".new")%string m))
           (st (get_file f w)).
Proof.
  set (manifest := mkManifest (Some [f]) (Some []) None None).
  intros Hok.
  destruct (res (get_file f w)) as [[]|e] eqn:Eg.
  2:{ pose proof (files_phase_stage_failed manifest [f] [] w eq_refl eq_refl
                    (stage_failed f w e Eg)) as Hzero.
      rewrite Hzero in Hok. discriminate Hok. }
  destruct (stage_ok f w Eg) as (Hr & Hst).
  split; [reflexivity|]. intros body Hnew.
  destruct (swap_new f (st (get_file f w)) body Hnew) as (Hswap & Hswap_st).
  rewrite <- Hst in Hswap, Hswap_st.
  destruct (files_phase_swapped manifest [f] [] w eq_refl eq_refl Hr) as (Hf & Hfst).
  cbn [app] in Hf, Hfst. rewrite Hswap in Hf. rewrite Hswap_st, Hst in Hfst.
  unfold apply_manifest. rewrite (bind_ok_st _ _ _ _ Hf). rewrite Hfst.
  reflexivity.
Qed.

End OneNewFile.

(** X19. [update] with a manifest that brings one [new] file, when it
    returns 2: the file holds the body that was downloaded, whose SHA-1 is
    the declared hash, and no [.new] file is left. Nothing else has changed:
    in particular no [.bak] was made of what [dst_path] held before. *)
Theorem update_installs_a_new_file `{Platform}
    (fwtype token : option string) (w : World) (f : FileEntry) :
  let o := update (Some (mkManifest (Some [f]) (Some []) None None)) fwtype token w in
  let body := received (hd [] (net w)) in
  let new_path := (dst_path f ++ ".new")%string in
  res o = Ok 2%Z ->
  fs (st o) !! dst_path f = Some body
  /\ Py.hexlify (sha1 body) = hash f
  /\ fs (st o) !! new_path = None
  /\ (forall q, q <> dst_path f -> q <> new_path -> fs (st o) !! q = fs w !! q).
Proof.
  cbv zeta.
  destruct (update_custom (Some (mkManifest (Some [f]) (Some []) None None))
              fwtype token w _ eq_refl) as (-> & ->).
  assert (Hst0 : st (obtain (Some (mkManifest (Some [f]) (Some []) None None))
                       fwtype token w) = w) by reflexivity.
  rewrite Hst0. clear Hst0. intros Hok.
  destruct (apply_one_new f w Hok) as (Eg & Hst).
  destruct (get_file_ok f w Eg) as (Hnew & Hhash).
  rewrite (Hst _ Hnew). clear Hst Hok.
  assert (Hn1 : dst_path f <> (dst_path f ++ ".new")%string)
    by (apply str_app_ne; discriminate).
  pose proof (get_file_other_files f w) as Hother.
  revert Hother Hnew. generalize (fs w). intros fs0.
  destruct (st (get_file f w)) as [m fl i po n wb flt]; cbn [fs set_fs].
  intros Hq Hnew. repeat split.
  - apply lookup_insert_eq.
  - exact Hhash.
  - rewrite lookup_insert_ne by auto. apply lookup_delete_eq.
  - intros q Hq1 Hq2. rewrite lookup_insert_ne by auto.
    rewrite lookup_delete_ne by auto. apply Hq, Hq2.
Qed.

(** * The properties on concrete runs *)

Ltac not_in_chars :=
  let Hin := fresh "Hin" in
  cbn; intros Hin;
  repeat (destruct Hin as [Hin|Hin]; [discriminate Hin|]); exact Hin.

(** X1, a run: [abc] downloaded to a [.new] file; the digest returned is
    that of the file. *)
Lemma get_data_fills_the_file_witness :
  let w := device [] [[http_ok (Py.encode "abc")]] in
  let o := @get_data reference_platform "a.txt" (Some "/flash/a.txt.new") true false w in
  res o = Ok (RHex "a9993e364706816aba3e25717850c26c9cd0d89d")
  /\ exists data,
       fs (st o) !! "/flash/a.txt.new" = Some data
       /\ RHex "a9993e364706816aba3e25717850c26c9cd0d89d"
          = RHex (Py.hexlify (Sha1.digest data)).
Proof.
  cbv zeta.
  assert (Hok : res (@get_data reference_platform "a.txt" (Some "/flash/a.txt.new")
                       true false (device [] [[http_ok (Py.encode "abc")]]))
                = Ok (RHex "a9993e364706816aba3e25717850c26c9cd0d89d"))
    by (vm_compute; reflexivity).
  split; [exact Hok|].
  destruct (@get_data_fills_the_file reference_platform _ _ _ _ _ _ Hok)
    as (data & Hfs & Hv & _).
  exists data. split; [exact Hfs | exact (Hv eq_refl)].
Defined.

(** X2, a run: [abc] flashed over what an earlier session left; the digest
    returned is that of the flash. *)
Lemma get_data_fills_the_flash_witness :
  let w := mkWorld ∅ (Py.encode "stale") "ota.example" 80
             [[http_ok (Py.encode "abc")]] ∅ [] in
  let o := @get_data reference_platform "fw.bin" None true true w in
  res o = Ok (RPair [] "a9993e364706816aba3e25717850c26c9cd0d89d")
  /\ RPair [] "a9993e364706816aba3e25717850c26c9cd0d89d"
     = RPair [] (Py.hexlify (Sha1.digest (flash (st o))))
  /\ fs (st o) = fs w.
Proof.
  cbv zeta.
  assert (Hok : res (@get_data reference_platform "fw.bin" None true true
                       (mkWorld ∅ (Py.encode "stale") "ota.example" 80
                          [[http_ok (Py.encode "abc")]] ∅ []))
                = Ok (RPair [] "a9993e364706816aba3e25717850c26c9cd0d89d"))
    by (vm_compute; reflexivity).
  split; [exact Hok|].
  destruct (@get_data_fills_the_flash reference_platform _ _ _ _ Hok)
    as (Hv & Hfs & _).
  split; [exact Hv | exact Hfs].
Defined.

(** X3, a run: the calls of a download to a file. *)
Lemma get_data_calls_in_order_witness :
  let w := device [] [[http_ok (Py.encode "abc")]] in
  let o := @get_data reference_platform "a.txt" (Some "/flash/a.txt.new") true false w in
  res o = Ok (RHex "a9993e364706816aba3e25717850c26c9cd0d89d")
  /\ exists loop,
       Forall loop_event loop
       /\ evs o = [EvConnect (ip w) (port w);
                   EvSend (_http_get "a.txt" (ip w ++ ":" ++ pretty (port w)))]
                  ++ sink_opened (Some "/flash/a.txt.new") false
                  ++ [EvSha1New; EvRecv] ++ loop ++ [EvSockClose]
                  ++ sink_closed (Some "/flash/a.txt.new") false ++ [EvSha1Digest].
Proof.
  cbv zeta.
  assert (Hok : res (@get_data reference_platform "a.txt" (Some "/flash/a.txt.new")
                       true false (device [] [[http_ok (Py.encode "abc")]]))
                = Ok (RHex "a9993e364706816aba3e25717850c26c9cd0d89d"))
    by (vm_compute; reflexivity).
  split; [exact Hok|].
  exact (@get_data_calls_in_order reference_platform _ _ _ _ _ _ Hok).
Defined.

(** X4, a run: the headers end in the second chunk, the body goes on in a
    third. *)
Lemma get_data_returns_a_well_framed_body_witness :
  let c1 := Py.encode ("HTTP/1.0 200 OK" ++ Py.CRLF) in
  let c2 := Py.encode "Server: x" ++ Py.CRLF2 ++ Py.encode "ab" in
  let c3 := Py.encode "cd" in
  let w := device [] [[c1; c2; c3]] in
  res (@get_data reference_platform "a.txt" None false false w)
  = Ok (RBytes (Py.encode "abcd"))
  /\ RBytes (Py.encode "abcd") = RBytes (Py.encode "ab" ++ concat [c3]).
Proof.
  cbv zeta.
  assert (Hok : res (@get_data reference_platform "a.txt" None false false
                       (device []
                          [[Py.encode ("HTTP/1.0 200 OK" ++ Py.CRLF);
                            Py.encode "Server: x" ++ Py.CRLF2 ++ Py.encode "ab";
                            Py.encode "cd"]]))
                = Ok (RBytes (Py.encode "abcd")))
    by (vm_compute; reflexivity).
  split; [exact Hok|].
  apply (@get_data_returns_a_well_framed_body reference_platform "a.txt"
           (device []
              [[Py.encode ("HTTP/1.0 200 OK" ++ Py.CRLF);
                Py.encode "Server: x" ++ Py.CRLF2 ++ Py.encode "ab";
                Py.encode "cd"]])
           (RBytes (Py.encode "abcd"))
           [Py.encode ("HTTP/1.0 200 OK" ++ Py.CRLF)]
           (Py.encode "Server: x" ++ Py.CRLF2 ++ Py.encode "ab")
           (Py.encode "Server: x") (Py.encode "ab") [Py.encode "cd"] []).
  - reflexivity.
  - repeat constructor; discriminate.
  - vm_compute. reflexivity.
  - vm_compute. reflexivity.
  - repeat constructor; discriminate.
  - exact Hok.
Defined.

(** X5, a run: the separator is cut by the chunk boundary. *)
Lemma get_data_misses_a_split_separator_witness :
  let cut := [Py.encode ("HTTP/1.0 200 OK" ++ Py.CRLF);
              Py.encode Py.CRLF ++ Py.encode "abc"] in
  let w := device [] [cut] in
  res (@get_data reference_platform "a.txt" None false false w) = Ok (RBytes [])
  /\ RBytes [] = (if false then RPair [] (Py.hexlify (Sha1.digest [])) else RBytes []).
Proof.
  cbv zeta.
  assert (Hok : res (@get_data reference_platform "a.txt" None false false
                       (device [] [[Py.encode ("HTTP/1.0 200 OK" ++ Py.CRLF);
                                    Py.encode Py.CRLF ++ Py.encode "abc"]]))
                = Ok (RBytes []))
    by (vm_compute; reflexivity).
  split; [exact Hok|].
  apply (@get_data_misses_a_split_separator reference_platform "a.txt" false
           (device [] [[Py.encode ("HTTP/1.0 200 OK" ++ Py.CRLF);
                        Py.encode Py.CRLF ++ Py.encode "abc"]])
           (RBytes [])).
  - repeat constructor.
  - exact Hok.
Defined.

(** X8, a run: the backup of [a.txt] over an older backup. *)
Lemma backup_file_moves_the_file_witness :
  let w := device [("/flash/a.txt", Py.encode "old");
                   ("/flash/a.txt.bak", Py.encode "older")] [] in
  fs w !! "/flash/a.txt" = Some (Py.encode "old")
  /\ res (backup_file a_txt w) = Ok tt
  /\ fs (st (backup_file a_txt w)) !! "/flash/a.txt.bak" = Some (Py.encode "old")
  /\ fs (st (backup_file a_txt w)) !! "/flash/a.txt" = None.
Proof.
  cbv zeta.
  assert (Hf : fs (device [("/flash/a.txt", Py.encode "old");
                           ("/flash/a.txt.bak", Py.encode "older")] [])
               !! dst_path a_txt = Some (Py.encode "old"))
    by (vm_compute; reflexivity).
  split; [exact Hf|].
  destruct (backup_file_moves_the_file a_txt _ _ Hf) as (Hr & Hbak & Hgone & _).
  auto.
Defined.

(** X9, a run: the backup of a file that is not there: the older backup is lost. *)
Lemma backup_file_missing_file_witness :
  let w := device [("/flash/a.txt.bak", Py.encode "older")] [] in
  fs w !! "/flash/a.txt" = None
  /\ res (backup_file a_txt w) = Raise OSError
  /\ fs (st (backup_file a_txt w)) !! "/flash/a.txt.bak" = None.
Proof.
  cbv zeta.
  assert (Hf : fs (device [("/flash/a.txt.bak", Py.encode "older")] [])
               !! dst_path a_txt = None)
    by (vm_compute; reflexivity).
  split; [exact Hf|].
  destruct (backup_file_missing_file a_txt _ Hf) as (Hr & Hbak & _).
  auto.
Defined.

(** X10, a run: the deletion of a file that is not there. *)
Lemma delete_file_missing_file_witness :
  let w := device [("/old.txt.bak_del", Py.encode "older")] [] in
  fs w !! "/old.txt" = None
  /\ res (delete_file "old.txt" w) = Raise OSError
  /\ fs (st (delete_file "old.txt" w)) !! "/old.txt.bak_del" = None.
Proof.
  cbv zeta.
  assert (Hf : fs (device [("/old.txt.bak_del", Py.encode "older")] [])
               !! ("/" ++ "old.txt")%string = None)
    by (vm_compute; reflexivity).
  split; [exact Hf|].
  destruct (delete_file_missing_file "old.txt" _ Hf) as (Hr & Hbak & _).
  auto.
Defined.


(** X15, a run: a manifest without a firmware entry. *)
Lemma update_flash_needs_a_firmware_entry_witness :
  let w := old_device [[http_ok (Py.encode "abc")]] in
  flash (st (@update reference_platform (Some update_a_txt) None None w)) = flash w.
Proof.
  cbv zeta.
  apply (@update_flash_needs_a_firmware_entry reference_platform).
  intros manifest Hm. vm_compute in Hm. injection Hm as <-. reflexivity.
Defined.

(** X17, a run: an update of [a.txt] on a device that does not have it. *)
Lemma update_backup_of_a_missing_file_witness :
  let w := device [] [[http_ok (Py.encode "abc")]] in
  let o := @update reference_platform (Some update_a_txt) None None w in
  fs w !! dst_path a_txt = None
  /\ (res o = Ok 0%Z
      \/ (res o = Raise OSError
          /\ (forall g, In g ([] ++ [a_txt]) -> In (EvExit (CGetFile g) true) (evs o))
          /\ In (EvExit (CBackupFile a_txt) false) (evs o))).
Proof.
  cbv zeta.
  assert (Hf : fs (device [] [[http_ok (Py.encode "abc")]]) !! dst_path a_txt = None)
    by (vm_compute; reflexivity).
  split; [exact Hf|].
  apply (@update_backup_of_a_missing_file reference_platform
           (Some update_a_txt) None None _ update_a_txt [] [] a_txt).
  - vm_compute. reflexivity.
  - reflexivity.
  - reflexivity.
  - exact Hf.
  - repeat constructor. vm_compute. discriminate.
Defined.

(** X18, a run: an update of [a.txt] that succeeds. *)
Lemma update_replaces_one_file_witness :
  let w := old_device [[http_ok (Py.encode "abc")]] in
  let o := @update reference_platform
             (Some (mkManifest (Some []) (Some [a_txt]) None None)) None None w in
  res o = Ok 2%Z
  /\ exists old,
       fs w !! dst_path a_txt = Some old
       /\ fs (st o) !! dst_path a_txt = Some (received (hd [] (net w)))
       /\ Py.hexlify (Sha1.digest (received (hd [] (net w)))) = hash a_txt.
Proof.
  cbv zeta.
  assert (Hok : res (@update reference_platform
                       (Some (mkManifest (Some []) (Some [a_txt]) None None)) None None
                       (old_device [[http_ok (Py.encode "abc")]])) = Ok 2%Z)
    by (vm_compute; reflexivity).
  split; [exact Hok|].
  destruct (@update_replaces_one_file reference_platform None None _ _ Hok)
    as (old & H1 & H2 & H3 & _).
  exists old. auto.
Defined.

(** X13, a run: the path of a firmware URL. *)
Lemma url_path_of_a_url_witness :
  url_path ("https:" ++ "//" ++ "fw.example" ++ "/" ++ "fw/a.bin") = "fw/a.bin"
  /\ url_path ("https:" ++ "//" ++ "fw.example") = "fw.example".
Proof.
  apply (url_path_of_a_url "https:" "fw.example" "fw/a.bin"); not_in_chars.
Defined.

(** X12, a run: the server after a firmware download. *)
Lemma write_firmware_retargets_witness :
  let f := mkFirmware "https://fw.example/fw/a.bin" in
  let w := device [] [[http_ok (Py.encode "abc")]] in
  let o := @write_firmware reference_platform f w in
  ip (st o) = "fw.example" /\ port (st o) = 443%Z.
Proof.
  cbv zeta.
  destruct (@write_firmware_retargets reference_platform
              (mkFirmware "https://fw.example/fw/a.bin")
              (device [] [[http_ok (Py.encode "abc")]])
              "https:" "fw.example" "fw/a.bin") as (Hip & Hport & _).
  - reflexivity.
  - not_in_chars.
  - not_in_chars.
  - not_in_chars.
  - split; [exact Hip | exact Hport].
Defined.

(** X20, a run: a merge that leaves the device identity alone. *)
Lemma network_config_keeps_other_keys_witness :
  let doc := JObj [("networkConfig",
                    JObj [("networkPreferences", JArr [JStr "wifi"]);
                          ("wifi", JObj [("ssid", JStr "home")])])] in
  let ctx := mkNetCtx (device [] []) {[ "device_id" := JStr "dev1"; "lte" := JObj [] ]} in
  config (st (@update_network_config reference_platform doc ctx)) !! "device_id"
  = config ctx !! "device_id".
Proof.
  cbv zeta.
  apply (@network_config_keeps_other_keys reference_platform); discriminate.
Defined.

(** X22, a run: a request that succeeds: the device restarts. *)
Lemma network_config_restart_witness :
  let url := "https://pyconfig.eu-central-1.elasticbeanstalk.com/device/networks/dev1" in
  let doc := JObj [("networkConfig", JObj [])] in
  let w := mkWorld ∅ [] "ota.example" 80 [] {[ url := doc ]} [] in
  let ctx := mkNetCtx w {[ "device_id" := JStr "dev1" ]} in
  exists before,
    evs (@update_device_network_config reference_platform ctx) = before ++ [EvReset].
Proof.
  cbv zeta.
  assert (Hid : config
                  (mkNetCtx
                     (mkWorld ∅ [] "ota.example" 80 []
                        {[ "https://pyconfig.eu-central-1.elasticbeanstalk.com/device/networks/dev1"
                           := JObj [("networkConfig", JObj [])] ]} [])
                     {[ "device_id" := JStr "dev1" ]}) !! "device_id"
                = Some (JStr "dev1")) by (vm_compute; reflexivity).
  apply (proj1 (@network_config_restart reference_platform _ _ Hid)).
  vm_compute. reflexivity.
Defined.

(** X19, a run: a [new] file over an existing one: the old content is gone. *)
Lemma update_installs_a_new_file_witness :
  let w := old_device [[http_ok (Py.encode "abc")]] in
  let o := @update reference_platform
             (Some (mkManifest (Some [a_txt]) (Some []) None None)) None None w in
  res o = Ok 2%Z
  /\ fs (st o) !! dst_path a_txt = Some (received (hd [] (net w)))
  /\ fs (st o) !! "/flash/a.txt.bak" = fs w !! "/flash/a.txt.bak".
Proof.
  cbv zeta.
  assert (Hok : res (@update reference_platform
                       (Some (mkManifest (Some [a_txt]) (Some []) None None)) None None
                       (old_device [[http_ok (Py.encode "abc")]])) = Ok 2%Z)
    by (vm_compute; reflexivity).
  split; [exact Hok|].
  destruct (@update_installs_a_new_file reference_platform None None _ _ Hok)
    as (H1 & _ & _ & H4).
  split; [exact H1|]. apply H4; vm_compute; discriminate.
Defined.

(** X7, a run: a staged file. *)
Lemma get_file_stages_a_verified_body_witness :
  let w := old_device [[http_ok (Py.encode "abc")]] in
  res (@get_file reference_platform a_txt w) = Ok tt
  /\ fs (st (@get_file reference_platform a_txt w)) !! "/flash/a.txt.new"
     = Some (received (hd [] (net w))).
Proof.
  cbv zeta.
  assert (Hok : res (@get_file reference_platform a_txt
                       (old_device [[http_ok (Py.encode "abc")]])) = Ok tt)
    by (vm_compute; reflexivity).
  split; [exact Hok|].
  exact (proj1 (@get_file_stages_a_verified_body reference_platform _ _ Hok)).
Defined.

(** X16, a run: a file that the manifest does not name. *)
Lemma update_touches_only_named_files_witness :
  let w := device [("/flash/a.txt", Py.encode "old"); ("/flash/main.py", Py.encode "m")]
             [[http_ok (Py.encode "abc")]] in
  fs (st (@update reference_platform (Some update_a_txt) None None w)) !! "/flash/main.py"
  = fs w !! "/flash/main.py".
Proof.
  cbv zeta.
  apply (@update_touches_only_named_files reference_platform).
  intros manifest Hm. vm_compute in Hm. injection Hm as <-.
  unfold touched. cbn.
  intros [(f & [<-|[]] & [Hq|[Hq|Hq]])|(f & [] & _)]; discriminate Hq.
Defined.

(** * The claims on the files of a manifest *)

(** C4. [get_file] first removes a stale [dst_path + ".new"] (its absence
    is ignored), downloads to that path with the digest computed, and
    returns normally exactly when the download returned and its digest
    equals the declared hash; on a mismatch it raises. When the download
    returns, the file at [dst_path + ".new"] holds the body, and the digest
    that is compared is the SHA-1 of what that file holds. Whatever happens,
    it renames nothing, and no file but [dst_path + ".new"] (so not the one
    at [dst_path]) has changed. *)
Theorem get_file_stages_and_verifies `{Platform} (f : FileEntry) (w : World) :
  let new_path := (dst_path f ++ ".new")%string in
  let download :=
    get_data (url_path (URL f)) (Some new_path) true false
      (set_fs (delete new_path) w) in
  let body := received (hd [] (net w)) in
  let digest := Py.hexlify (sha1 body) in
  let o := get_file f w in
  (exists rest,
     evs o = EvEnter (CGetFile f) :: EvRemove new_path :: evs download ++ rest)
  /\ (is_ok (res download) = true -> res download = Ok (RHex digest))
  /\ (res o = Ok tt <-> is_ok (res download) = true /\ digest = hash f)
  /\ (is_ok (res download) = true -> digest <> hash f ->
      res o = Raise (Exception "Downloaded file's hash does not match expected hash"))
  /\ fs (st o) !! dst_path f = fs w !! dst_path f
  /\ Forall (fun e => forall src dst, e <> EvRename src dst) (evs o)
  /\ (is_ok (res download) = true ->
      fs (st o) !! new_path = Some body
      /\ exists data,
           fs (st o) !! new_path = Some data
           /\ res download = Ok (RHex (Py.hexlify (sha1 data))))
  /\ (res o = Ok tt ->
      exists data,
        fs (st o) !! new_path = Some data /\ Py.hexlify (sha1 data) = hash f)
  /\ (forall q, q <> new_path -> fs (st o) !! q = fs w !! q).
Proof.
  cbv zeta.
  pose proof (get_file_run f w) as Hrun. cbv zeta in Hrun.
  pose proof (get_file_st f w) as Hstate.
  pose proof (get_file_other_files f w) as Hothers.
  pose proof (fun v => get_data_ok (url_path (URL f))
                (Some (dst_path f ++ ".new")%string) true false
                (set_fs (delete (dst_path f ++ ".new")%string) w) v) as Hv.
  pose proof (fun v => get_data_run (url_path (URL f))
                (Some (dst_path f ++ ".new")%string) true false
                (set_fs (delete (dst_path f ++ ".new")%string) w) v) as Hsink.
  cbv zeta in Hv, Hsink.
  assert (Hne : dst_path f <> (dst_path f ++ ".new")%string)
    by (apply str_app_ne; discriminate).
  assert (Hnet : net (set_fs (delete (dst_path f ++ ".new")%string) w) = net w)
    by (destruct w; reflexivity).
  rewrite Hnet in Hv, Hsink.
  assert (Hrename : Forall (fun e => forall src dst, e <> EvRename src dst)
                      (evs (get_file f w))).
  { eapply Forall_impl; [apply get_file_stage_events|].
    intros e He src dst ->. exact He. }
  rewrite Hrun in Hrename |- *. rewrite Hrun in Hothers. rewrite Hrun in Hstate.
  clear Hrun.
  revert Hv Hsink Hrename Hothers Hstate.
  generalize (get_data (url_path (URL f)) (Some (dst_path f ++ ".new")%string)
                true false (set_fs (delete (dst_path f ++ ".new")%string) w)).
  intros od Hv Hsink Hrename Hothers Hstate.
  destruct (res od) as [v|e] eqn:Eod.
  - destruct (Hv v eq_refl) as [_ ->].
    destruct (Hsink _ eq_refl) as (_ & Hnew & _).
    cbn [differs is_ok] in *.
    destruct (String.eqb_spec
                (Py.hexlify (sha1 (received (hd [] (net w))))) (hash f)) as [Heq|Hneq];
      cbn [negb res st evs] in *.
    + repeat split; eauto; try tauto; try (intros; contradiction).
    + repeat split; eauto; try tauto; try discriminate;
        try (intros [_ ?]; contradiction).
  - cbn [res st evs is_ok] in *.
    repeat split; eauto; try discriminate; try (intros [? _]; discriminate).
Qed.

(** ** [update]: the calls of the backup and of the commit, in order *)

Lemma os_rename_evs (src dst : string) (s : World) :
  evs (os_rename src dst s) = [EvRename src dst].
Proof.
  unfold os_rename. rewrite bind_run. cbn [emit res st evs]. rewrite bind_run.
  cbn [get res st evs]. destruct (fs s !! src); reflexivity.
Qed.

Lemma backup_file_ok_evs (f : FileEntry) (s : World) :
  res (backup_file f s) = Ok tt -> evs (backup_file f s) = backup_calls f.
Proof.
  destruct (fs s !! dst_path f) as [old|] eqn:E.
  - intros _. rewrite (backup_file_run f s old E). reflexivity.
  - rewrite (backup_file_missing_run f s E). discriminate.
Qed.

Lemma backup_all_events (upd : list FileEntry) : forall (s : World) c,
  res (backup_all upd s) = Ok c ->
  evs (backup_all upd s) = flat_map backup_calls upd.
Proof.
  unfold backup_all.
  induction upd as [|g upd IH]; intros s c Hok; [reflexivity|].
  cbn [for_each flat_map] in *.
  apply bind_ok_inv in Hok as (c1 & Hc1 & Hrest & _ & Hev). rewrite Hev.
  apply bind_ok_inv in Hc1 as ([] & Hb & Hret & Hst1 & Hev1).
  injection Hret as <-. rewrite Hev1, Hst1 in *.
  rewrite (backup_file_ok_evs g s Hb). cbn [ret evs st]. rewrite app_nil_r.
  f_equal. exact (IH _ _ Hrest).
Qed.

Lemma commit_all_events (l : list FileEntry) : forall (s : World) c,
  res (commit_all l s) = Ok c ->
  evs (commit_all l s) = map commit_call l.
Proof.
  unfold commit_all.
  induction l as [|g l IH]; intros s c Hok; [reflexivity|].
  cbn [for_each map] in *.
  apply bind_ok_inv in Hok as (c1 & Hc1 & Hrest & _ & Hev). rewrite Hev.
  apply bind_ok_inv in Hc1 as ([] & Hb & Hret & Hst1 & Hev1).
  injection Hret as <-. rewrite Hev1, Hst1 in *.
  rewrite os_rename_evs. cbn [ret evs st app].
  unfold commit_call at 1. f_equal. exact (IH _ _ Hrest).
Qed.

Section Sequence.
Context `{Platform}.

(** The calls of [update] once it has a manifest with both lists, when it
    returns 2: the downloads, then the backups of the [update] entries,
    then the renames of all the entries, then the rest. *)
Lemma apply_manifest_sequence (manifest : Manifest) new upd (s : World) :
  m_new manifest = Some new -> m_update manifest = Some upd ->
  res (apply_manifest manifest s) = Ok 2%Z ->
  exists staged rest,
    evs (apply_manifest manifest s)
    = staged ++ flat_map backup_calls upd ++ map commit_call (new ++ upd) ++ rest
    /\ Forall stage_event staged /\ Forall rest_event rest.
Proof.
  intros En Eu Hok. unfold apply_manifest in *.
  apply bind_ok_inv in Hok as (c & Hfiles & Hrest & _ & Hev). rewrite Hev.
  clear Hev.
  assert (Hr : Forall rest_event (evs (rest_phase manifest (st (files_phase manifest s)))))
    by apply rest_phase_rest.
  assert (Hphase :
            c = Next
            /\ exists staged,
                 evs (files_phase manifest s)
                 = staged ++ flat_map backup_calls upd ++ map commit_call (new ++ upd)
                 /\ Forall stage_event staged).
  { revert Hfiles. unfold files_phase. rewrite En, Eu. intros Hfiles.
    apply bind_ok_inv in Hfiles as (c1 & Hstage & Hk & _ & Hev1). rewrite Hev1.
    destruct (stage_all_cases (new ++ upd) s) as (Hst & [(Hr1 & _)|(Hr1 & _)]);
      rewrite Hr1 in Hstage; injection Hstage as <-.
    - apply bind_ok_inv in Hk as (c2 & Hb & Hc & _ & Hev2).
      split; [exact (for_each_next _ _ _ _ Hc)|].
      exists (evs (for_each (new ++ upd) stage s)). split; [|exact Hst].
      f_equal. rewrite Hev2.
      rewrite (backup_all_events _ _ _ Hb), (commit_all_events _ _ _ Hc).
      reflexivity.
    - injection Hk as <-. cbn [ret res] in Hrest. discriminate Hrest. }
  destruct Hphase as (-> & staged & Hevf & Hst). rewrite Hevf.
  exists staged, (evs (rest_phase manifest (st (files_phase manifest s)))).
  split; [|split; assumption].
  rewrite <- !app_assoc. reflexivity.
Qed.

End Sequence.

(** C3 (amended). For the manifest in use, [update] downloads, backs up
    and renames files exactly when the manifest has both a [new] and an
    [update] list: when either key is absent no [get_file], no
    [backup_file] and no rename of a [.new] file onto its [dst_path]
    happens; when both are present and [update] returns 2, every entry of
    [new + update] has been downloaded and renamed, and every entry of
    [update] backed up. In that case the calls come in this order: the
    downloads (with no backup and no rename among them), then the backups
    of the entries of [update] and of no other, one after the other, then
    the renames of the entries of [new + update], then the deletions and
    the firmware. *)
Theorem update_files_need_both_lists `{Platform}
    (customManifest : manifest_opt) (fwtype token : option string) (w : World)
    (manifest : Manifest) :
  res (obtain customManifest fwtype token w) = Ok (Some manifest) ->
  let o := update customManifest fwtype token w in
  (m_new manifest = None \/ m_update manifest = None ->
     (forall f, ~ In (EvEnter (CGetFile f)) (evs o))
     /\ (forall f, ~ In (EvEnter (CBackupFile f)) (evs o))
     /\ (forall f, ~ In (EvRename (dst_path f ++ ".new") (dst_path f)) (evs o)))
  /\ (forall new upd,
        m_new manifest = Some new -> m_update manifest = Some upd ->
        res o = Ok 2%Z ->
        (forall f, In f (new ++ upd) ->
           In (EvExit (CGetFile f) true) (evs o)
           /\ In (EvRename (dst_path f ++ ".new") (dst_path f)) (evs o))
        /\ (forall f, In f upd -> In (EvExit (CBackupFile f) true) (evs o))
        /\ exists staged rest,
             evs o = evs (obtain customManifest fwtype token w) ++ staged
                     ++ flat_map backup_calls upd
                     ++ map commit_call (new ++ upd) ++ rest
             /\ Forall stage_event staged /\ Forall rest_event rest).
Proof.
  intros Hob. cbv zeta.
  destruct (update_custom _ _ _ _ _ Hob) as (Hres & _).
  pose proof (update_with_manifest _ _ _ _ _ Hob) as Hup.
  assert (Hevs : evs (update customManifest fwtype token w)
                 = evs (obtain customManifest fwtype token w)
                   ++ evs (apply_manifest manifest
                             (st (obtain customManifest fwtype token w))))
    by (rewrite Hup; reflexivity).
  clear Hup. rewrite Hres, Hevs. clear Hres Hevs.
  pose proof (obtain_transfer customManifest fwtype token w) as Hpre.
  revert Hpre. generalize (evs (obtain customManifest fwtype token w)).
  generalize (st (obtain customManifest fwtype token w)).
  intros s0 ev0 Hpre. split.
  - intros Hnone.
    pose proof (apply_manifest_skips manifest s0 Hnone) as Hrest.
    assert (Hall : Forall rest_event (ev0 ++ evs (apply_manifest manifest s0))).
    { apply Forall_app. split; [|exact Hrest].
      eapply Forall_impl; [exact Hpre | exact inner_rest]. }
    rewrite List.Forall_forall in Hall. repeat split.
    + intros f Hin. exact (Hall _ Hin).
    + intros f Hin. exact (Hall _ Hin).
    + intros f Hin. exact (commit_not_rest _ (Hall _ Hin)).
  - intros new upd En Eu Hok.
    destruct (apply_manifest_applied manifest s0 new upd En Eu Hok)
      as [Hfiles Hbackups].
    split; [|split].
    + intros f Hf. destruct (Hfiles f Hf). split; apply in_or_app; right; assumption.
    + intros f Hf. apply in_or_app. right. exact (Hbackups f Hf).
    + destruct (apply_manifest_sequence manifest new upd s0 En Eu Hok)
        as (staged & rest & Hev & Hst & Hr).
      exists staged, rest. rewrite Hev. auto.
Qed.

(** C3, a run: a manifest that brings [b.txt] and updates [a.txt]. Both are
    downloaded and renamed; [a.txt] alone is backed up, after the downloads
    and before the renames. *)
Lemma update_files_need_both_lists_witness :
  let w := old_device [[http_ok (Py.encode "abc")]; [http_ok (Py.encode "abc")]] in
  let o := @update reference_platform (Some install_b_update_a) None None w in
  (res (@obtain reference_platform (Some install_b_update_a) None None w)
   = Ok (Some install_b_update_a)
   /\ m_new install_b_update_a = Some [b_txt]
   /\ m_update install_b_update_a = Some [a_txt]
   /\ res o = Ok 2%Z)
  /\ (forall f, In f ([b_txt] ++ [a_txt]) ->
        In (EvExit (CGetFile f) true) (evs o)
        /\ In (EvRename (dst_path f ++ ".new") (dst_path f)) (evs o))
  /\ (forall f, In f [a_txt] -> In (EvExit (CBackupFile f) true) (evs o))
  /\ (exists staged rest,
        evs o = evs (@obtain reference_platform (Some install_b_update_a) None None w)
                ++ staged ++ flat_map backup_calls [a_txt]
                ++ map commit_call ([b_txt] ++ [a_txt]) ++ rest
        /\ Forall stage_event staged /\ Forall rest_event rest)
  /\ existsb (fun e => match e with
                       | EvEnter (CBackupFile g) => String.eqb (dst_path g) "/flash/b.txt"
                       | _ => false
                       end) (evs o) = false.
Proof.
  cbv zeta.
  assert (Hok : res (@update reference_platform (Some install_b_update_a) None None
                       (old_device [[http_ok (Py.encode "abc")];
                                    [http_ok (Py.encode "abc")]])) = Ok 2%Z)
    by (vm_compute; reflexivity).
  split.
  { split; [vm_compute; reflexivity|].
    split; [reflexivity|]. split; [reflexivity|exact Hok]. }
  destruct (proj2 (@update_files_need_both_lists reference_platform
                     (Some install_b_update_a) None None
                     (old_device [[http_ok (Py.encode "abc")];
                                  [http_ok (Py.encode "abc")]])
                     install_b_update_a eq_refl)
              [b_txt] [a_txt] eq_refl eq_refl Hok) as (Hfiles & Hbackups & Hseq).
  split; [exact Hfiles|]. split; [exact Hbackups|]. split; [exact Hseq|].
  vm_compute. reflexivity.
Defined.
